(** * Eligibility matching engine of [proc.py]

    A shallow embedding of the matching core of [proc.py]
    ([parse_age_string], [meets_structured_criteria], [quote_for_essie],
    [format_age_essie], [fetch_ctg_studies], [match_patient_to_trials])
    together with the part of the Python runtime these functions call
    (strings and their Unicode tables, [int] and [str], and what
    [requests.get] does with the query parameters before it sends a
    request), and the properties the specification states about them.

    Python values are dynamically typed: whatever the registry's JSON or
    the patient table holds reaches the code.  The embedding therefore
    works on a universe [pyval] of Python values and makes every exception
    the code can raise an explicit [Raise] result. *)

From Stdlib Require Import NArith ZArith DecimalString DecimalPos Floats.SpecFloat.
From stdpp Require Import prelude strings gmap.

Local Open Scope N_scope.

(** ** Unicode character database

    Python strings are sequences of Unicode code points.  The tables below
    are the properties of the Unicode character database (version 14, the
    one of CPython 3.11) that [str.isspace], [str.isdigit], [int],
    [str.lower] and [str.upper] consult. *)

Module UCD.

(** Code points for which [str.isspace] holds; [str.split()] and the regex class \s use the same test. *)
Definition whitespace : list (N * N) :=
  [(0x9, 0xD); (0x1C, 0x20); (0x85, 0x85); (0xA0, 0xA0);
   (0x1680, 0x1680); (0x2000, 0x200A); (0x2028, 0x2029); (0x202F, 0x202F);
   (0x205F, 0x205F); (0x3000, 0x3000)]%N.

(** First code point of every run of ten decimal digits (general category Nd); the digit at offset [i] of a run has value [i]. *)
Definition decimal_zeros : list N :=
  [0x30; 0x660; 0x6F0; 0x7C0; 0x966; 0x9E6; 0xA66; 0xAE6;
   0xB66; 0xBE6; 0xC66; 0xCE6; 0xD66; 0xDE6; 0xE50; 0xED0;
   0xF20; 0x1040; 0x1090; 0x17E0; 0x1810; 0x1946; 0x19D0; 0x1A80;
   0x1A90; 0x1B50; 0x1BB0; 0x1C40; 0x1C50; 0xA620; 0xA8D0; 0xA900;
   0xA9D0; 0xA9F0; 0xAA50; 0xABF0; 0xFF10; 0x104A0; 0x10D30; 0x11066;
   0x110F0; 0x11136; 0x111D0; 0x112F0; 0x11450; 0x114D0; 0x11650; 0x116C0;
   0x11730; 0x118E0; 0x11950; 0x11C50; 0x11D50; 0x11DA0; 0x16A60; 0x16AC0;
   0x16B50; 0x1D7CE; 0x1D7D8; 0x1D7E2; 0x1D7EC; 0x1D7F6; 0x1E140; 0x1E2F0;
   0x1E950; 0x1FBF0]%N.

(** Code points with Numeric_Type=Digit that are not decimal: [str.isdigit] accepts them, [int] does not. *)
Definition other_digits : list (N * N) :=
  [(0xB2, 0xB3); (0xB9, 0xB9); (0x1369, 0x1371); (0x19DA, 0x19DA);
   (0x2070, 0x2070); (0x2074, 0x2079); (0x2080, 0x2089); (0x2460, 0x2468);
   (0x2474, 0x247C); (0x2488, 0x2490); (0x24EA, 0x24EA); (0x24F5, 0x24FD);
   (0x24FF, 0x24FF); (0x2776, 0x277E); (0x2780, 0x2788); (0x278A, 0x2792);
   (0x10A40, 0x10A43); (0x10E60, 0x10E68); (0x11052, 0x1105A); (0x1F100, 0x1F10A)]%N.

(** Code points with the Cased property. *)
Definition cased : list (N * N) :=
  [(0x41, 0x5A); (0x61, 0x7A); (0xAA, 0xAA); (0xB5, 0xB5);
   (0xBA, 0xBA); (0xC0, 0xD6); (0xD8, 0xF6); (0xF8, 0x1BA);
   (0x1BC, 0x1BF); (0x1C4, 0x293); (0x295, 0x2B8); (0x2C0, 0x2C1);
   (0x2E0, 0x2E4); (0x345, 0x345); (0x370, 0x373); (0x376, 0x377);
   (0x37A, 0x37D); (0x37F, 0x37F); (0x386, 0x386); (0x388, 0x38A);
   (0x38C, 0x38C); (0x38E, 0x3A1); (0x3A3, 0x3F5); (0x3F7, 0x481);
   (0x48A, 0x52F); (0x531, 0x556); (0x560, 0x588); (0x10A0, 0x10C5);
   (0x10C7, 0x10C7); (0x10CD, 0x10CD); (0x10D0, 0x10FA); (0x10FD, 0x10FF);
   (0x13A0, 0x13F5); (0x13F8, 0x13FD); (0x1C80, 0x1C88); (0x1C90, 0x1CBA);
   (0x1CBD, 0x1CBF); (0x1D00, 0x1DBF); (0x1E00, 0x1F15); (0x1F18, 0x1F1D);
   (0x1F20, 0x1F45); (0x1F48, 0x1F4D); (0x1F50, 0x1F57); (0x1F59, 0x1F59);
   (0x1F5B, 0x1F5B); (0x1F5D, 0x1F5D); (0x1F5F, 0x1F7D); (0x1F80, 0x1FB4);
   (0x1FB6, 0x1FBC); (0x1FBE, 0x1FBE); (0x1FC2, 0x1FC4); (0x1FC6, 0x1FCC);
   (0x1FD0, 0x1FD3); (0x1FD6, 0x1FDB); (0x1FE0, 0x1FEC); (0x1FF2, 0x1FF4);
   (0x1FF6, 0x1FFC); (0x2071, 0x2071); (0x207F, 0x207F); (0x2090, 0x209C);
   (0x2102, 0x2102); (0x2107, 0x2107); (0x210A, 0x2113); (0x2115, 0x2115);
   (0x2119, 0x211D); (0x2124, 0x2124); (0x2126, 0x2126); (0x2128, 0x2128);
   (0x212A, 0x212D); (0x212F, 0x2134); (0x2139, 0x2139); (0x213C, 0x213F);
   (0x2145, 0x2149); (0x214E, 0x214E); (0x2160, 0x217F); (0x2183, 0x2184);
   (0x24B6, 0x24E9); (0x2C00, 0x2CE4); (0x2CEB, 0x2CEE); (0x2CF2, 0x2CF3);
   (0x2D00, 0x2D25); (0x2D27, 0x2D27); (0x2D2D, 0x2D2D); (0xA640, 0xA66D);
   (0xA680, 0xA69D); (0xA722, 0xA787); (0xA78B, 0xA78E); (0xA790, 0xA7CA);
   (0xA7D0, 0xA7D1); (0xA7D3, 0xA7D3); (0xA7D5, 0xA7D9); (0xA7F5, 0xA7F6);
   (0xA7F8, 0xA7FA); (0xAB30, 0xAB5A); (0xAB5C, 0xAB68); (0xAB70, 0xABBF);
   (0xFB00, 0xFB06); (0xFB13, 0xFB17); (0xFF21, 0xFF3A); (0xFF41, 0xFF5A);
   (0x10400, 0x1044F); (0x104B0, 0x104D3); (0x104D8, 0x104FB); (0x10570, 0x1057A);
   (0x1057C, 0x1058A); (0x1058C, 0x10592); (0x10594, 0x10595); (0x10597, 0x105A1);
   (0x105A3, 0x105B1); (0x105B3, 0x105B9); (0x105BB, 0x105BC); (0x10780, 0x10780);
   (0x10783, 0x10785); (0x10787, 0x107B0); (0x107B2, 0x107BA); (0x10C80, 0x10CB2);
   (0x10CC0, 0x10CF2); (0x118A0, 0x118DF); (0x16E40, 0x16E7F); (0x1D400, 0x1D454);
   (0x1D456, 0x1D49C); (0x1D49E, 0x1D49F); (0x1D4A2, 0x1D4A2); (0x1D4A5, 0x1D4A6);
   (0x1D4A9, 0x1D4AC); (0x1D4AE, 0x1D4B9); (0x1D4BB, 0x1D4BB); (0x1D4BD, 0x1D4C3);
   (0x1D4C5, 0x1D505); (0x1D507, 0x1D50A); (0x1D50D, 0x1D514); (0x1D516, 0x1D51C);
   (0x1D51E, 0x1D539); (0x1D53B, 0x1D53E); (0x1D540, 0x1D544); (0x1D546, 0x1D546);
   (0x1D54A, 0x1D550); (0x1D552, 0x1D6A5); (0x1D6A8, 0x1D6C0); (0x1D6C2, 0x1D6DA);
   (0x1D6DC, 0x1D6FA); (0x1D6FC, 0x1D714); (0x1D716, 0x1D734); (0x1D736, 0x1D74E);
   (0x1D750, 0x1D76E); (0x1D770, 0x1D788); (0x1D78A, 0x1D7A8); (0x1D7AA, 0x1D7C2);
   (0x1D7C4, 0x1D7CB); (0x1DF00, 0x1DF09); (0x1DF0B, 0x1DF1E); (0x1E900, 0x1E943);
   (0x1F130, 0x1F149); (0x1F150, 0x1F169); (0x1F170, 0x1F189)]%N.

(** Code points with the Case_Ignorable property. *)
Definition case_ignorable : list (N * N) :=
  [(0x27, 0x27); (0x2E, 0x2E); (0x3A, 0x3A); (0x5E, 0x5E);
   (0x60, 0x60); (0xA8, 0xA8); (0xAD, 0xAD); (0xAF, 0xAF);
   (0xB4, 0xB4); (0xB7, 0xB8); (0x2B0, 0x36F); (0x374, 0x375);
   (0x37A, 0x37A); (0x384, 0x385); (0x387, 0x387); (0x483, 0x489);
   (0x559, 0x559); (0x55F, 0x55F); (0x591, 0x5BD); (0x5BF, 0x5BF);
   (0x5C1, 0x5C2); (0x5C4, 0x5C5); (0x5C7, 0x5C7); (0x5F4, 0x5F4);
   (0x600, 0x605); (0x610, 0x61A); (0x61C, 0x61C); (0x640, 0x640);
   (0x64B, 0x65F); (0x670, 0x670); (0x6D6, 0x6DD); (0x6DF, 0x6E8);
   (0x6EA, 0x6ED); (0x70F, 0x70F); (0x711, 0x711); (0x730, 0x74A);
   (0x7A6, 0x7B0); (0x7EB, 0x7F5); (0x7FA, 0x7FA); (0x7FD, 0x7FD);
   (0x816, 0x82D); (0x859, 0x85B); (0x888, 0x888); (0x890, 0x891);
   (0x898, 0x89F); (0x8C9, 0x902); (0x93A, 0x93A); (0x93C, 0x93C);
   (0x941, 0x948); (0x94D, 0x94D); (0x951, 0x957); (0x962, 0x963);
   (0x971, 0x971); (0x981, 0x981); (0x9BC, 0x9BC); (0x9C1, 0x9C4);
   (0x9CD, 0x9CD); (0x9E2, 0x9E3); (0x9FE, 0x9FE); (0xA01, 0xA02);
   (0xA3C, 0xA3C); (0xA41, 0xA42); (0xA47, 0xA48); (0xA4B, 0xA4D);
   (0xA51, 0xA51); (0xA70, 0xA71); (0xA75, 0xA75); (0xA81, 0xA82);
   (0xABC, 0xABC); (0xAC1, 0xAC5); (0xAC7, 0xAC8); (0xACD, 0xACD);
   (0xAE2, 0xAE3); (0xAFA, 0xAFF); (0xB01, 0xB01); (0xB3C, 0xB3C);
   (0xB3F, 0xB3F); (0xB41, 0xB44); (0xB4D, 0xB4D); (0xB55, 0xB56);
   (0xB62, 0xB63); (0xB82, 0xB82); (0xBC0, 0xBC0); (0xBCD, 0xBCD);
   (0xC00, 0xC00); (0xC04, 0xC04); (0xC3C, 0xC3C); (0xC3E, 0xC40);
   (0xC46, 0xC48); (0xC4A, 0xC4D); (0xC55, 0xC56); (0xC62, 0xC63);
   (0xC81, 0xC81); (0xCBC, 0xCBC); (0xCBF, 0xCBF); (0xCC6, 0xCC6);
   (0xCCC, 0xCCD); (0xCE2, 0xCE3); (0xD00, 0xD01); (0xD3B, 0xD3C);
   (0xD41, 0xD44); (0xD4D, 0xD4D); (0xD62, 0xD63); (0xD81, 0xD81);
   (0xDCA, 0xDCA); (0xDD2, 0xDD4); (0xDD6, 0xDD6); (0xE31, 0xE31);
   (0xE34, 0xE3A); (0xE46, 0xE4E); (0xEB1, 0xEB1); (0xEB4, 0xEBC);
   (0xEC6, 0xEC6); (0xEC8, 0xECD); (0xF18, 0xF19); (0xF35, 0xF35);
   (0xF37, 0xF37); (0xF39, 0xF39); (0xF71, 0xF7E); (0xF80, 0xF84);
   (0xF86, 0xF87); (0xF8D, 0xF97); (0xF99, 0xFBC); (0xFC6, 0xFC6);
   (0x102D, 0x1030); (0x1032, 0x1037); (0x1039, 0x103A); (0x103D, 0x103E);
   (0x1058, 0x1059); (0x105E, 0x1060); (0x1071, 0x1074); (0x1082, 0x1082);
   (0x1085, 0x1086); (0x108D, 0x108D); (0x109D, 0x109D); (0x10FC, 0x10FC);
   (0x135D, 0x135F); (0x1712, 0x1714); (0x1732, 0x1733); (0x1752, 0x1753);
   (0x1772, 0x1773); (0x17B4, 0x17B5); (0x17B7, 0x17BD); (0x17C6, 0x17C6);
   (0x17C9, 0x17D3); (0x17D7, 0x17D7); (0x17DD, 0x17DD); (0x180B, 0x180F);
   (0x1843, 0x1843); (0x1885, 0x1886); (0x18A9, 0x18A9); (0x1920, 0x1922);
   (0x1927, 0x1928); (0x1932, 0x1932); (0x1939, 0x193B); (0x1A17, 0x1A18);
   (0x1A1B, 0x1A1B); (0x1A56, 0x1A56); (0x1A58, 0x1A5E); (0x1A60, 0x1A60);
   (0x1A62, 0x1A62); (0x1A65, 0x1A6C); (0x1A73, 0x1A7C); (0x1A7F, 0x1A7F);
   (0x1AA7, 0x1AA7); (0x1AB0, 0x1ACE); (0x1B00, 0x1B03); (0x1B34, 0x1B34);
   (0x1B36, 0x1B3A); (0x1B3C, 0x1B3C); (0x1B42, 0x1B42); (0x1B6B, 0x1B73);
   (0x1B80, 0x1B81); (0x1BA2, 0x1BA5); (0x1BA8, 0x1BA9); (0x1BAB, 0x1BAD);
   (0x1BE6, 0x1BE6); (0x1BE8, 0x1BE9); (0x1BED, 0x1BED); (0x1BEF, 0x1BF1);
   (0x1C2C, 0x1C33); (0x1C36, 0x1C37); (0x1C78, 0x1C7D); (0x1CD0, 0x1CD2);
   (0x1CD4, 0x1CE0); (0x1CE2, 0x1CE8); (0x1CED, 0x1CED); (0x1CF4, 0x1CF4);
   (0x1CF8, 0x1CF9); (0x1D2C, 0x1D6A); (0x1D78, 0x1D78); (0x1D9B, 0x1DFF);
   (0x1FBD, 0x1FBD); (0x1FBF, 0x1FC1); (0x1FCD, 0x1FCF); (0x1FDD, 0x1FDF);
   (0x1FED, 0x1FEF); (0x1FFD, 0x1FFE); (0x200B, 0x200F); (0x2018, 0x2019);
   (0x2024, 0x2024); (0x2027, 0x2027); (0x202A, 0x202E); (0x2060, 0x2064);
   (0x2066, 0x206F); (0x2071, 0x2071); (0x207F, 0x207F); (0x2090, 0x209C);
   (0x20D0, 0x20F0); (0x2C7C, 0x2C7D); (0x2CEF, 0x2CF1); (0x2D6F, 0x2D6F);
   (0x2D7F, 0x2D7F); (0x2DE0, 0x2DFF); (0x2E2F, 0x2E2F); (0x3005, 0x3005);
   (0x302A, 0x302D); (0x3031, 0x3035); (0x303B, 0x303B); (0x3099, 0x309E);
   (0x30FC, 0x30FE); (0xA015, 0xA015); (0xA4F8, 0xA4FD); (0xA60C, 0xA60C);
   (0xA66F, 0xA672); (0xA674, 0xA67D); (0xA67F, 0xA67F); (0xA69C, 0xA69F);
   (0xA6F0, 0xA6F1); (0xA700, 0xA721); (0xA770, 0xA770); (0xA788, 0xA78A);
   (0xA7F2, 0xA7F4); (0xA7F8, 0xA7F9); (0xA802, 0xA802); (0xA806, 0xA806);
   (0xA80B, 0xA80B); (0xA825, 0xA826); (0xA82C, 0xA82C); (0xA8C4, 0xA8C5);
   (0xA8E0, 0xA8F1); (0xA8FF, 0xA8FF); (0xA926, 0xA92D); (0xA947, 0xA951);
   (0xA980, 0xA982); (0xA9B3, 0xA9B3); (0xA9B6, 0xA9B9); (0xA9BC, 0xA9BD);
   (0xA9CF, 0xA9CF); (0xA9E5, 0xA9E6); (0xAA29, 0xAA2E); (0xAA31, 0xAA32);
   (0xAA35, 0xAA36); (0xAA43, 0xAA43); (0xAA4C, 0xAA4C); (0xAA70, 0xAA70);
   (0xAA7C, 0xAA7C); (0xAAB0, 0xAAB0); (0xAAB2, 0xAAB4); (0xAAB7, 0xAAB8);
   (0xAABE, 0xAABF); (0xAAC1, 0xAAC1); (0xAADD, 0xAADD); (0xAAEC, 0xAAED);
   (0xAAF3, 0xAAF4); (0xAAF6, 0xAAF6); (0xAB5B, 0xAB5F); (0xAB69, 0xAB6B);
   (0xABE5, 0xABE5); (0xABE8, 0xABE8); (0xABED, 0xABED); (0xFB1E, 0xFB1E);
   (0xFBB2, 0xFBC2); (0xFE00, 0xFE0F); (0xFE13, 0xFE13); (0xFE20, 0xFE2F);
   (0xFE52, 0xFE52); (0xFE55, 0xFE55); (0xFEFF, 0xFEFF); (0xFF07, 0xFF07);
   (0xFF0E, 0xFF0E); (0xFF1A, 0xFF1A); (0xFF3E, 0xFF3E); (0xFF40, 0xFF40);
   (0xFF70, 0xFF70); (0xFF9E, 0xFF9F); (0xFFE3, 0xFFE3); (0xFFF9, 0xFFFB);
   (0x101FD, 0x101FD); (0x102E0, 0x102E0); (0x10376, 0x1037A); (0x10780, 0x10785);
   (0x10787, 0x107B0); (0x107B2, 0x107BA); (0x10A01, 0x10A03); (0x10A05, 0x10A06);
   (0x10A0C, 0x10A0F); (0x10A38, 0x10A3A); (0x10A3F, 0x10A3F); (0x10AE5, 0x10AE6);
   (0x10D24, 0x10D27); (0x10EAB, 0x10EAC); (0x10F46, 0x10F50); (0x10F82, 0x10F85);
   (0x11001, 0x11001); (0x11038, 0x11046); (0x11070, 0x11070); (0x11073, 0x11074);
   (0x1107F, 0x11081); (0x110B3, 0x110B6); (0x110B9, 0x110BA); (0x110BD, 0x110BD);
   (0x110C2, 0x110C2); (0x110CD, 0x110CD); (0x11100, 0x11102); (0x11127, 0x1112B);
   (0x1112D, 0x11134); (0x11173, 0x11173); (0x11180, 0x11181); (0x111B6, 0x111BE);
   (0x111C9, 0x111CC); (0x111CF, 0x111CF); (0x1122F, 0x11231); (0x11234, 0x11234);
   (0x11236, 0x11237); (0x1123E, 0x1123E); (0x112DF, 0x112DF); (0x112E3, 0x112EA);
   (0x11300, 0x11301); (0x1133B, 0x1133C); (0x11340, 0x11340); (0x11366, 0x1136C);
   (0x11370, 0x11374); (0x11438, 0x1143F); (0x11442, 0x11444); (0x11446, 0x11446);
   (0x1145E, 0x1145E); (0x114B3, 0x114B8); (0x114BA, 0x114BA); (0x114BF, 0x114C0);
   (0x114C2, 0x114C3); (0x115B2, 0x115B5); (0x115BC, 0x115BD); (0x115BF, 0x115C0);
   (0x115DC, 0x115DD); (0x11633, 0x1163A); (0x1163D, 0x1163D); (0x1163F, 0x11640);
   (0x116AB, 0x116AB); (0x116AD, 0x116AD); (0x116B0, 0x116B5); (0x116B7, 0x116B7);
   (0x1171D, 0x1171F); (0x11722, 0x11725); (0x11727, 0x1172B); (0x1182F, 0x11837);
   (0x11839, 0x1183A); (0x1193B, 0x1193C); (0x1193E, 0x1193E); (0x11943, 0x11943);
   (0x119D4, 0x119D7); (0x119DA, 0x119DB); (0x119E0, 0x119E0); (0x11A01, 0x11A0A);
   (0x11A33, 0x11A38); (0x11A3B, 0x11A3E); (0x11A47, 0x11A47); (0x11A51, 0x11A56);
   (0x11A59, 0x11A5B); (0x11A8A, 0x11A96); (0x11A98, 0x11A99); (0x11C30, 0x11C36);
   (0x11C38, 0x11C3D); (0x11C3F, 0x11C3F); (0x11C92, 0x11CA7); (0x11CAA, 0x11CB0);
   (0x11CB2, 0x11CB3); (0x11CB5, 0x11CB6); (0x11D31, 0x11D36); (0x11D3A, 0x11D3A);
   (0x11D3C, 0x11D3D); (0x11D3F, 0x11D45); (0x11D47, 0x11D47); (0x11D90, 0x11D91);
   (0x11D95, 0x11D95); (0x11D97, 0x11D97); (0x11EF3, 0x11EF4); (0x13430, 0x13438);
   (0x16AF0, 0x16AF4); (0x16B30, 0x16B36); (0x16B40, 0x16B43); (0x16F4F, 0x16F4F);
   (0x16F8F, 0x16F9F); (0x16FE0, 0x16FE1); (0x16FE3, 0x16FE4); (0x1AFF0, 0x1AFF3);
   (0x1AFF5, 0x1AFFB); (0x1AFFD, 0x1AFFE); (0x1BC9D, 0x1BC9E); (0x1BCA0, 0x1BCA3);
   (0x1CF00, 0x1CF2D); (0x1CF30, 0x1CF46); (0x1D167, 0x1D169); (0x1D173, 0x1D182);
   (0x1D185, 0x1D18B); (0x1D1AA, 0x1D1AD); (0x1D242, 0x1D244); (0x1DA00, 0x1DA36);
   (0x1DA3B, 0x1DA6C); (0x1DA75, 0x1DA75); (0x1DA84, 0x1DA84); (0x1DA9B, 0x1DA9F);
   (0x1DAA1, 0x1DAAF); (0x1E000, 0x1E006); (0x1E008, 0x1E018); (0x1E01B, 0x1E021);
   (0x1E023, 0x1E024); (0x1E026, 0x1E02A); (0x1E130, 0x1E13D); (0x1E2AE, 0x1E2AE);
   (0x1E2EC, 0x1E2EF); (0x1E8D0, 0x1E8D6); (0x1E944, 0x1E94B); (0x1F3FB, 0x1F3FF);
   (0xE0001, 0xE0001); (0xE0020, 0xE007F); (0xE0100, 0xE01EF)]%N.

(** Lowercase mappings to one code point: [(lo, hi, step, target)] sends [lo + k * step <= hi] to [target + k * step]. *)
Definition lowercase_simple : list (N * N * N * N) :=
  [(0x41, 0x5A, 1, 0x61); (0xC0, 0xD6, 1, 0xE0); (0xD8, 0xDE, 1, 0xF8);
   (0x100, 0x12E, 2, 0x101); (0x132, 0x136, 2, 0x133); (0x139, 0x147, 2, 0x13A);
   (0x14A, 0x176, 2, 0x14B); (0x178, 0x178, 1, 0xFF); (0x179, 0x17D, 2, 0x17A);
   (0x181, 0x181, 1, 0x253); (0x182, 0x184, 2, 0x183); (0x186, 0x186, 1, 0x254);
   (0x187, 0x187, 1, 0x188); (0x189, 0x18A, 1, 0x256); (0x18B, 0x18B, 1, 0x18C);
   (0x18E, 0x18E, 1, 0x1DD); (0x18F, 0x18F, 1, 0x259); (0x190, 0x190, 1, 0x25B);
   (0x191, 0x191, 1, 0x192); (0x193, 0x193, 1, 0x260); (0x194, 0x194, 1, 0x263);
   (0x196, 0x196, 1, 0x269); (0x197, 0x197, 1, 0x268); (0x198, 0x198, 1, 0x199);
   (0x19C, 0x19C, 1, 0x26F); (0x19D, 0x19D, 1, 0x272); (0x19F, 0x19F, 1, 0x275);
   (0x1A0, 0x1A4, 2, 0x1A1); (0x1A6, 0x1A6, 1, 0x280); (0x1A7, 0x1A7, 1, 0x1A8);
   (0x1A9, 0x1A9, 1, 0x283); (0x1AC, 0x1AC, 1, 0x1AD); (0x1AE, 0x1AE, 1, 0x288);
   (0x1AF, 0x1AF, 1, 0x1B0); (0x1B1, 0x1B2, 1, 0x28A); (0x1B3, 0x1B5, 2, 0x1B4);
   (0x1B7, 0x1B7, 1, 0x292); (0x1B8, 0x1B8, 1, 0x1B9); (0x1BC, 0x1BC, 1, 0x1BD);
   (0x1C4, 0x1C4, 1, 0x1C6); (0x1C5, 0x1C5, 1, 0x1C6); (0x1C7, 0x1C7, 1, 0x1C9);
   (0x1C8, 0x1C8, 1, 0x1C9); (0x1CA, 0x1CA, 1, 0x1CC); (0x1CB, 0x1DB, 2, 0x1CC);
   (0x1DE, 0x1EE, 2, 0x1DF); (0x1F1, 0x1F1, 1, 0x1F3); (0x1F2, 0x1F4, 2, 0x1F3);
   (0x1F6, 0x1F6, 1, 0x195); (0x1F7, 0x1F7, 1, 0x1BF); (0x1F8, 0x21E, 2, 0x1F9);
   (0x220, 0x220, 1, 0x19E); (0x222, 0x232, 2, 0x223); (0x23A, 0x23A, 1, 0x2C65);
   (0x23B, 0x23B, 1, 0x23C); (0x23D, 0x23D, 1, 0x19A); (0x23E, 0x23E, 1, 0x2C66);
   (0x241, 0x241, 1, 0x242); (0x243, 0x243, 1, 0x180); (0x244, 0x244, 1, 0x289);
   (0x245, 0x245, 1, 0x28C); (0x246, 0x24E, 2, 0x247); (0x370, 0x372, 2, 0x371);
   (0x376, 0x376, 1, 0x377); (0x37F, 0x37F, 1, 0x3F3); (0x386, 0x386, 1, 0x3AC);
   (0x388, 0x38A, 1, 0x3AD); (0x38C, 0x38C, 1, 0x3CC); (0x38E, 0x38F, 1, 0x3CD);
   (0x391, 0x3A1, 1, 0x3B1); (0x3A3, 0x3AB, 1, 0x3C3); (0x3CF, 0x3CF, 1, 0x3D7);
   (0x3D8, 0x3EE, 2, 0x3D9); (0x3F4, 0x3F4, 1, 0x3B8); (0x3F7, 0x3F7, 1, 0x3F8);
   (0x3F9, 0x3F9, 1, 0x3F2); (0x3FA, 0x3FA, 1, 0x3FB); (0x3FD, 0x3FF, 1, 0x37B);
   (0x400, 0x40F, 1, 0x450); (0x410, 0x42F, 1, 0x430); (0x460, 0x480, 2, 0x461);
   (0x48A, 0x4BE, 2, 0x48B); (0x4C0, 0x4C0, 1, 0x4CF); (0x4C1, 0x4CD, 2, 0x4C2);
   (0x4D0, 0x52E, 2, 0x4D1); (0x531, 0x556, 1, 0x561); (0x10A0, 0x10C5, 1, 0x2D00);
   (0x10C7, 0x10C7, 1, 0x2D27); (0x10CD, 0x10CD, 1, 0x2D2D); (0x13A0, 0x13EF, 1, 0xAB70);
   (0x13F0, 0x13F5, 1, 0x13F8); (0x1C90, 0x1CBA, 1, 0x10D0); (0x1CBD, 0x1CBF, 1, 0x10FD);
   (0x1E00, 0x1E94, 2, 0x1E01); (0x1E9E, 0x1E9E, 1, 0xDF); (0x1EA0, 0x1EFE, 2, 0x1EA1);
   (0x1F08, 0x1F0F, 1, 0x1F00); (0x1F18, 0x1F1D, 1, 0x1F10); (0x1F28, 0x1F2F, 1, 0x1F20);
   (0x1F38, 0x1F3F, 1, 0x1F30); (0x1F48, 0x1F4D, 1, 0x1F40); (0x1F59, 0x1F5F, 2, 0x1F51);
   (0x1F68, 0x1F6F, 1, 0x1F60); (0x1F88, 0x1F8F, 1, 0x1F80); (0x1F98, 0x1F9F, 1, 0x1F90);
   (0x1FA8, 0x1FAF, 1, 0x1FA0); (0x1FB8, 0x1FB9, 1, 0x1FB0); (0x1FBA, 0x1FBB, 1, 0x1F70);
   (0x1FBC, 0x1FBC, 1, 0x1FB3); (0x1FC8, 0x1FCB, 1, 0x1F72); (0x1FCC, 0x1FCC, 1, 0x1FC3);
   (0x1FD8, 0x1FD9, 1, 0x1FD0); (0x1FDA, 0x1FDB, 1, 0x1F76); (0x1FE8, 0x1FE9, 1, 0x1FE0);
   (0x1FEA, 0x1FEB, 1, 0x1F7A); (0x1FEC, 0x1FEC, 1, 0x1FE5); (0x1FF8, 0x1FF9, 1, 0x1F78);
   (0x1FFA, 0x1FFB, 1, 0x1F7C); (0x1FFC, 0x1FFC, 1, 0x1FF3); (0x2126, 0x2126, 1, 0x3C9);
   (0x212A, 0x212A, 1, 0x6B); (0x212B, 0x212B, 1, 0xE5); (0x2132, 0x2132, 1, 0x214E);
   (0x2160, 0x216F, 1, 0x2170); (0x2183, 0x2183, 1, 0x2184); (0x24B6, 0x24CF, 1, 0x24D0);
   (0x2C00, 0x2C2F, 1, 0x2C30); (0x2C60, 0x2C60, 1, 0x2C61); (0x2C62, 0x2C62, 1, 0x26B);
   (0x2C63, 0x2C63, 1, 0x1D7D); (0x2C64, 0x2C64, 1, 0x27D); (0x2C67, 0x2C6B, 2, 0x2C68);
   (0x2C6D, 0x2C6D, 1, 0x251); (0x2C6E, 0x2C6E, 1, 0x271); (0x2C6F, 0x2C6F, 1, 0x250);
   (0x2C70, 0x2C70, 1, 0x252); (0x2C72, 0x2C72, 1, 0x2C73); (0x2C75, 0x2C75, 1, 0x2C76);
   (0x2C7E, 0x2C7F, 1, 0x23F); (0x2C80, 0x2CE2, 2, 0x2C81); (0x2CEB, 0x2CED, 2, 0x2CEC);
   (0x2CF2, 0x2CF2, 1, 0x2CF3); (0xA640, 0xA66C, 2, 0xA641); (0xA680, 0xA69A, 2, 0xA681);
   (0xA722, 0xA72E, 2, 0xA723); (0xA732, 0xA76E, 2, 0xA733); (0xA779, 0xA77B, 2, 0xA77A);
   (0xA77D, 0xA77D, 1, 0x1D79); (0xA77E, 0xA786, 2, 0xA77F); (0xA78B, 0xA78B, 1, 0xA78C);
   (0xA78D, 0xA78D, 1, 0x265); (0xA790, 0xA792, 2, 0xA791); (0xA796, 0xA7A8, 2, 0xA797);
   (0xA7AA, 0xA7AA, 1, 0x266); (0xA7AB, 0xA7AB, 1, 0x25C); (0xA7AC, 0xA7AC, 1, 0x261);
   (0xA7AD, 0xA7AD, 1, 0x26C); (0xA7AE, 0xA7AE, 1, 0x26A); (0xA7B0, 0xA7B0, 1, 0x29E);
   (0xA7B1, 0xA7B1, 1, 0x287); (0xA7B2, 0xA7B2, 1, 0x29D); (0xA7B3, 0xA7B3, 1, 0xAB53);
   (0xA7B4, 0xA7C2, 2, 0xA7B5); (0xA7C4, 0xA7C4, 1, 0xA794); (0xA7C5, 0xA7C5, 1, 0x282);
   (0xA7C6, 0xA7C6, 1, 0x1D8E); (0xA7C7, 0xA7C9, 2, 0xA7C8); (0xA7D0, 0xA7D0, 1, 0xA7D1);
   (0xA7D6, 0xA7D8, 2, 0xA7D7); (0xA7F5, 0xA7F5, 1, 0xA7F6); (0xFF21, 0xFF3A, 1, 0xFF41);
   (0x10400, 0x10427, 1, 0x10428); (0x104B0, 0x104D3, 1, 0x104D8); (0x10570, 0x10594, 2, 0x10597);
   (0x10571, 0x10579, 2, 0x10598); (0x1057D, 0x10589, 2, 0x105A4); (0x1058D, 0x10591, 2, 0x105B4);
   (0x10595, 0x10595, 1, 0x105BC); (0x10C80, 0x10CB2, 1, 0x10CC0); (0x118A0, 0x118BF, 1, 0x118C0);
   (0x16E40, 0x16E5F, 1, 0x16E60); (0x1E900, 0x1E921, 1, 0x1E922)]%N.

(** Lowercase mappings to several code points. *)
Definition lowercase_special : list (N * list N) :=
  [(0x130, [0x69; 0x307])]%N.

(** Uppercase mappings to one code point, in the format of [lowercase_simple]. *)
Definition uppercase_simple : list (N * N * N * N) :=
  [(0x61, 0x7A, 1, 0x41); (0xB5, 0xB5, 1, 0x39C); (0xE0, 0xF6, 1, 0xC0);
   (0xF8, 0xFE, 1, 0xD8); (0xFF, 0xFF, 1, 0x178); (0x101, 0x12F, 2, 0x100);
   (0x131, 0x131, 1, 0x49); (0x133, 0x137, 2, 0x132); (0x13A, 0x148, 2, 0x139);
   (0x14B, 0x177, 2, 0x14A); (0x17A, 0x17E, 2, 0x179); (0x17F, 0x17F, 1, 0x53);
   (0x180, 0x180, 1, 0x243); (0x183, 0x185, 2, 0x182); (0x188, 0x188, 1, 0x187);
   (0x18C, 0x18C, 1, 0x18B); (0x192, 0x192, 1, 0x191); (0x195, 0x195, 1, 0x1F6);
   (0x199, 0x199, 1, 0x198); (0x19A, 0x19A, 1, 0x23D); (0x19E, 0x19E, 1, 0x220);
   (0x1A1, 0x1A5, 2, 0x1A0); (0x1A8, 0x1A8, 1, 0x1A7); (0x1AD, 0x1AD, 1, 0x1AC);
   (0x1B0, 0x1B0, 1, 0x1AF); (0x1B4, 0x1B6, 2, 0x1B3); (0x1B9, 0x1B9, 1, 0x1B8);
   (0x1BD, 0x1BD, 1, 0x1BC); (0x1BF, 0x1BF, 1, 0x1F7); (0x1C5, 0x1C5, 1, 0x1C4);
   (0x1C6, 0x1C6, 1, 0x1C4); (0x1C8, 0x1C8, 1, 0x1C7); (0x1C9, 0x1C9, 1, 0x1C7);
   (0x1CB, 0x1CB, 1, 0x1CA); (0x1CC, 0x1CC, 1, 0x1CA); (0x1CE, 0x1DC, 2, 0x1CD);
   (0x1DD, 0x1DD, 1, 0x18E); (0x1DF, 0x1EF, 2, 0x1DE); (0x1F2, 0x1F2, 1, 0x1F1);
   (0x1F3, 0x1F3, 1, 0x1F1); (0x1F5, 0x1F5, 1, 0x1F4); (0x1F9, 0x21F, 2, 0x1F8);
   (0x223, 0x233, 2, 0x222); (0x23C, 0x23C, 1, 0x23B); (0x23F, 0x240, 1, 0x2C7E);
   (0x242, 0x242, 1, 0x241); (0x247, 0x24F, 2, 0x246); (0x250, 0x250, 1, 0x2C6F);
   (0x251, 0x251, 1, 0x2C6D); (0x252, 0x252, 1, 0x2C70); (0x253, 0x253, 1, 0x181);
   (0x254, 0x254, 1, 0x186); (0x256, 0x257, 1, 0x189); (0x259, 0x259, 1, 0x18F);
   (0x25B, 0x25B, 1, 0x190); (0x25C, 0x25C, 1, 0xA7AB); (0x260, 0x260, 1, 0x193);
   (0x261, 0x261, 1, 0xA7AC); (0x263, 0x263, 1, 0x194); (0x265, 0x265, 1, 0xA78D);
   (0x266, 0x266, 1, 0xA7AA); (0x268, 0x268, 1, 0x197); (0x269, 0x269, 1, 0x196);
   (0x26A, 0x26A, 1, 0xA7AE); (0x26B, 0x26B, 1, 0x2C62); (0x26C, 0x26C, 1, 0xA7AD);
   (0x26F, 0x26F, 1, 0x19C); (0x271, 0x271, 1, 0x2C6E); (0x272, 0x272, 1, 0x19D);
   (0x275, 0x275, 1, 0x19F); (0x27D, 0x27D, 1, 0x2C64); (0x280, 0x280, 1, 0x1A6);
   (0x282, 0x282, 1, 0xA7C5); (0x283, 0x283, 1, 0x1A9); (0x287, 0x287, 1, 0xA7B1);
   (0x288, 0x288, 1, 0x1AE); (0x289, 0x289, 1, 0x244); (0x28A, 0x28B, 1, 0x1B1);
   (0x28C, 0x28C, 1, 0x245); (0x292, 0x292, 1, 0x1B7); (0x29D, 0x29D, 1, 0xA7B2);
   (0x29E, 0x29E, 1, 0xA7B0); (0x345, 0x345, 1, 0x399); (0x371, 0x373, 2, 0x370);
   (0x377, 0x377, 1, 0x376); (0x37B, 0x37D, 1, 0x3FD); (0x3AC, 0x3AC, 1, 0x386);
   (0x3AD, 0x3AF, 1, 0x388); (0x3B1, 0x3C1, 1, 0x391); (0x3C2, 0x3C2, 1, 0x3A3);
   (0x3C3, 0x3CB, 1, 0x3A3); (0x3CC, 0x3CC, 1, 0x38C); (0x3CD, 0x3CE, 1, 0x38E);
   (0x3D0, 0x3D0, 1, 0x392); (0x3D1, 0x3D1, 1, 0x398); (0x3D5, 0x3D5, 1, 0x3A6);
   (0x3D6, 0x3D6, 1, 0x3A0); (0x3D7, 0x3D7, 1, 0x3CF); (0x3D9, 0x3EF, 2, 0x3D8);
   (0x3F0, 0x3F0, 1, 0x39A); (0x3F1, 0x3F1, 1, 0x3A1); (0x3F2, 0x3F2, 1, 0x3F9);
   (0x3F3, 0x3F3, 1, 0x37F); (0x3F5, 0x3F5, 1, 0x395); (0x3F8, 0x3F8, 1, 0x3F7);
   (0x3FB, 0x3FB, 1, 0x3FA); (0x430, 0x44F, 1, 0x410); (0x450, 0x45F, 1, 0x400);
   (0x461, 0x481, 2, 0x460); (0x48B, 0x4BF, 2, 0x48A); (0x4C2, 0x4CE, 2, 0x4C1);
   (0x4CF, 0x4CF, 1, 0x4C0); (0x4D1, 0x52F, 2, 0x4D0); (0x561, 0x586, 1, 0x531);
   (0x10D0, 0x10FA, 1, 0x1C90); (0x10FD, 0x10FF, 1, 0x1CBD); (0x13F8, 0x13FD, 1, 0x13F0);
   (0x1C80, 0x1C80, 1, 0x412); (0x1C81, 0x1C81, 1, 0x414); (0x1C82, 0x1C82, 1, 0x41E);
   (0x1C83, 0x1C84, 1, 0x421); (0x1C85, 0x1C85, 1, 0x422); (0x1C86, 0x1C86, 1, 0x42A);
   (0x1C87, 0x1C87, 1, 0x462); (0x1C88, 0x1C88, 1, 0xA64A); (0x1D79, 0x1D79, 1, 0xA77D);
   (0x1D7D, 0x1D7D, 1, 0x2C63); (0x1D8E, 0x1D8E, 1, 0xA7C6); (0x1E01, 0x1E95, 2, 0x1E00);
   (0x1E9B, 0x1E9B, 1, 0x1E60); (0x1EA1, 0x1EFF, 2, 0x1EA0); (0x1F00, 0x1F07, 1, 0x1F08);
   (0x1F10, 0x1F15, 1, 0x1F18); (0x1F20, 0x1F27, 1, 0x1F28); (0x1F30, 0x1F37, 1, 0x1F38);
   (0x1F40, 0x1F45, 1, 0x1F48); (0x1F51, 0x1F57, 2, 0x1F59); (0x1F60, 0x1F67, 1, 0x1F68);
   (0x1F70, 0x1F71, 1, 0x1FBA); (0x1F72, 0x1F75, 1, 0x1FC8); (0x1F76, 0x1F77, 1, 0x1FDA);
   (0x1F78, 0x1F79, 1, 0x1FF8); (0x1F7A, 0x1F7B, 1, 0x1FEA); (0x1F7C, 0x1F7D, 1, 0x1FFA);
   (0x1FB0, 0x1FB1, 1, 0x1FB8); (0x1FBE, 0x1FBE, 1, 0x399); (0x1FD0, 0x1FD1, 1, 0x1FD8);
   (0x1FE0, 0x1FE1, 1, 0x1FE8); (0x1FE5, 0x1FE5, 1, 0x1FEC); (0x214E, 0x214E, 1, 0x2132);
   (0x2170, 0x217F, 1, 0x2160); (0x2184, 0x2184, 1, 0x2183); (0x24D0, 0x24E9, 1, 0x24B6);
   (0x2C30, 0x2C5F, 1, 0x2C00); (0x2C61, 0x2C61, 1, 0x2C60); (0x2C65, 0x2C65, 1, 0x23A);
   (0x2C66, 0x2C66, 1, 0x23E); (0x2C68, 0x2C6C, 2, 0x2C67); (0x2C73, 0x2C73, 1, 0x2C72);
   (0x2C76, 0x2C76, 1, 0x2C75); (0x2C81, 0x2CE3, 2, 0x2C80); (0x2CEC, 0x2CEE, 2, 0x2CEB);
   (0x2CF3, 0x2CF3, 1, 0x2CF2); (0x2D00, 0x2D25, 1, 0x10A0); (0x2D27, 0x2D27, 1, 0x10C7);
   (0x2D2D, 0x2D2D, 1, 0x10CD); (0xA641, 0xA66D, 2, 0xA640); (0xA681, 0xA69B, 2, 0xA680);
   (0xA723, 0xA72F, 2, 0xA722); (0xA733, 0xA76F, 2, 0xA732); (0xA77A, 0xA77C, 2, 0xA779);
   (0xA77F, 0xA787, 2, 0xA77E); (0xA78C, 0xA78C, 1, 0xA78B); (0xA791, 0xA793, 2, 0xA790);
   (0xA794, 0xA794, 1, 0xA7C4); (0xA797, 0xA7A9, 2, 0xA796); (0xA7B5, 0xA7C3, 2, 0xA7B4);
   (0xA7C8, 0xA7CA, 2, 0xA7C7); (0xA7D1, 0xA7D1, 1, 0xA7D0); (0xA7D7, 0xA7D9, 2, 0xA7D6);
   (0xA7F6, 0xA7F6, 1, 0xA7F5); (0xAB53, 0xAB53, 1, 0xA7B3); (0xAB70, 0xABBF, 1, 0x13A0);
   (0xFF41, 0xFF5A, 1, 0xFF21); (0x10428, 0x1044F, 1, 0x10400); (0x104D8, 0x104FB, 1, 0x104B0);
   (0x10597, 0x105BB, 2, 0x10570); (0x10598, 0x105A0, 2, 0x10571); (0x105A4, 0x105B0, 2, 0x1057D);
   (0x105B4, 0x105B8, 2, 0x1058D); (0x105BC, 0x105BC, 1, 0x10595); (0x10CC0, 0x10CF2, 1, 0x10C80);
   (0x118C0, 0x118DF, 1, 0x118A0); (0x16E60, 0x16E7F, 1, 0x16E40); (0x1E922, 0x1E943, 1, 0x1E900)]%N.

(** Uppercase mappings to several code points. *)
Definition uppercase_special : list (N * list N) :=
  [(0xDF, [0x53; 0x53]); (0x149, [0x2BC; 0x4E]); (0x1F0, [0x4A; 0x30C]);
   (0x390, [0x399; 0x308; 0x301]); (0x3B0, [0x3A5; 0x308; 0x301]); (0x587, [0x535; 0x552]);
   (0x1E96, [0x48; 0x331]); (0x1E97, [0x54; 0x308]); (0x1E98, [0x57; 0x30A]);
   (0x1E99, [0x59; 0x30A]); (0x1E9A, [0x41; 0x2BE]); (0x1F50, [0x3A5; 0x313]);
   (0x1F52, [0x3A5; 0x313; 0x300]); (0x1F54, [0x3A5; 0x313; 0x301]); (0x1F56, [0x3A5; 0x313; 0x342]);
   (0x1F80, [0x1F08; 0x399]); (0x1F81, [0x1F09; 0x399]); (0x1F82, [0x1F0A; 0x399]);
   (0x1F83, [0x1F0B; 0x399]); (0x1F84, [0x1F0C; 0x399]); (0x1F85, [0x1F0D; 0x399]);
   (0x1F86, [0x1F0E; 0x399]); (0x1F87, [0x1F0F; 0x399]); (0x1F88, [0x1F08; 0x399]);
   (0x1F89, [0x1F09; 0x399]); (0x1F8A, [0x1F0A; 0x399]); (0x1F8B, [0x1F0B; 0x399]);
   (0x1F8C, [0x1F0C; 0x399]); (0x1F8D, [0x1F0D; 0x399]); (0x1F8E, [0x1F0E; 0x399]);
   (0x1F8F, [0x1F0F; 0x399]); (0x1F90, [0x1F28; 0x399]); (0x1F91, [0x1F29; 0x399]);
   (0x1F92, [0x1F2A; 0x399]); (0x1F93, [0x1F2B; 0x399]); (0x1F94, [0x1F2C; 0x399]);
   (0x1F95, [0x1F2D; 0x399]); (0x1F96, [0x1F2E; 0x399]); (0x1F97, [0x1F2F; 0x399]);
   (0x1F98, [0x1F28; 0x399]); (0x1F99, [0x1F29; 0x399]); (0x1F9A, [0x1F2A; 0x399]);
   (0x1F9B, [0x1F2B; 0x399]); (0x1F9C, [0x1F2C; 0x399]); (0x1F9D, [0x1F2D; 0x399]);
   (0x1F9E, [0x1F2E; 0x399]); (0x1F9F, [0x1F2F; 0x399]); (0x1FA0, [0x1F68; 0x399]);
   (0x1FA1, [0x1F69; 0x399]); (0x1FA2, [0x1F6A; 0x399]); (0x1FA3, [0x1F6B; 0x399]);
   (0x1FA4, [0x1F6C; 0x399]); (0x1FA5, [0x1F6D; 0x399]); (0x1FA6, [0x1F6E; 0x399]);
   (0x1FA7, [0x1F6F; 0x399]); (0x1FA8, [0x1F68; 0x399]); (0x1FA9, [0x1F69; 0x399]);
   (0x1FAA, [0x1F6A; 0x399]); (0x1FAB, [0x1F6B; 0x399]); (0x1FAC, [0x1F6C; 0x399]);
   (0x1FAD, [0x1F6D; 0x399]); (0x1FAE, [0x1F6E; 0x399]); (0x1FAF, [0x1F6F; 0x399]);
   (0x1FB2, [0x1FBA; 0x399]); (0x1FB3, [0x391; 0x399]); (0x1FB4, [0x386; 0x399]);
   (0x1FB6, [0x391; 0x342]); (0x1FB7, [0x391; 0x342; 0x399]); (0x1FBC, [0x391; 0x399]);
   (0x1FC2, [0x1FCA; 0x399]); (0x1FC3, [0x397; 0x399]); (0x1FC4, [0x389; 0x399]);
   (0x1FC6, [0x397; 0x342]); (0x1FC7, [0x397; 0x342; 0x399]); (0x1FCC, [0x397; 0x399]);
   (0x1FD2, [0x399; 0x308; 0x300]); (0x1FD3, [0x399; 0x308; 0x301]); (0x1FD6, [0x399; 0x342]);
   (0x1FD7, [0x399; 0x308; 0x342]); (0x1FE2, [0x3A5; 0x308; 0x300]); (0x1FE3, [0x3A5; 0x308; 0x301]);
   (0x1FE4, [0x3A1; 0x313]); (0x1FE6, [0x3A5; 0x342]); (0x1FE7, [0x3A5; 0x308; 0x342]);
   (0x1FF2, [0x1FFA; 0x399]); (0x1FF3, [0x3A9; 0x399]); (0x1FF4, [0x38F; 0x399]);
   (0x1FF6, [0x3A9; 0x342]); (0x1FF7, [0x3A9; 0x342; 0x399]); (0x1FFC, [0x3A9; 0x399]);
   (0xFB00, [0x46; 0x46]); (0xFB01, [0x46; 0x49]); (0xFB02, [0x46; 0x4C]);
   (0xFB03, [0x46; 0x46; 0x49]); (0xFB04, [0x46; 0x46; 0x4C]); (0xFB05, [0x53; 0x54]);
   (0xFB06, [0x53; 0x54]); (0xFB13, [0x544; 0x546]); (0xFB14, [0x544; 0x535]);
   (0xFB15, [0x544; 0x53B]); (0xFB16, [0x54E; 0x546]); (0xFB17, [0x544; 0x53D])]%N.

Definition in_ranges (tbl : list (N * N)) (c : N) : bool :=
  existsb (λ r, (r.1 <=? c) && (c <=? r.2)) tbl.

Definition is_whitespace (c : N) : bool := in_ranges whitespace c.

(** Value of a decimal digit, [None] for every other code point. *)
Definition decimal_value (c : N) : option N :=
  (λ z, c - z) <$> List.find (λ z, (z <=? c) && (c <? z + 10)) decimal_zeros.

Definition is_decimal (c : N) : bool := bool_decide (is_Some (decimal_value c)).

Definition is_digit (c : N) : bool := is_decimal c || in_ranges other_digits c.

Definition is_cased (c : N) : bool := in_ranges cased c.

Definition is_case_ignorable (c : N) : bool := in_ranges case_ignorable c.

Definition simple_mapping (tbl : list (N * N * N * N)) (c : N) : N :=
  match List.find (λ e, let '(lo, hi, step, _) := e in
                        (lo <=? c) && (c <=? hi) && ((c - lo) mod step =? 0)) tbl with
  | Some (lo, _, _, target) => target + (c - lo)
  | None => c
  end.

Definition full_mapping (special : list (N * list N)) (simple : list (N * N * N * N))
    (c : N) : list N :=
  match List.find (λ e, e.1 =? c) special with
  | Some (_, cs) => cs
  | None => [simple_mapping simple c]
  end.

Definition to_lower (c : N) : list N := full_mapping lowercase_special lowercase_simple c.

Definition to_upper (c : N) : list N := full_mapping uppercase_special uppercase_simple c.

End UCD.

(** ** Python strings

    A [str] is the list of its code points. *)

Abbreviation pystr := (list N).

(** A string literal of the source (all of them are ASCII). *)
Definition lit (s : string) : pystr := Ascii.N_of_ascii <$> String.list_ascii_of_string s.

Module Str.

Fixpoint startswith (s prefix : pystr) : bool :=
  match prefix, s with
  | [], _ => true
  | p :: prefix', c :: s' => (c =? p) && startswith s' prefix'
  | _ :: _, [] => false
  end.

Fixpoint skip_ignorable (s : pystr) : pystr :=
  match s with
  | c :: s' => if UCD.is_case_ignorable c then skip_ignorable s' else s
  | [] => []
  end.

(** The Final_Sigma context of a capital sigma: the nearest character before
    it that is not case-ignorable is cased, and the nearest such character
    after it, if any, is not.  [before] lists the preceding characters
    nearest first. *)
Definition final_sigma (before after : pystr) : bool :=
  match skip_ignorable before with
  | c :: _ =>
      UCD.is_cased c &&
      match skip_ignorable after with
      | d :: _ => negb (UCD.is_cased d)
      | [] => true
      end
  | [] => false
  end.

Fixpoint lower_from (before s : pystr) : pystr :=
  match s with
  | [] => []
  | c :: s' =>
      (if c =? 0x3A3
       then [if final_sigma before s' then 0x3C2 else 0x3C3]
       else UCD.to_lower c) ++ lower_from (c :: before) s'
  end.

(** [s.lower()] *)
Definition lower (s : pystr) : pystr := lower_from [] s.

(** [s.upper()] *)
Definition upper (s : pystr) : pystr := s ≫= UCD.to_upper.

(** [s.isdigit()] *)
Definition isdigit (s : pystr) : bool :=
  match s with
  | [] => false
  | _ => forallb UCD.is_digit s
  end.

(** [s.split()]: the maximal runs of characters that are not whitespace. *)
Fixpoint split (s : pystr) : list pystr :=
  match s with
  | [] => []
  | c :: s' =>
      if UCD.is_whitespace c then split s'
      else match s' with
           | [] => [[c]]
           | d :: _ =>
               if UCD.is_whitespace d then [c] :: split s'
               else match split s' with
                    | w :: ws => (c :: w) :: ws
                    | [] => [[c]]
                    end
           end
  end.

(** [s.replace(old, new)] for a one-character [old]. *)
Definition replace (old : N) (new : pystr) (s : pystr) : pystr :=
  s ≫= λ c, if c =? old then new else [c].

(** [sep.join(parts)] *)
Fixpoint join (sep : pystr) (parts : list pystr) : pystr :=
  match parts with
  | [] => []
  | [p] => p
  | p :: ps => p ++ sep ++ join sep ps
  end.

(** [str(n)] for an integer. *)
Definition of_int (n : Z) : pystr := lit (NilZero.string_of_int (Z.to_int n)).

End Str.

(** ** Python values and exceptions *)

(** What [json.loads] produces and what a cell of the patient table may hold. *)
#[warnings="-register-all"]
Inductive pyval :=
  | PNone
  | PBool (b : bool)
  | PInt (n : Z)
  | PFloat (x : spec_float)
  | PStr (s : pystr)
  | PList (xs : list pyval)
  | PDict (items : list (pystr * pyval)).

(** The exceptions that reach the code.  [UnicodeEncodeError] is a subclass of
    [ValueError] in Python; nothing in [proc.py] catches either around the
    calls that raise it, so the two are kept apart.  [RequestException name]
    is an exception that [requests.get] raises when no response comes back
    (ConnectionError, Timeout, TooManyRedirects and the like), with the name
    of its class; [HTTPError] is what [raise_for_status] raises and
    [JSONDecodeError] what [resp.json()] raises. *)
Inductive exn :=
  | ValueError
  | TypeError
  | AttributeError
  | UnicodeEncodeError
  | HTTPError
  | JSONDecodeError
  | RequestException (name : string).

(** Outcome of evaluating an expression: a value, or a raised exception. *)
Inductive result (A : Type) :=
  | Ok (a : A)
  | Raise (e : exn).
Arguments Ok {A} a.
Arguments Raise {A} e.

#[global] Instance result_ret : MRet result := @Ok.
#[global] Instance result_bind : MBind result := λ A B f m,
  match m with
  | Ok a => f a
  | Raise e => Raise e
  end.

Module Py.

(** Truth value of an object, as [if x:], [not x] and [x or y] test it. *)
Definition truthy (v : pyval) : bool :=
  match v with
  | PNone => false
  | PBool b => b
  | PInt n => negb (n =? 0)%Z
  | PFloat (S754_zero _) => false
  | PFloat _ => true
  | PStr s => negb (bool_decide (s = []))
  | PList xs => negb (bool_decide (length xs = 0%nat))
  | PDict items => negb (bool_decide (length items = 0%nat))
  end.

(** [x == "literal"]: only a string equals a string. *)
Definition eq_str (v : pyval) (s : pystr) : bool :=
  match v with
  | PStr t => bool_decide (t = s)
  | _ => false
  end.

(** The items of a dict are kept in insertion order; keys are unique, so the
    first binding of a key is its only one. *)
Fixpoint lookup_item (key : pystr) (items : list (pystr * pyval)) : option pyval :=
  match items with
  | [] => None
  | (k, v) :: items' => if bool_decide (k = key) then Some v else lookup_item key items'
  end.

(** [d.get(key, default)]; only a dict has the method. *)
Definition get (d : pyval) (key : pystr) (dflt : pyval) : result pyval :=
  match d with
  | PDict items => Ok (default dflt (lookup_item key items))
  | _ => Raise AttributeError
  end.

(** The elements a [for] loop, a comprehension or [list.extend] draws from an
    object: the elements of a list, the characters of a string, the keys of a
    dict; nothing else that JSON yields is iterable. *)
Definition iterate (v : pyval) : result (list pyval) :=
  match v with
  | PList xs => Ok xs
  | PStr s => Ok ((λ c, PStr [c]) <$> s)
  | PDict items => Ok ((λ kv, PStr kv.1) <$> items)
  | _ => Raise TypeError
  end.

(** [x.lower()]; only a string has the method. *)
Definition lower (v : pyval) : result pystr :=
  match v with
  | PStr s => Ok (Str.lower s)
  | _ => Raise AttributeError
  end.

(** Whitespace that [int] strips around a number: [Py_ISSPACE] for an ASCII
    character, [Py_UNICODE_ISSPACE] beyond. *)
Definition int_space (c : N) : bool :=
  if c <? 0x80 then ((0x09 <=? c) && (c <=? 0x0D)) || (c =? 0x20)
  else UCD.is_whitespace c.

Fixpoint lstrip (s : pystr) : pystr :=
  match s with
  | c :: s' => if int_space c then lstrip s' else s
  | [] => []
  end.

(** Decimal digits, with single underscores allowed between two digits.
    Returns the number of digits read and their value. *)
Fixpoint digits (s : pystr) (after_digit : bool) (count : nat) (acc : N) : option (nat * N) :=
  match s with
  | [] => if after_digit then Some (count, acc) else None
  | c :: s' =>
      if c =? 0x5F then (if after_digit then digits s' false count acc else None)
      else match UCD.decimal_value c with
           | Some d => digits s' true (S count) (10 * acc + d)
           | None => None
           end
  end.

(** [sys.int_info.default_max_str_digits]: since CPython 3.11 (and the
    security releases of 3.7 to 3.10) [int] refuses longer numerals. *)
Definition int_max_str_digits : nat := 4300.

(** [int(s)] for a string, base 10. *)
Definition int (s : pystr) : result Z :=
  let body := reverse (lstrip (reverse (lstrip s))) in
  let '(negative, numeral) :=
    match body with
    | c :: r =>
        if c =? 0x2D then (true, r)
        else if c =? 0x2B then (false, r)
        else (false, body)
    | [] => (false, body)
    end in
  match digits numeral false 0 0 with
  | Some (count, n) =>
      if bool_decide (count ≤ int_max_str_digits)%nat
      then Ok (if negative then - Z.of_N n else Z.of_N n)%Z
      else Raise ValueError
  | None => Raise ValueError
  end.

(** Whether [str] and [repr] write an integer: the digit limit applies to
    this direction too, to the digits without the sign. *)
Definition int_writable (n : Z) : bool :=
  bool_decide (length (Str.of_int (Z.abs n)) ≤ int_max_str_digits)%nat.

(** [str(n)], which is also what an f-string puts for [{n}]. *)
Definition str_int (n : Z) : result pystr :=
  if int_writable n then Ok (Str.of_int n) else Raise ValueError.

(** Whether [str] and [repr] write a value: they fail only where they come
    to an integer beyond the digit limit, however deep in a list or dict. *)
Fixpoint writable (v : pyval) : bool :=
  match v with
  | PInt n => int_writable n
  | PList xs => forallb writable xs
  | PDict items => forallb (λ kv, writable kv.2) items
  | _ => true
  end.

End Py.

(** ** The functions of [proc.py] *)

(** The [for] loop of [parse_age_string]: the first token the digit test
    accepts is converted and returned. *)
Fixpoint first_digit_token (parts : list pystr) : result Z :=
  match parts with
  | [] => Ok 0%Z
  | p :: parts' => if Str.isdigit p then Py.int p else first_digit_token parts'
  end.

Definition parse_age_string (age_str : pyval) : result Z :=
  if negb (Py.truthy age_str) then Ok 0%Z
  else
    match age_str with
    | PStr s =>
        if Str.startswith (Str.lower s) (lit "n/a") then Ok 0%Z
        else first_digit_token (Str.split s)
    | _ => Raise AttributeError
    end.

Definition meets_structured_criteria
    (patient_age : Z) (patient_gender : pystr) (eligibility : pyval) : result bool :=
  min_age_str ← Py.get eligibility (lit "minimumAge") (PStr []);
  max_age_str ← Py.get eligibility (lit "maximumAge") (PStr []);
  sex_str ← Py.get eligibility (lit "sex") (PStr (lit "ALL"));
  min_age ← parse_age_string min_age_str;
  max_age ← parse_age_string max_age_str;
  if negb (min_age =? 0)%Z && (patient_age <? min_age)%Z then Ok false
  else if negb (max_age =? 0)%Z && (patient_age >? max_age)%Z then Ok false
  else if Py.eq_str sex_str (lit "FEMALE")
          && negb (bool_decide (Str.upper patient_gender ∈ [lit "FEMALE"; lit "F"]))
  then Ok false
  else if Py.eq_str sex_str (lit "MALE")
          && negb (bool_decide (Str.upper patient_gender ∈ [lit "MALE"; lit "M"]))
  then Ok false
  else Ok true.

(** The double quote and the backslash. *)
Definition quote : N := 0x22.
Definition backslash : N := 0x5C.

(** The character class of the pattern: whitespace or a bracket. *)
Definition essie_special (c : N) : bool :=
  UCD.is_whitespace c || bool_decide (c ∈ lit "(){}[]").

(** [re.search] raises [TypeError] on anything but a string. *)
Definition quote_for_essie (s : pyval) : result pystr :=
  match s with
  | PStr s =>
      if existsb essie_special s
      then
        let safe_s := Str.replace quote [backslash; quote] s in
        Ok ([quote] ++ safe_s ++ [quote])
      else Ok s
  | _ => Raise TypeError
  end.

Definition format_age_essie (age : Z) : result pystr :=
  age_text ← Py.str_int age;
  Ok (age_text ++ lit " Years").

(** *** The registry

    A request carries the query parameters of [fetch_ctg_studies]; the
    [pageToken] key is absent until a page returned a token. *)
Record params := {
  format : pystr;
  query_cond : pystr;
  filter_overallStatus : pystr;
  filter_advanced : pystr;
  fields : pystr;
  pageSize : Z;
  countTotal : pystr;
  pageToken : option pyval
}.

(** What [requests.get] comes back with once the request is on its way: it
    raises because no response arrives (a [RequestException] of the named
    class), or it returns a response with a status code and a body, which
    [resp.json()] decodes if it is well-formed JSON ([None] stands for a body
    that is not). *)
Inductive reply :=
  | NoResponse (name : string)
  | Reply (status_code : Z) (json : option pyval).

(** The registry answers a request knowing the requests that came before. *)
Definition registry := list params → params → reply.

(** [resp.raise_for_status()] raises for the client and server error codes. *)
Definition is_error_status (status_code : Z) : bool :=
  (400 <=? status_code)%Z && (status_code <? 600)%Z.

Definition with_pageToken (p : params) (token : pyval) : params :=
  {| format := format p; query_cond := query_cond p;
     filter_overallStatus := filter_overallStatus p;
     filter_advanced := filter_advanced p; fields := fields p;
     pageSize := pageSize p; countTotal := countTotal p;
     pageToken := Some token |}.

(** The request the loop issues next: [params] with the token put under
    [pageToken] if there is one. *)
Definition next_request (p : params) (next_token : pyval) : params :=
  if Py.truthy next_token then with_pageToken p next_token else p.

(** *** Preparing a request

    Before it sends anything [requests.get] writes the parameters into the
    query string of the URL, in two passes over the [params] dict.  The
    first ([_encode_params]) encodes every string it finds among the values
    as UTF-8: a value that is a string, the strings of a value that is a
    list, the keys of a value that is a dict.  The second ([urlencode] with
    [doseq=True]) writes what is left with [str]; a list or dict met as an
    element of a list value is written element by element.  Encoding fails
    with [UnicodeEncodeError] on a surrogate, [str] with [ValueError] on an
    integer beyond the digit limit; either exception leaves [requests.get]
    before a request is sent. *)
Module Requests.

Definition is_surrogate (c : N) : bool := (0xD800 <=? c) && (c <=? 0xDFFF).

(** [s.encode("utf-8")], of which only the success matters here. *)
Definition encode (s : pystr) : result unit :=
  if existsb is_surrogate s then Raise UnicodeEncodeError else Ok ().

(** A check on each element of a list in turn. *)
Fixpoint each {A} (check : A → result unit) (xs : list A) : result unit :=
  match xs with
  | [] => Ok ()
  | x :: xs' => _ ← check x; each check xs'
  end.

(** First pass over one value. *)
Definition encode_strings (vs : pyval) : result unit :=
  match vs with
  | PStr s => encode s
  | PList xs => each (λ v, match v with PStr s => encode s | _ => Ok () end) xs
  | PDict items => each (λ kv, encode kv.1) items
  | _ => Ok ()
  end.

(** [quote_via(str(elt))] for an element of a sequence. *)
Definition write_element (elt : pyval) : result unit :=
  match elt with
  | PStr s => encode s
  | _ => if Py.writable elt then Ok () else Raise ValueError
  end.

(** Second pass over one value of a pair: bytes and [None] are done with,
    a sequence is written element by element (a dict yields its keys), and
    the rest with [str]. *)
Definition write_value (v : pyval) : result unit :=
  match v with
  | PNone | PStr _ => Ok ()
  | PList elts => each write_element elts
  | PDict items => each (λ kv, encode kv.1) items
  | _ => if Py.writable v then Ok () else Raise ValueError
  end.

(** Second pass over the value under a key. *)
Definition write_values (vs : pyval) : result unit :=
  match vs with
  | PList xs => each write_value xs
  | PDict _ => Ok ()
  | _ => write_value vs
  end.

(** The two passes over the [params] of [fetch_ctg_studies], in the order of
    the keys. *)
Definition prepare (p : params) : result unit :=
  _ ← encode (format p);
  _ ← encode (query_cond p);
  _ ← encode (filter_overallStatus p);
  _ ← encode (filter_advanced p);
  _ ← encode (fields p);
  _ ← encode (countTotal p);
  _ ← from_option encode_strings (Ok ()) (pageToken p);
  _ ← write_value (PInt (pageSize p));
  from_option write_values (Ok ()) (pageToken p).

End Requests.

(** One page: the studies it carries and the token it returns. *)
Definition read_page (data : pyval) : result (list pyval * pyval) :=
  chunk ← Py.get data (lit "studies") (PList []);
  items ← Py.iterate chunk;
  next_token ← Py.get data (lit "nextPageToken") PNone;
  Ok (items, next_token).

(** The [while True] loop of [fetch_ctg_studies].  [sent] is the list of the
    requests sent so far, oldest first; a request that cannot be prepared is
    not sent.  The loop has no bound of its own, so the model runs it for at
    most [fuel] iterations and answers [None] when they do not suffice. *)
Fixpoint fetch_loop (fuel : nat) (reg : registry) (p : params)
    (studies : list pyval) (next_token : pyval) (sent : list params)
    : option (result (list pyval)) * list params :=
  match fuel with
  | O => (None, sent)
  | S fuel' =>
      let p := next_request p next_token in
      match Requests.prepare p with
      | Raise e => (Some (Raise e), sent)
      | Ok _ =>
          let sent' := sent ++ [p] in
          match reg sent p with
          | NoResponse name => (Some (Raise (RequestException name)), sent')
          | Reply status_code json =>
              if is_error_status status_code then (Some (Raise HTTPError), sent')
              else
                match json with
                | None => (Some (Raise JSONDecodeError), sent')
                | Some data =>
                    match read_page data with
                    | Raise e => (Some (Raise e), sent')
                    | Ok (chunk, next_token) =>
                        let studies := studies ++ chunk in
                        if Py.truthy next_token
                        then fetch_loop fuel' reg p studies next_token sent'
                        else (Some (Ok studies), sent')
                    end
                end
          end
      end
  end.

Definition study_fields : list pystr :=
  [lit "NCTId"; lit "BriefTitle"; lit "protocolSection.eligibilityModule";
   lit "protocolSection.conditionsModule"].

(** The [params] dict of [fetch_ctg_studies]. *)
Definition query_params (safe_condition joined_status age_str : pystr) (page_size : Z)
    : params :=
  {| format := lit "json";
     query_cond := safe_condition;
     filter_overallStatus := joined_status;
     filter_advanced :=
       lit "AREA[MinimumAge]RANGE[MIN, " ++ age_str
         ++ lit "] AND AREA[MaximumAge]RANGE[" ++ age_str ++ lit ", MAX]";
     fields := Str.join (lit ",") study_fields;
     pageSize := page_size;
     countTotal := lit "true";
     pageToken := None |}.

Definition fetch_ctg_studies (fuel : nat) (reg : registry)
    (condition : pyval) (age : Z) (status_list : list pystr) (page_size : Z)
    (sent : list params) : option (result (list pyval)) * list params :=
  let joined_status := Str.join (lit ",") status_list in
  match format_age_essie age with
  | Raise e => (Some (Raise e), sent)
  | Ok age_str =>
      match quote_for_essie condition with
      | Raise e => (Some (Raise e), sent)
      | Ok safe_condition =>
          fetch_loop fuel reg
            (query_params safe_condition joined_status age_str page_size)
            [] PNone sent
      end
  end.

(** *** Matching *)

(** The fields of a row of the patient table that [match_patient_to_trials]
    reads.  [AGE] and [GENDER] are the values after the conversions
    [int(...)] and [str(...)] applied on entry; [CONDITION_LIST] is the cell
    as it is found, [None] when the row has no such column. *)
Record patient_row := {
  AGE : Z;
  GENDER : pystr;
  CONDITION_LIST : option pyval
}.

(** The dict appended to [matched] for a trial that matches. *)
Record match_entry := {
  trialId : pyval;
  trialName : pyval;
  eligibilityCriteriaMet : list pyval
}.

Definition default_statuses : list pystr := [lit "RECRUITING"; lit "ENROLLING_BY_INVITATION"].

(** [{c.lower() for c in xs}] *)
Fixpoint lower_set (xs : list pyval) : result (gset pystr) :=
  match xs with
  | [] => Ok ∅
  | c :: xs' =>
      l ← Py.lower c;
      rest ← lower_set xs';
      Ok ({[ l ]} ∪ rest)
  end.

(** The inner loop: the trial conditions whose lowercase form is in the set,
    appended to [intersecting_conds] one after the other. *)
Fixpoint intersect_loop (patient_conditions_lower : gset pystr)
    (trial_conditions : list pyval) (intersecting_conds : list pyval)
    : result (list pyval) :=
  match trial_conditions with
  | [] => Ok intersecting_conds
  | c :: trial_conditions' =>
      l ← Py.lower c;
      intersect_loop patient_conditions_lower trial_conditions'
        (if bool_decide (l ∈ patient_conditions_lower)
         then intersecting_conds ++ [c] else intersecting_conds)
  end.

(** [st.get("protocolSection", {}).get(name, {})] *)
Definition protocol_module (st : pyval) (name : pystr) : result pyval :=
  section ← Py.get st (lit "protocolSection") (PDict []);
  Py.get section name (PDict []).

(** The body of the loop over [trials_data] for one study: [None] when an
    iteration ends in [continue], the entry to append otherwise. *)
Definition match_trial (age : Z) (gender : pystr) (patient_conditions : list pyval)
    (st : pyval) : result (option match_entry) :=
  elig_mod ← protocol_module st (lit "eligibilityModule");
  ok_structured ← meets_structured_criteria age gender elig_mod;
  if negb ok_structured then Ok None
  else
    cond_mod ← protocol_module st (lit "conditionsModule");
    listed ← Py.get cond_mod (lit "conditions") (PList []);
    trial_conditions ← Py.iterate (if Py.truthy listed then listed else PList []);
    trial_conditions_lower ← lower_set trial_conditions;
    patient_conditions_lower ← lower_set patient_conditions;
    intersecting_conds ← intersect_loop patient_conditions_lower trial_conditions [];
    if bool_decide (intersecting_conds = []) then Ok None
    else
      ident_mod ← protocol_module st (lit "identificationModule");
      nct_id ← Py.get ident_mod (lit "nctId") (PStr []);
      brief_title ← Py.get ident_mod (lit "briefTitle") (PStr []);
      Ok (Some {| trialId := nct_id; trialName := brief_title;
                  eligibilityCriteriaMet := intersecting_conds |}).

(** The loop over [trials_data]; an exception in one iteration ends it. *)
Fixpoint match_loop (age : Z) (gender : pystr) (patient_conditions : list pyval)
    (trials_data : list pyval) (matched : list match_entry) : result (list match_entry) :=
  match trials_data with
  | [] => Ok matched
  | st :: trials_data' =>
      entry ← match_trial age gender patient_conditions st;
      match_loop age gender patient_conditions trials_data'
        (match entry with
         | Some e => matched ++ [e]
         | None => matched
         end)
  end.

Definition match_patient_to_trials (fuel : nat) (reg : registry)
    (patient_row : patient_row) (statuses : option (list pystr))
    (sent : list params) : option (result (list match_entry)) * list params :=
  let statuses := default default_statuses statuses in
  let age := AGE patient_row in
  let gender := GENDER patient_row in
  let patient_conditions :=
    match default (PList []) (CONDITION_LIST patient_row) with
    | PList xs => xs
    | _ => []
    end in
  match patient_conditions with
  | [] => (Some (Ok []), sent)
  | primary_condition :: _ =>
      match fetch_ctg_studies fuel reg primary_condition age statuses 20 sent with
      | (Some (Ok trials_data), sent') =>
          (Some (match_loop age gender patient_conditions trials_data []), sent')
      | (Some (Raise e), sent') => (Some (Raise e), sent')
      | (None, sent') => (None, sent')
      end
  end.


(** *** Ages from birthdates

    [compute_age] reads the clock; the embedding takes what it reads as an
    argument.  The birthdate parsed by [strptime] lies at midnight, so the
    [days] of the difference are the days between the two dates whatever
    the time of day: [today] is the proleptic Gregorian ordinal of the
    current date, [datetime.now().toordinal()]. *)

Module Datetime.

Definition is_leap (year : Z) : bool :=
  (year mod 4 =? 0)%Z && (negb (year mod 100 =? 0)%Z || (year mod 400 =? 0)%Z).

Definition days_before_year (year : Z) : Z :=
  let y := (year - 1)%Z in (y * 365 + y / 4 - y / 100 + y / 400)%Z.

Definition days_in_month (year month : Z) : Z :=
  if (month =? 2)%Z && is_leap year then 29%Z
  else nth (Z.to_nat month) [0; 31; 28; 31; 30; 31; 30; 31; 31; 30; 31; 30; 31]%Z 0%Z.

Definition days_before_month (year month : Z) : Z :=
  (nth (Z.to_nat month) [0; 0; 31; 59; 90; 120; 151; 181; 212; 243; 273; 304; 334] 0
   + (if (2 <? month) && is_leap year then 1 else 0))%Z.

(** [date(year, month, day).toordinal()]; the constructor raises
    [ValueError] outside the calendar. *)
Definition ymd2ord (year month day : Z) : result Z :=
  if ((1 <=? year) && (year <=? 9999) && (1 <=? month) && (month <=? 12)
      && (1 <=? day) && (day <=? days_in_month year month))%Z
  then Ok (days_before_year year + days_before_month year month + day)%Z
  else Raise ValueError.

Definition in_class (lo hi : string) (c : N) : bool :=
  match lit lo, lit hi with
  | [l], [h] => (l <=? c) && (c <=? h)
  | _, _ => false
  end.

(** A regular expression of the directives, as the alternatives it tries in
    order: each takes a prefix off a string or fails. *)
Definition two (first second : N → bool) (s : pystr) : option (pystr * pystr) :=
  match s with
  | a :: b :: rest => if first a && second b then Some ([a; b], rest) else None
  | _ => None
  end.

Definition one (class : N → bool) (s : pystr) : option (pystr * pystr) :=
  match s with
  | a :: rest => if class a then Some ([a], rest) else None
  | [] => None
  end.

(** The directive m: [1[0-2]|0[1-9]|[1-9]]. *)
Definition month_alternatives : list (pystr → option (pystr * pystr)) :=
  [two (in_class "1" "1") (in_class "0" "2");
   two (in_class "0" "0") (in_class "1" "9");
   one (in_class "1" "9")].

(** The directive d: [3[0-1]|[1-2]\d|0[1-9]|[1-9]| [1-9]]. *)
Definition day_alternatives : list (pystr → option (pystr * pystr)) :=
  [two (in_class "3" "3") (in_class "0" "1");
   two (in_class "1" "2") UCD.is_decimal;
   two (in_class "0" "0") (in_class "1" "9");
   one (in_class "1" "9");
   two (in_class " " " ") (in_class "1" "9")].

(** The first alternative, in order, after which [continue] succeeds. *)
Fixpoint first_match {A} (alternatives : list (pystr → option (pystr * pystr)))
    (continue : pystr → pystr → option A) (s : pystr) : option A :=
  match alternatives with
  | [] => None
  | alt :: alternatives' =>
      match alt s ≫= λ '(group, rest), continue group rest with
      | Some found => Some found
      | None => first_match alternatives' continue s
      end
  end.

(** The match of the pattern for the format [%Y-%m-%d] at the start of a
    string: the three groups and what is left of the string. *)
Definition match_ymd (s : pystr) : option (pystr * pystr * pystr * pystr) :=
  match s with
  | y1 :: y2 :: y3 :: y4 :: s1 =>
      if forallb UCD.is_decimal [y1; y2; y3; y4] then
        match s1 with
        | dash :: s2 =>
            if dash =? 0x2D then
              first_match month_alternatives (λ m s3,
                match s3 with
                | dash :: s4 =>
                    if dash =? 0x2D then
                      first_match day_alternatives
                        (λ d left, Some ([y1; y2; y3; y4], m, d, left)) s4
                    else None
                | [] => None
                end) s2
            else None
        | [] => None
        end
      else None
  | _ => None
  end.

(** [datetime.strptime(s, "%Y-%m-%d").toordinal()]. *)
Definition strptime_ymd (v : pyval) : result Z :=
  match v with
  | PStr s =>
      match match_ymd s with
      | Some (Y, m, d, []) =>
          year ← Py.int Y;
          month ← Py.int m;
          day ← Py.int d;
          ymd2ord year month day
      | _ => Raise ValueError
      end
  | _ => Raise TypeError
  end.

End Datetime.

(** The [except] clause catches [ValueError] and [TypeError]. *)
Definition compute_age (today : Z) (birthdate_str : pyval) : result Z :=
  match Datetime.strptime_ymd birthdate_str with
  | Ok birthdate => Ok ((today - birthdate) / 365)%Z
  | Raise ValueError | Raise TypeError => Ok 0%Z
  | Raise e => Raise e
  end.

(** *** The run over all patients *)

(** An entry of [all_results] and a row of [csv_rows]. *)
Record result_entry := {
  patientId : pystr;
  eligibleTrials : list match_entry
}.

Record csv_row := {
  row_patientId : pystr;
  row_trialId : pyval;
  row_trialName : pyval;
  row_eligibilityCriteriaMet : pystr
}.

(** The strings among the arguments of [str.join], which raises [TypeError]
    on anything else. *)
Fixpoint join_items (xs : list pyval) : result (list pystr) :=
  match xs with
  | [] => Ok []
  | PStr s :: xs' => parts ← join_items xs'; Ok (s :: parts)
  | _ :: _ => Raise TypeError
  end.

(** [sep.join(xs)] *)
Definition join_values (sep : pystr) (xs : list pyval) : result pystr :=
  parts ← join_items xs; Ok (Str.join sep parts).

(** The inner loop of [main] over the matches of one patient. *)
Fixpoint csv_loop (patient_id : pystr) (matched_trials : list match_entry)
    (csv_rows : list csv_row) : result (list csv_row) :=
  match matched_trials with
  | [] => Ok csv_rows
  | mt :: matched_trials' =>
      joined ← join_values (lit "; ") (eligibilityCriteriaMet mt);
      csv_loop patient_id matched_trials'
        (csv_rows ++ [{| row_patientId := patient_id;
                         row_trialId := trialId mt;
                         row_trialName := trialName mt;
                         row_eligibilityCriteriaMet := joined |}])
  end.

(** The loop of [main] over the rows of the patient table, each given with
    its [PATIENT_ID] as [str(...)] renders it.  What the loop leaves in
    [all_results] and [csv_rows] is what [main] then writes out; an
    exception ends the run before anything is written. *)
Fixpoint main_loop (fuel : nat) (reg : registry) (rows : list (pystr * patient_row))
    (all_results : list result_entry) (csv_rows : list csv_row) (sent : list params)
    : option (result (list result_entry * list csv_row)) * list params :=
  match rows with
  | [] => (Some (Ok (all_results, csv_rows)), sent)
  | (patient_id, row) :: rows' =>
      match match_patient_to_trials fuel reg row None sent with
      | (Some (Ok matched_trials), sent') =>
          let entry := {| patientId := patient_id; eligibleTrials := matched_trials |} in
          match csv_loop patient_id matched_trials csv_rows with
          | Ok csv_rows' =>
              main_loop fuel reg rows' (all_results ++ [entry]) csv_rows' sent'
          | Raise e => (Some (Raise e), sent')
          end
      | (Some (Raise e), sent') => (Some (Raise e), sent')
      | (None, sent') => (None, sent')
      end
  end.
(** ** The data model of the specification

    The records of the specification and the JSON the registry publishes
    them as; the statements below that speak of trials and pages use them. *)

Record EligibilityRule := {
  minimumAge : option pystr;
  maximumAge : option pystr;
  sex : option pystr
}.

Record TrialRecord := {
  nctId : pystr;
  briefTitle : pystr;
  conditions : list pystr;
  eligibility : EligibilityRule
}.

Definition optional_item (key : string) (value : option pystr) : list (pystr * pyval) :=
  match value with
  | Some s => [(lit key, PStr s)]
  | None => []
  end.

Definition eligibility_json (r : EligibilityRule) : pyval :=
  PDict (optional_item "minimumAge" (minimumAge r)
         ++ optional_item "maximumAge" (maximumAge r)
         ++ optional_item "sex" (sex r)).

Definition study_json (t : TrialRecord) : pyval :=
  PDict [(lit "protocolSection", PDict [
    (lit "identificationModule",
       PDict [(lit "nctId", PStr (nctId t)); (lit "briefTitle", PStr (briefTitle t))]);
    (lit "eligibilityModule", eligibility_json (eligibility t));
    (lit "conditionsModule", PDict [(lit "conditions", PList (PStr <$> conditions t))])])].

(** The fields of an eligibility module as [meets_structured_criteria]
    reads them, defaults included. *)
Definition minimum_age_text (items : list (pystr * pyval)) : pyval :=
  default (PStr []) (Py.lookup_item (lit "minimumAge") items).

Definition maximum_age_text (items : list (pystr * pyval)) : pyval :=
  default (PStr []) (Py.lookup_item (lit "maximumAge") items).

Definition rule_sex (items : list (pystr * pyval)) : pyval :=
  default (PStr (lit "ALL")) (Py.lookup_item (lit "sex") items).

(** The patient's sex, uppercased, is none of [accepted]. *)
Definition sex_excluded (patient_gender : pystr) (accepted : list pystr) : Prop :=
  Str.upper patient_gender ∉ accepted.

(** A trial condition overlaps when its lowercase form is the lowercase form
    of some condition of the patient. *)
Definition overlaps (patientConditions : list pystr) (c : pystr) : Prop :=
  Exists (λ pc, Str.lower c = Str.lower pc) patientConditions.

#[global] Instance overlaps_dec patientConditions c : Decision (overlaps patientConditions c).
Proof. unfold overlaps. apply _. Defined.

(** [intersectConditions] as the specification words it. *)
Definition intersectConditions (patientConditions trialConditions : list pystr) : list pystr :=
  filter (overlaps patientConditions) trialConditions.

(** [parseAge] as the specification words it: 0 for a text that is absent,
    empty or begins with n/a whatever the case, otherwise the value of the
    first token made of decimal digits only, 0 when there is none. *)
Definition all_decimal (p : pystr) : bool :=
  negb (bool_decide (p = [])) && forallb UCD.is_decimal p.

Definition numeral_value (p : pystr) : N :=
  fold_left (λ acc c, 10 * acc + default 0 (UCD.decimal_value c)) p 0.

Definition parseAge (text : option pystr) : Z :=
  match text with
  | None => 0
  | Some s =>
      if bool_decide (s = []) || Str.startswith (Str.lower s) (lit "n/a") then 0
      else match List.find all_decimal (Str.split s) with
           | Some p => Z.of_N (numeral_value p)
           | None => 0
           end
  end.

#[global] Instance sex_excluded_dec patient_gender accepted :
  Decision (sex_excluded patient_gender accepted).
Proof. unfold sex_excluded. apply _. Defined.

(** [meetsStructuredCriteria] as the specification words it: the four rules
    in order, on the bounds that [parseAge] reads off the rule. *)
Definition meetsStructuredCriteria (ageYears : Z) (sexCategory : pystr)
    (rule : EligibilityRule) : bool :=
  let m := parseAge (minimumAge rule) in
  let M := parseAge (maximumAge rule) in
  if bool_decide (m ≠ 0 ∧ ageYears < m)%Z then false
  else if bool_decide (M ≠ 0 ∧ ageYears > M)%Z then false
  else if bool_decide (sex rule = Some (lit "FEMALE")
                       ∧ sex_excluded sexCategory [lit "FEMALE"; lit "F"]) then false
  else if bool_decide (sex rule = Some (lit "MALE")
                       ∧ sex_excluded sexCategory [lit "MALE"; lit "M"]) then false
  else true.

(** Steps 4 and 5 of [matchPatient] as the specification words them: one
    match, in order, for each trial that passes the structured criteria and
    shares a condition with the patient. *)
Definition matchPatient (age : Z) (gender : pystr) (patientConditions : list pystr)
    (trials : list TrialRecord) : list match_entry :=
  omap (λ t,
    let matchedConditions := intersectConditions patientConditions (conditions t) in
    if meetsStructuredCriteria age gender (eligibility t)
       && negb (bool_decide (matchedConditions = []))
    then Some {| trialId := PStr (nctId t); trialName := PStr (briefTitle t);
                 eligibilityCriteriaMet := PStr <$> matchedConditions |}
    else None) trials.




(** The first request with a token attached: the same parameters, and the
    token under [pageToken]. *)
Definition page_request (first : params) (token : pyval) : params :=
  {| format := format first; query_cond := query_cond first;
     filter_overallStatus := filter_overallStatus first;
     filter_advanced := filter_advanced first; fields := fields first;
     pageSize := pageSize first; countTotal := countTotal first;
     pageToken := Some token |}.





(** An integer that [str] can write: one of at most 4300 digits. *)
Definition formattable (n : Z) : Prop :=
  (length (Str.of_int (Z.abs n)) ≤ Py.int_max_str_digits)%nat.

(** A string with each double quote preceded by a backslash. *)
Fixpoint escaped (s : pystr) : pystr :=
  match s with
  | [] => []
  | c :: s' =>
      if bool_decide (c = 0x22) then 0x5C :: 0x22 :: escaped s' else c :: escaped s'
  end.

(** The search term for a condition given as a string. *)
Definition quoted (condition : pystr) : pystr :=
  match quote_for_essie (PStr condition) with
  | Ok safe_condition => safe_condition
  | Raise _ => condition
  end.

(** The first request of [fetch_ctg_studies] for such a condition. *)
Definition first_params (condition : pystr) (age : Z) (status_list : list pystr)
    (page_size : Z) : params :=
  query_params (quoted condition) (Str.join (lit ",") status_list)
    (Str.of_int age ++ lit " Years") page_size.

(** The success class of HTTP status codes. *)
Definition is_success_status (status_code : Z) : bool :=
  (200 <=? status_code)%Z && (status_code <? 300)%Z.

(** [failed_replies_raise reg sent outcome sent']: [sent'] extends [sent] by
    the requests of one fetch, and if the registry answered any of them with
    an error status the outcome is [HTTPError], if it answered any with a
    body that is not JSON the outcome is [JSONDecodeError]: an exception, not
    a list of studies. *)
Definition failed_replies_raise (reg : registry) (sent : list params)
    (outcome : option (result (list pyval))) (sent' : list params) : Prop :=
  ∃ issued,
    sent' = sent ++ issued
    ∧ ∀ earlier request later status_code json,
        issued = earlier ++ request :: later →
        reg (sent ++ earlier) request = Reply status_code json →
        (is_error_status status_code = true → outcome = Some (Raise HTTPError))
        ∧ (is_error_status status_code = false → json = None →
           outcome = Some (Raise JSONDecodeError)).

(** A token [int] converts: decimal digits only, no more of them than the
    conversion admits. *)
Definition decimal_numeral (p : pystr) : Prop :=
  Forall (λ c, is_Some (UCD.decimal_value c)) p
  ∧ (length p ≤ Py.int_max_str_digits)%nat.

(** A character that [int] reads as a digit or not at all: no whitespace, no
    sign, no underscore. *)
Definition plain (c : N) : bool :=
  negb (Py.int_space c) && negb (c =? 0x2D) && negb (c =? 0x2B) && negb (c =? 0x5F).

(** An age text on which the digit test and the conversion agree: every
    token that passes [str.isdigit] is a numeral [int] converts. *)
Definition plain_age (text : option pystr) : Prop :=
  match text with
  | Some s => Forall (λ p, Str.isdigit p = true → decimal_numeral p) (Str.split s)
  | None => True
  end.

(** A trial whose age texts are plain. *)
Definition plain_ages (t : TrialRecord) : Prop :=
  plain_age (minimumAge (eligibility t)) ∧ plain_age (maximumAge (eligibility t)).

(** An ASCII digit. *)
Definition ascii_digit (c : N) : bool := (0x30 <=? c) && (c <=? 0x39).

(** One step of reading a numeral. *)
Definition digit_step (acc c : N) : N := 10 * acc + default 0 (UCD.decimal_value c).

(** The code points of a range of a table. *)
Definition range_members (r : N * N) : list N :=
  N.of_nat <$> seq (N.to_nat r.1) (S (N.to_nat r.2 - N.to_nat r.1)).

(** What [meets_structured_criteria] reads off an eligibility module before
    it looks at the patient: the sex and the two parsed bounds. *)
Definition rule_bounds (eligibility : pyval) : result (pyval * Z * Z) :=
  min_age_str ← Py.get eligibility (lit "minimumAge") (PStr []);
  max_age_str ← Py.get eligibility (lit "maximumAge") (PStr []);
  sex_str ← Py.get eligibility (lit "sex") (PStr (lit "ALL"));
  min_age ← parse_age_string min_age_str;
  max_age ← parse_age_string max_age_str;
  Ok (sex_str, min_age, max_age).

(** The four tests on the patient, given what was read. *)
Definition criteria_verdict (patient_age : Z) (upper_gender : pystr)
    (bounds : pyval * Z * Z) : bool :=
  let '(sex_str, min_age, max_age) := bounds in
  if negb (min_age =? 0)%Z && (patient_age <? min_age)%Z then false
  else if negb (max_age =? 0)%Z && (patient_age >? max_age)%Z then false
  else if Py.eq_str sex_str (lit "FEMALE")
          && negb (bool_decide (upper_gender ∈ [lit "FEMALE"; lit "F"]))
  then false
  else if Py.eq_str sex_str (lit "MALE")
          && negb (bool_decide (upper_gender ∈ [lit "MALE"; lit "M"]))
  then false
  else true.

(** Two requests that differ at most in [pageToken]. *)
Definition same_query (p q : params) : Prop :=
  format p = format q
  ∧ query_cond p = query_cond q
  ∧ filter_overallStatus p = filter_overallStatus q
  ∧ filter_advanced p = filter_advanced q
  ∧ fields p = fields q
  ∧ pageSize p = pageSize q
  ∧ countTotal p = countTotal q.

(** [chained reg sent p token issued]: the requests [issued], sent one after
    the other after [sent], are the next request for [p] and [token], then
    the one for the token the registry returned to it, and so on. *)
Fixpoint chained (reg : registry) (sent : list params) (p : params) (token : pyval)
    (issued : list params) : Prop :=
  match issued with
  | [] => True
  | r :: later =>
      r = next_request p token
      ∧ match later with
        | [] => True
        | _ :: _ =>
            ∃ status_code data chunk next_token,
              reg sent r = Reply status_code (Some data)
              ∧ is_error_status status_code = false
              ∧ read_page data = Ok (chunk, next_token)
              ∧ Py.truthy next_token = true
              ∧ chained reg (sent ++ [r]) r next_token later
        end
  end.

(** The strings among a list of values. *)
Definition condition_texts (xs : list pyval) : list pystr :=
  omap (λ x, match x with PStr s => Some s | _ => None end) xs.

(** The row of the table that [main] writes for a match of a patient. *)
Definition csv_row_of (patient_id : pystr) (mt : match_entry) : csv_row :=
  {| row_patientId := patient_id;
     row_trialId := trialId mt;
     row_trialName := trialName mt;
     row_eligibilityCriteriaMet :=
       Str.join (lit "; ") (condition_texts (eligibilityCriteriaMet mt)) |}.

Definition entry_rows (entry : result_entry) : list csv_row :=
  csv_row_of (patientId entry) <$> eligibleTrials entry.

(** The conditions of every match are strings. *)
Definition lists_strings (matches : list match_entry) : Prop :=
  Forall (λ mt, Forall (λ c, ∃ s, c = PStr s) (eligibilityCriteriaMet mt)) matches.

(** The number of leap years from year 1 up to a year. *)
Definition leap_count (year : Z) : Z := (year / 4 - year / 100 + year / 400)%Z.

(** ** Sample data

    Concrete patients, trials and registries on which the statements below
    are exercised. *)

(** A row whose condition cell is the missing value NaN. *)
Definition row_without_conditions : patient_row :=
  {| AGE := 52; GENDER := lit "M"; CONDITION_LIST := Some (PFloat S754_nan) |}.


(** The eligibility module of the specification's example: 18 to 65 years,
    women only. *)
Definition sample_rule : list (pystr * pyval) :=
  [(lit "minimumAge", PStr (lit "18 Years"));
   (lit "maximumAge", PStr (lit "65 Years"));
   (lit "sex", PStr (lit "FEMALE"))].


(** The superscript two, a digit that is not a decimal digit. *)
Definition superscript_two : N := 0xB2.

(** The end-to-end example of the specification: patient P1 and trial NCT1,
    which the registry returns on a single page. *)
Definition trial_NCT1 : TrialRecord :=
  {| nctId := lit "NCT1";
     briefTitle := lit "T1";
     conditions := [lit "Diabetes"; lit "Obesity"];
     eligibility := {| minimumAge := Some (lit "18 Years");
                       maximumAge := Some (lit "70 Years");
                       sex := Some (lit "FEMALE") |} |}.

Definition patient_P1 : patient_row :=
  {| AGE := 45;
     GENDER := lit "F";
     CONDITION_LIST := Some (PList [PStr (lit "Diabetes")]) |}.

(** Patient P1 with the sex written in lower case. *)
Definition patient_P1_lowercase : patient_row :=
  {| AGE := 45;
     GENDER := lit "f";
     CONDITION_LIST := Some (PList [PStr (lit "Diabetes")]) |}.

Definition match_NCT1 : match_entry :=
  {| trialId := PStr (lit "NCT1");
     trialName := PStr (lit "T1");
     eligibilityCriteriaMet := [PStr (lit "Diabetes")] |}.

Definition one_page_registry : registry :=
  λ _ _, Reply 200 (Some (PDict [(lit "studies", PList [study_json trial_NCT1])])).

(** The pagination example of the specification: a first page that returns
    the token T2, a second page without a token. *)
Definition trial_NCT2 : TrialRecord :=
  {| nctId := lit "NCT2";
     briefTitle := lit "T2";
     conditions := [lit "diabetes"];
     eligibility := {| minimumAge := None; maximumAge := None; sex := None |} |}.

Definition first_page : pyval :=
  PDict [(lit "studies", PList [study_json trial_NCT1]);
         (lit "nextPageToken", PStr (lit "T2"))].

Definition second_page : pyval :=
  PDict [(lit "studies", PList [study_json trial_NCT2])].

Definition two_page_registry : registry :=
  λ sent _,
    match sent with
    | [] => Reply 200 (Some first_page)
    | _ => Reply 200 (Some second_page)
    end.


(** A registry that serves the first page and then answers 503. *)
Definition failing_registry : registry :=
  λ sent _,
    match sent with
    | [] => Reply 200 (Some first_page)
    | _ => Reply 503 None
    end.

(** A registry that answers 300 Multiple Choices with a page in the body. *)
Definition multiple_choices_registry : registry := λ _ _, Reply 300 (Some second_page).

(** The phrase foo "bar" of the specification's example, and a word with a
    double quote but neither whitespace nor bracket. *)
Definition quoted_phrase : pystr := lit "foo " ++ [0x22] ++ lit "bar" ++ [0x22].
Definition quoted_word : pystr := lit "5" ++ [0x22].

(** A trial whose minimum age is the text made of the superscript two, and a
    registry that returns it ahead of trial NCT1. *)
Definition trial_superscript : TrialRecord :=
  {| nctId := lit "NCT3";
     briefTitle := lit "T3";
     conditions := [lit "Diabetes"];
     eligibility := {| minimumAge := Some [superscript_two];
                       maximumAge := None;
                       sex := None |} |}.

Definition superscript_registry : registry :=
  λ _ _, Reply 200 (Some (PDict [(lit "studies",
                                  PList [study_json trial_superscript;
                                         study_json trial_NCT1])])).




(** The first request for patient P1. *)
Definition diabetes_params : params := first_params (lit "Diabetes") 45 default_statuses 20.

(** A row whose first condition was read as a number. *)
Definition row_with_numeric_condition : patient_row :=
  {| AGE := 30; GENDER := lit "F";
     CONDITION_LIST := Some (PList [PInt 44054006; PStr (lit "Diabetes")]) |}.

(** A row with a numeric first condition and an age of 4301 digits. *)
Definition row_with_long_age : patient_row :=
  {| AGE := 10 ^ 4300; GENDER := lit "F";
     CONDITION_LIST := Some (PList [PInt 44054006]) |}.

(** Patient P1 with the conditions spelled and ordered otherwise. *)
Definition patient_P1_respelled : patient_row :=
  {| AGE := 45;
     GENDER := lit "F";
     CONDITION_LIST :=
       Some (PList (PStr <$> [lit "Diabetes"; lit "ASTHMA"; lit "diabetes"])) |}.

Definition patient_P1_asthma : patient_row :=
  {| AGE := 45;
     GENDER := lit "F";
     CONDITION_LIST := Some (PList (PStr <$> [lit "Diabetes"; lit "Asthma"])) |}.

(** A table of two patients: P1, and P2 who has no condition on record. *)
Definition sample_table : list (pystr * patient_row) :=
  [(lit "P1", patient_P1); (lit "P2", row_without_conditions)].

(** A table whose second patient has a numeric first condition. *)
Definition failing_table : list (pystr * patient_row) :=
  [(lit "P1", patient_P1); (lit "P3", row_with_numeric_condition);
   (lit "P2", row_without_conditions)].

Definition sample_results : list result_entry :=
  [{| patientId := lit "P1"; eligibleTrials := [match_NCT1] |};
   {| patientId := lit "P2"; eligibleTrials := [] |}].

Definition sample_csv_rows : list csv_row :=
  [{| row_patientId := lit "P1";
      row_trialId := PStr (lit "NCT1");
      row_trialName := PStr (lit "T1");
      row_eligibilityCriteriaMet := lit "Diabetes" |}].

(** A table of patients without conditions on record. *)
Definition idle_table : list (pystr * patient_row) :=
  [(lit "P2", row_without_conditions);
   (lit "P4", {| AGE := 7; GENDER := lit "M"; CONDITION_LIST := Some (PList []) |})].

(** A birthdate, and the ordinals of that day, of the same day 45 years on
    and of 4 November 2026. *)
Definition born_1980_06_15 : pyval := PStr (lit "1980-06-15").
Definition day_1980_06_15 : Z := 722981.
Definition day_2025_06_15 : Z := 739417.
Definition day_2026_11_04 : Z := 739924.
(** * Properties *)

(** ** The result monad *)

Lemma bind_Ok {A B} (f : A → result B) (a : A) : Ok a ≫= f = f a.
Proof. reflexivity. Qed.

Lemma bind_Raise {A B} (f : A → result B) (e : exn) : Raise e ≫= f = Raise e.
Proof. reflexivity. Qed.

Lemma bind_Ok_inv {A B} (f : A → result B) (m : result A) (b : B) :
  m ≫= f = Ok b → ∃ a, m = Ok a ∧ f a = Ok b.
Proof. destruct m as [a|e]; [eauto|discriminate]. Qed.

(** ** The examples of the specification *)

Example parse_age_examples :
  parse_age_string (PStr []) = Ok 0%Z
  ∧ parse_age_string PNone = Ok 0%Z
  ∧ parse_age_string (PStr (lit "N/A")) = Ok 0%Z
  ∧ parse_age_string (PStr (lit "n/a therapy")) = Ok 0%Z
  ∧ parse_age_string (PStr (lit "18 Years")) = Ok 18%Z
  ∧ parse_age_string (PStr (lit "abc")) = Ok 0%Z.
Proof. vm_compute. auto 10. Qed.

Example quote_examples :
  quote_for_essie (PStr (lit "diabetes")) = Ok (lit "diabetes")
  ∧ quote_for_essie (PStr (lit "type 2 diabetes"))
    = Ok ([quote] ++ lit "type 2 diabetes" ++ [quote])
  ∧ quote_for_essie (PStr (lit "foo " ++ [quote] ++ lit "bar" ++ [quote]))
    = Ok ([quote] ++ lit "foo " ++ [backslash; quote] ++ lit "bar"
            ++ [backslash; quote] ++ [quote]).
Proof. vm_compute. auto. Qed.

Example intersect_examples :
  intersectConditions [lit "Diabetes"; lit "Asthma"] [lit "DIABETES"; lit "Hypertension"]
  = [lit "DIABETES"]
  ∧ intersectConditions [lit "Asthma"] [lit "asthma"; lit "Obesity"; lit "ASTHMA"]
    = [lit "asthma"; lit "ASTHMA"].
Proof. vm_compute. auto. Qed.

Example format_age_example : format_age_essie 45 = Ok (lit "45 Years").
Proof. vm_compute. reflexivity. Qed.

Example two_pages_example :
  (match_patient_to_trials 2 two_page_registry patient_P1 None []).1
  = Some (Ok [match_NCT1;
              {| trialId := PStr (lit "NCT2"); trialName := PStr (lit "T2");
                 eligibilityCriteriaMet := [PStr (lit "diabetes")] |}]).
Proof. vm_compute. reflexivity. Qed.

(** ** Quoting of the search term *)

Lemma essie_special_iff (c : N) :
  essie_special c ↔ UCD.is_whitespace c ∨ c ∈ lit "(){}[]".
Proof.
  unfold essie_special. rewrite orb_True, bool_decide_spec. reflexivity.
Qed.

(** Replacing the double quote by a backslash and a double quote is
    [escaped]. *)
Lemma replace_escaped (s : pystr) : Str.replace quote [backslash; quote] s = escaped s.
Proof.
  induction s as [|c s IH]; [reflexivity|].
  unfold Str.replace in *. cbn [mbind list_bind escaped]. rewrite IH.
  unfold quote, backslash.
  destruct (N.eqb_spec c 0x22) as [->|Hc].
  - by rewrite bool_decide_eq_true_2.
  - by rewrite bool_decide_eq_false_2.
Qed.

(** C7. A string with a whitespace character or one of the brackets
    [( ) { } [ ]] comes back between double quotes (code point 0x22), each
    double quote of its own preceded by a backslash; every other string, the
    empty one included, comes back as it is. *)
Theorem quote_for_essie_spec (s : pystr) :
  ((∃ c, c ∈ s ∧ (UCD.is_whitespace c ∨ c ∈ lit "(){}[]")) →
     quote_for_essie (PStr s) = Ok ([0x22] ++ escaped s ++ [0x22]))
  ∧ ((∀ c, c ∈ s → ¬ (UCD.is_whitespace c ∨ c ∈ lit "(){}[]")) →
     quote_for_essie (PStr s) = Ok s)
  ∧ quote_for_essie (PStr []) = Ok [].
Proof.
  split; [|split]; [intros (c & Hc & Hsp)|intros Hnone|reflexivity];
    cbn [quote_for_essie].
  - assert (existsb essie_special s = true) as ->; [|by rewrite replace_escaped].
    apply existsb_exists. exists c. split.
    + by apply list_elem_of_In.
    + apply Is_true_true. by apply essie_special_iff.
  - destruct (existsb essie_special s) eqn:Hex; [|reflexivity].
    apply existsb_exists in Hex as (c & Hc & Hsp).
    destruct (Hnone c); [by apply list_elem_of_In|].
    apply essie_special_iff. by apply Is_true_true.
Qed.

Lemma quote_for_essie_spec_witness :
  quote_for_essie (PStr quoted_phrase)
  = Ok ([0x22] ++ lit "foo " ++ [0x5C; 0x22] ++ lit "bar" ++ [0x5C; 0x22] ++ [0x22])
  ∧ quote_for_essie (PStr (lit "type 2 diabetes"))
    = Ok ([0x22] ++ lit "type 2 diabetes" ++ [0x22])
  ∧ quote_for_essie (PStr (lit "a[b]")) = Ok ([0x22] ++ lit "a[b]" ++ [0x22])
  ∧ quote_for_essie (PStr quoted_word) = Ok quoted_word.
Proof.
  split; [|split; [|split]].
  - destruct (quote_for_essie_spec quoted_phrase) as [Hquoted _].
    rewrite Hquoted; [vm_compute; reflexivity|].
    exists 0x20. split; [|left; exact I].
    apply list_elem_of_In. vm_compute. tauto.
  - destruct (quote_for_essie_spec (lit "type 2 diabetes")) as [Hquoted _].
    rewrite Hquoted; [vm_compute; reflexivity|].
    exists 0x20. split; [|left; exact I].
    apply list_elem_of_In. vm_compute. tauto.
  - destruct (quote_for_essie_spec (lit "a[b]")) as [Hquoted _].
    rewrite Hquoted; [vm_compute; reflexivity|].
    exists 0x5B. split; [|right]; apply list_elem_of_In; vm_compute; tauto.
  - destruct (quote_for_essie_spec quoted_word) as (_ & Hplain & _).
    apply Hplain. intros c Hc [Hspace|Hbracket].
    + apply list_elem_of_In in Hc. vm_compute in Hc.
      repeat (destruct Hc as [<-|Hc]; [vm_compute in Hspace; exact Hspace|]). exact Hc.
    + apply list_elem_of_In in Hc, Hbracket. vm_compute in Hc, Hbracket.
      repeat (destruct Hc as [<-|Hc]; [|]); try exact Hc;
        repeat (destruct Hbracket as [Hbracket|Hbracket]; [discriminate Hbracket|]);
        exact Hbracket.
Defined.

(** ** Patients without conditions *)

(** C10. When the row has no condition list, or holds something that is not
    a list in its place (the missing value a left join leaves, say), the
    function answers the empty list and sends nothing to the registry. *)
Theorem match_without_condition_list (fuel : nat) (reg : registry) (row : patient_row)
    (statuses : option (list pystr)) (sent : list params) :
  CONDITION_LIST row = None
  ∨ (∃ v, CONDITION_LIST row = Some v ∧ ∀ xs, v ≠ PList xs) →
  match_patient_to_trials fuel reg row statuses sent = (Some (Ok []), sent).
Proof.
  unfold match_patient_to_trials.
  intros [-> | (v & -> & Hv)]; [reflexivity|]; simpl.
  destruct v; try reflexivity. by destruct (Hv xs).
Qed.

Lemma match_without_condition_list_witness :
  match_patient_to_trials 0 (λ _ _, NoResponse "ConnectionError") row_without_conditions
    None []
  = (Some (Ok []), []).
Proof.
  apply match_without_condition_list. right.
  exists (PFloat S754_nan). split; [reflexivity|]. intros xs H. discriminate H.
Defined.

(** ** Condition overlap *)

Lemma lower_set_strings (cs : list pystr) :
  lower_set (PStr <$> cs) = Ok (list_to_set (Str.lower <$> cs)).
Proof.
  induction cs as [|c cs IH]; [reflexivity|].
  cbn [fmap list_fmap lower_set Py.lower]. rewrite bind_Ok, IH. reflexivity.
Qed.

Lemma elem_lower_set (cs : list pystr) (c : pystr) :
  Str.lower c ∈ (list_to_set (Str.lower <$> cs) : gset pystr) ↔ overlaps cs c.
Proof.
  unfold overlaps. rewrite elem_of_list_to_set, list_elem_of_fmap, Exists_exists.
  split; intros (pc & H1 & H2); exists pc; split; done || by apply list_elem_of_In.
Qed.

Lemma intersect_loop_strings (cs : list pystr) (trial_conditions : list pystr)
    (intersecting_conds : list pyval) :
  intersect_loop (list_to_set (Str.lower <$> cs)) (PStr <$> trial_conditions)
    intersecting_conds
  = Ok (intersecting_conds ++ (PStr <$> filter (overlaps cs) trial_conditions)).
Proof.
  revert intersecting_conds.
  induction trial_conditions as [|c tcs IH]; intros acc.
  - cbn. by rewrite app_nil_r.
  - cbn [fmap list_fmap intersect_loop Py.lower]. rewrite bind_Ok, IH.
    rewrite filter_cons. f_equal.
    destruct (decide (overlaps cs c)) as [Hin|Hout].
    + rewrite bool_decide_eq_true_2 by by apply elem_lower_set.
      rewrite fmap_cons. by rewrite <- app_assoc.
    + rewrite bool_decide_eq_false_2; [done|]. by rewrite elem_lower_set.
Qed.

(** C6. The intersection keeps a trial condition, where the trial lists it
    and as the trial spells it, exactly when its lowercase form is the
    lowercase form of some patient condition; each listed condition is
    tested on its own, so repeated ones are kept as often as they pass. *)
Theorem intersection_retains (patient_conditions trial_conditions : list pystr) :
  ∃ patient_conditions_lower,
    lower_set (PStr <$> patient_conditions) = Ok patient_conditions_lower
    ∧ intersect_loop patient_conditions_lower (PStr <$> trial_conditions) []
      = Ok (PStr <$> filter (overlaps patient_conditions) trial_conditions).
Proof.
  exists (list_to_set (Str.lower <$> patient_conditions)). split.
  - apply lower_set_strings.
  - by rewrite intersect_loop_strings.
Qed.

Lemma intersection_retains_witness :
  ∃ patient_conditions_lower,
    lower_set (PStr <$> [lit "Diabetes"; lit "Asthma"]) = Ok patient_conditions_lower
    ∧ intersect_loop patient_conditions_lower
        (PStr <$> [lit "DIABETES"; lit "Hypertension"; lit "asthma"; lit "Diabetes"]) []
      = Ok (PStr <$> [lit "DIABETES"; lit "asthma"; lit "Diabetes"]).
Proof.
  destruct (intersection_retains [lit "Diabetes"; lit "Asthma"]
              [lit "DIABETES"; lit "Hypertension"; lit "asthma"; lit "Diabetes"])
    as (patient_conditions_lower & Hset & Hkept).
  exists patient_conditions_lower. split; [exact Hset|].
  rewrite Hkept. vm_compute. reflexivity.
Defined.

(** ** Structured criteria *)

Lemma eq_str_spec (v : pyval) (s : pystr) : Py.eq_str v s = true ↔ v = PStr s.
Proof.
  destruct v; simpl; try (split; [discriminate|intros [=]]).
  rewrite bool_decide_eq_true. split; [by intros ->|by intros [= ->]].
Qed.





(** ** Parsing of ages *)

Lemma decimal_is_plain (c : N) : is_Some (UCD.decimal_value c) → plain c = true.
Proof.
  unfold UCD.decimal_value. intros [d Hd].
  destruct (List.find _ UCD.decimal_zeros) as [z|] eqn:Hfind; [|discriminate].
  apply find_some in Hfind as [Hin Hrange].
  apply andb_true_iff in Hrange as [Hlo Hhi].
  apply N.leb_le in Hlo. apply N.ltb_lt in Hhi.
  assert (forallb (λ z, forallb (λ i, plain (z + i)) [0; 1; 2; 3; 4; 5; 6; 7; 8; 9])
            UCD.decimal_zeros = true) as Hall by (vm_compute; reflexivity).
  rewrite forallb_forall in Hall. specialize (Hall z Hin).
  rewrite forallb_forall in Hall.
  replace c with (z + (c - z)) by lia. apply Hall. cbn.
  lia.
Qed.

Lemma digits_decimal (p : pystr) :
  Forall (λ c, is_Some (UCD.decimal_value c)) p →
  ∀ after_digit count acc,
    p ≠ [] ∨ after_digit = true →
    Py.digits p after_digit count acc
    = Some ((count + length p)%nat,
            fold_left (λ acc c, 10 * acc + default 0 (UCD.decimal_value c)) p acc).
Proof.
  induction 1 as [|c p Hc _ IH]; intros after_digit count acc Hne.
  - destruct Hne as [? | ->]; [done|]. cbn. by rewrite Nat.add_0_r.
  - cbn [Py.digits length fold_left].
    pose proof (decimal_is_plain c Hc) as Hplain. unfold plain in Hplain.
    rewrite !andb_true_iff, !negb_true_iff in Hplain.
    destruct Hplain as (_ & Hunderscore). rewrite Hunderscore.
    destruct Hc as [d ->]. cbn [default from_option id].
    rewrite IH by by right. do 2 f_equal. lia.
Qed.

Lemma lstrip_plain (c : N) (s : pystr) : plain c = true → Py.lstrip (c :: s) = c :: s.
Proof.
  unfold plain. rewrite !andb_true_iff, !negb_true_iff.
  intros (((Hspace & _) & _) & _). cbn. by rewrite Hspace.
Qed.

(** [int] converts a numeral of decimal digits to its value. *)
Lemma int_decimal (p : pystr) :
  p ≠ [] → decimal_numeral p → Py.int p = Ok (Z.of_N (numeral_value p)).
Proof.
  intros Hne [Hdec Hlen]. unfold Py.int.
  assert (Forall (λ c, plain c = true) p) as Hplain
    by (eapply Forall_impl; [exact Hdec|apply decimal_is_plain]).
  assert (reverse (Py.lstrip (reverse (Py.lstrip p))) = p) as ->.
  { destruct p as [|c p]; [done|].
    rewrite lstrip_plain by by inversion Hplain.
    destruct (reverse (c :: p)) as [|l r] eqn:Hrev.
    - apply (f_equal length) in Hrev. by rewrite length_reverse in Hrev.
    - rewrite lstrip_plain, <- Hrev, reverse_involutive; [done|].
      rewrite Forall_forall in Hplain. apply Hplain.
      apply elem_of_reverse. rewrite Hrev. left. }
  destruct p as [|c p]; [done|].
  assert (plain c = true) as Hc by by inversion Hplain.
  unfold plain in Hc. rewrite !andb_true_iff, !negb_true_iff in Hc.
  destruct Hc as (((_ & -> ) & ->) & _).
  rewrite (digits_decimal (c :: p) Hdec false 0%nat 0) by by left.
  cbn [Nat.add]. by rewrite bool_decide_eq_true_2.
Qed.

Lemma all_decimal_isdigit (p : pystr) : all_decimal p = true → Str.isdigit p = true.
Proof.
  unfold all_decimal, Str.isdigit. destruct p as [|c p]; [done|].
  cbn [negb andb]. rewrite bool_decide_eq_false_2 by done. cbn [negb andb].
  rewrite !forallb_forall. intros Hdec x Hx.
  unfold UCD.is_digit. by rewrite (Hdec x Hx).
Qed.

Lemma decimal_numeral_all_decimal (p : pystr) :
  p ≠ [] → decimal_numeral p → all_decimal p = true.
Proof.
  intros Hne [Hdec _]. unfold all_decimal.
  rewrite bool_decide_eq_false_2 by done. cbn [negb andb].
  apply forallb_forall. intros c Hc. apply bool_decide_eq_true.
  rewrite Forall_forall in Hdec. apply Hdec. by apply list_elem_of_In.
Qed.

Lemma first_digit_token_decimal (parts : list pystr) :
  Forall (λ p, Str.isdigit p = true → decimal_numeral p) parts →
  first_digit_token parts
  = Ok (match List.find all_decimal parts with
        | Some p => Z.of_N (numeral_value p)
        | None => 0%Z
        end).
Proof.
  induction 1 as [|p parts Hp _ IH]; [reflexivity|].
  cbn [first_digit_token List.find].
  destruct (Str.isdigit p) eqn:Hdigit.
  - assert (p ≠ []) as Hne by by destruct p.
    rewrite (decimal_numeral_all_decimal p Hne (Hp eq_refl)).
    by apply int_decimal, Hp.
  - destruct (all_decimal p) eqn:Hdec; [|exact IH].
    apply all_decimal_isdigit in Hdec. congruence.
Qed.

(** Where every token that passes the digit test is a numeral that [int]
    converts, [parse_age_string] computes [parseAge]; its result is then an
    integer that is not negative. *)
Lemma parse_age_string_on_decimal (s : pystr) :
  Forall (λ p, Str.isdigit p = true → decimal_numeral p) (Str.split s) →
  parse_age_string (PStr s) = Ok (parseAge (Some s)) ∧ (0 ≤ parseAge (Some s))%Z.
Proof.
  intros Htokens. split.
  - unfold parse_age_string, parseAge. cbn [Py.truthy]. rewrite negb_involutive.
    destruct (bool_decide (s = [])); [reflexivity|]. cbn [orb].
    destruct (Str.startswith _ _); [reflexivity|].
    by apply first_digit_token_decimal.
  - unfold parseAge. destruct (_ || _); [done|].
    destruct (List.find _ _); lia.
Qed.

Lemma parse_age_absent : parse_age_string PNone = Ok (parseAge None).
Proof. reflexivity. Qed.

(** C2. The digit test accepts the superscript two, the conversion does not:
    on the string made of that character the parser raises [ValueError]. *)
Theorem parse_age_string_raises :
  Str.isdigit [superscript_two] = true
  ∧ Py.int [superscript_two] = Raise ValueError
  ∧ parse_age_string (PStr [superscript_two]) = Raise ValueError.
Proof. vm_compute. auto. Qed.

(** C8. With a token of digits that are not decimal ahead of a decimal one,
    the parser does not come to the decimal token: it raises [ValueError]
    where [parseAge], the first token of decimal digits, has the value 18. *)
Theorem parse_age_string_skips_no_digit_token :
  Str.split (superscript_two :: lit " 18") = [[superscript_two]; lit "18"]
  ∧ parseAge (Some (superscript_two :: lit " 18")) = 18%Z
  ∧ parse_age_string (PStr (superscript_two :: lit " 18")) = Raise ValueError.
Proof. vm_compute. auto. Qed.

(** ** Matching *)

Lemma intersect_loop_overlap (lowered : gset pystr) (trial_conditions : list pyval)
    (acc kept : list pyval) :
  intersect_loop lowered trial_conditions acc = Ok kept →
  ∃ new, kept = acc ++ new
         ∧ Forall (λ c, ∃ l, Py.lower c = Ok l ∧ l ∈ lowered) new.
Proof.
  revert acc. induction trial_conditions as [|c tcs IH]; intros acc H.
  - injection H as <-. exists []. by rewrite app_nil_r.
  - cbn [intersect_loop] in H.
    apply bind_Ok_inv in H as (l & Hl & H).
    apply IH in H as (new & -> & Hnew).
    destruct (bool_decide (l ∈ lowered)) eqn:Hin.
    + apply bool_decide_eq_true in Hin.
      exists (c :: new). split; [by rewrite <- app_assoc|].
      constructor; eauto.
    + eauto.
Qed.

Lemma lower_set_elem (xs : list pyval) (lowered : gset pystr) (l : pystr) :
  lower_set xs = Ok lowered → l ∈ lowered →
  ∃ x, x ∈ xs ∧ Py.lower x = Ok l.
Proof.
  revert lowered. induction xs as [|x xs IH]; intros lowered H Hin.
  - injection H as <-. by apply not_elem_of_empty in Hin.
  - cbn [lower_set] in H.
    apply bind_Ok_inv in H as (l' & Hl' & H).
    apply bind_Ok_inv in H as (rest & Hrest & H).
    injection H as <-.
    apply elem_of_union in Hin as [Hin|Hin].
    + apply elem_of_singleton in Hin as ->. exists x. split; [left|done].
    + destruct (IH rest Hrest Hin) as (y & Hy & Hly).
      exists y. split; [by right|done].
Qed.

(** An entry is appended only with conditions of the trial that overlap
    conditions of the patient, and with at least one. *)
Lemma match_trial_entry (age : Z) (gender : pystr) (patient_conditions : list pyval)
    (st : pyval) (entry : match_entry) :
  match_trial age gender patient_conditions st = Ok (Some entry) →
  eligibilityCriteriaMet entry ≠ []
  ∧ ∀ c, c ∈ eligibilityCriteriaMet entry →
      ∃ pc l, pc ∈ patient_conditions ∧ Py.lower c = Ok l ∧ Py.lower pc = Ok l.
Proof.
  unfold match_trial. intros H.
  apply bind_Ok_inv in H as (elig_mod & _ & H).
  apply bind_Ok_inv in H as (ok & _ & H).
  destruct ok; cbn [negb] in H; [|discriminate].
  apply bind_Ok_inv in H as (cond_mod & _ & H).
  apply bind_Ok_inv in H as (listed & _ & H).
  apply bind_Ok_inv in H as (tcs & _ & H).
  apply bind_Ok_inv in H as (tcl & _ & H).
  apply bind_Ok_inv in H as (pcl & Hpcl & H).
  apply bind_Ok_inv in H as (kept & Hkept & H).
  destruct (bool_decide (kept = [])) eqn:Hempty; [discriminate|].
  apply bool_decide_eq_false in Hempty.
  apply bind_Ok_inv in H as (ident_mod & _ & H).
  apply bind_Ok_inv in H as (nct_id & _ & H).
  apply bind_Ok_inv in H as (brief_title & _ & H).
  injection H as <-. cbn [eligibilityCriteriaMet]. split; [done|].
  apply intersect_loop_overlap in Hkept as (new & -> & Hnew).
  cbn [app]. intros c Hc.
  rewrite Forall_forall in Hnew. destruct (Hnew c Hc) as (l & Hl & Hin).
  destruct (lower_set_elem _ _ _ Hpcl Hin) as (pc & Hpc & Hlpc).
  eauto.
Qed.

Lemma match_loop_entries (age : Z) (gender : pystr) (patient_conditions : list pyval)
    (P : match_entry → Prop) :
  (∀ st entry, match_trial age gender patient_conditions st = Ok (Some entry) → P entry) →
  ∀ trials_data matched matches,
    Forall P matched →
    match_loop age gender patient_conditions trials_data matched = Ok matches →
    Forall P matches.
Proof.
  intros Hentry. induction trials_data as [|st rest IH]; intros matched matches Hacc H.
  - by injection H as <-.
  - cbn [match_loop] in H. apply bind_Ok_inv in H as (entry & Hst & H).
    apply IH in H; [done|].
    destruct entry as [e|]; [|done].
    apply Forall_app. split; [done|]. constructor; [|constructor]. eauto.
Qed.

Lemma match_patient_with_conditions (fuel : nat) (reg : registry) (row : patient_row)
    (statuses : option (list pystr)) (sent : list params)
    (primary : pyval) (others : list pyval) :
  CONDITION_LIST row = Some (PList (primary :: others)) →
  match_patient_to_trials fuel reg row statuses sent
  = match fetch_ctg_studies fuel reg primary (AGE row)
            (default default_statuses statuses) 20 sent with
    | (Some (Ok trials_data), sent') =>
        (Some (match_loop (AGE row) (GENDER row) (primary :: others) trials_data []),
         sent')
    | (Some (Raise e), sent') => (Some (Raise e), sent')
    | (None, sent') => (None, sent')
    end.
Proof. unfold match_patient_to_trials. by intros ->. Qed.

Lemma match_patient_without_conditions (fuel : nat) (reg : registry) (row : patient_row)
    (statuses : option (list pystr)) (sent : list params) :
  (∀ primary others, CONDITION_LIST row ≠ Some (PList (primary :: others))) →
  match_patient_to_trials fuel reg row statuses sent = (Some (Ok []), sent).
Proof.
  unfold match_patient_to_trials. intros Hnone.
  destruct (CONDITION_LIST row) as [[| | | | |[|primary others]|]|]; try reflexivity.
  by destruct (Hnone primary others).
Qed.

(** C9. Every match that [match_patient_to_trials] returns lists at least one
    condition, and the conditions it lists are conditions the patient has,
    up to case: no trial without an overlapping condition is in the result. *)
Theorem matches_list_shared_conditions (fuel : nat) (reg : registry) (row : patient_row)
    (statuses : option (list pystr)) (sent sent' : list params)
    (matches : list match_entry) :
  match_patient_to_trials fuel reg row statuses sent = (Some (Ok matches), sent') →
  Forall (λ entry,
    eligibilityCriteriaMet entry ≠ []
    ∧ ∀ c, c ∈ eligibilityCriteriaMet entry →
        ∃ xs pc l, CONDITION_LIST row = Some (PList xs) ∧ pc ∈ xs
                   ∧ Py.lower c = Ok l ∧ Py.lower pc = Ok l) matches.
Proof.
  intros H.
  destruct (CONDITION_LIST row) as [[| | | | |[|primary others]|]|] eqn:Hcl.
  all: try (rewrite match_patient_without_conditions in H
              by (rewrite Hcl; discriminate);
            injection H as <- _; constructor).
  rewrite (match_patient_with_conditions _ _ _ _ _ primary others Hcl) in H.
  destruct (fetch_ctg_studies _ _ _ _ _ _ _) as [[[trials_data|e]|] sent1];
    [|discriminate..].
  injection H as H _. revert H.
  apply match_loop_entries; [|constructor].
  intros st entry Hst. apply match_trial_entry in Hst as [Hne Hall].
  split; [done|]. intros c Hc. destruct (Hall c Hc) as (pc & l & ? & ? & ?).
  exists (primary :: others), pc, l. done.
Qed.

Lemma matches_list_shared_conditions_witness :
  match_patient_to_trials 1 one_page_registry patient_P1 None []
  = (Some (Ok [match_NCT1]), [first_params (lit "Diabetes") 45 default_statuses 20])
  ∧ Forall (λ entry,
      eligibilityCriteriaMet entry ≠ []
      ∧ ∀ c, c ∈ eligibilityCriteriaMet entry →
          ∃ xs pc l, CONDITION_LIST patient_P1 = Some (PList xs) ∧ pc ∈ xs
                     ∧ Py.lower c = Ok l ∧ Py.lower pc = Ok l) [match_NCT1].
Proof.
  assert (match_patient_to_trials 1 one_page_registry patient_P1 None []
          = (Some (Ok [match_NCT1]),
             [first_params (lit "Diabetes") 45 default_statuses 20])) as Hrun
    by (vm_compute; reflexivity).
  split; [exact Hrun|].
  exact (matches_list_shared_conditions _ _ _ _ _ _ _ Hrun).
Defined.

Lemma study_eligibility (t : TrialRecord) :
  protocol_module (study_json t) (lit "eligibilityModule")
  = Ok (eligibility_json (eligibility t)).
Proof. reflexivity. Qed.

Lemma study_conditions (t : TrialRecord) :
  protocol_module (study_json t) (lit "conditionsModule")
  = Ok (PDict [(lit "conditions", PList (PStr <$> conditions t))]).
Proof. reflexivity. Qed.

Lemma study_identification (t : TrialRecord) :
  protocol_module (study_json t) (lit "identificationModule")
  = Ok (PDict [(lit "nctId", PStr (nctId t)); (lit "briefTitle", PStr (briefTitle t))]).
Proof. reflexivity. Qed.

Lemma iterate_listed (cs : list pystr) :
  Py.iterate (if Py.truthy (PList (PStr <$> cs)) then PList (PStr <$> cs) else PList [])
  = Ok (PStr <$> cs).
Proof. by destruct cs. Qed.

(** *** The structured criteria of the specification *)

Lemma eligibility_fields (r : EligibilityRule) :
  ∃ items,
    eligibility_json r = PDict items
    ∧ minimum_age_text items = from_option PStr (PStr []) (minimumAge r)
    ∧ maximum_age_text items = from_option PStr (PStr []) (maximumAge r)
    ∧ rule_sex items = from_option PStr (PStr (lit "ALL")) (sex r).
Proof.
  destruct r as [[mn|] [mx|] [sx|]]; eexists; (split; [reflexivity|]);
    (split; [reflexivity|split; reflexivity]).
Qed.

Lemma parse_age_plain (text : option pystr) :
  plain_age text →
  parse_age_string (from_option PStr (PStr []) text) = Ok (parseAge text).
Proof.
  destruct text as [s|]; [|reflexivity].
  intros Hplain. by apply parse_age_string_on_decimal.
Qed.

Lemma minimum_test (age m : Z) :
  negb (m =? 0)%Z && (age <? m)%Z = bool_decide (m ≠ 0 ∧ age < m)%Z.
Proof.
  destruct (decide (m ≠ 0 ∧ age < m)%Z) as [H|H].
  - rewrite bool_decide_eq_true_2 by done.
    apply andb_true_iff. rewrite negb_true_iff, Z.eqb_neq, Z.ltb_lt. done.
  - rewrite bool_decide_eq_false_2 by done.
    apply andb_false_iff. rewrite negb_false_iff, Z.eqb_eq, Z.ltb_ge. lia.
Qed.

Lemma maximum_test (age M : Z) :
  negb (M =? 0)%Z && (age >? M)%Z = bool_decide (M ≠ 0 ∧ age > M)%Z.
Proof.
  rewrite Z.gtb_ltb.
  destruct (decide (M ≠ 0 ∧ age > M)%Z) as [H|H].
  - rewrite bool_decide_eq_true_2 by done.
    apply andb_true_iff. rewrite negb_true_iff, Z.eqb_neq, Z.ltb_lt. lia.
  - rewrite bool_decide_eq_false_2 by done.
    apply andb_false_iff. rewrite negb_false_iff, Z.eqb_eq, Z.ltb_ge. lia.
Qed.

Lemma sex_test (rule_sex : option pystr) (gender category : pystr)
    (accepted : list pystr) :
  category ≠ lit "ALL" →
  Py.eq_str (from_option PStr (PStr (lit "ALL")) rule_sex) category
  && negb (bool_decide (Str.upper gender ∈ accepted))
  = bool_decide (rule_sex = Some category ∧ sex_excluded gender accepted).
Proof.
  intros Hall. unfold sex_excluded.
  destruct rule_sex as [s|]; cbn [from_option Py.eq_str].
  - destruct (decide (s = category)) as [->|Hs].
    + rewrite (bool_decide_eq_true_2 (category = category)) by done. cbn [andb].
      destruct (decide (Str.upper gender ∈ accepted)) as [Hin|Hout].
      * rewrite (bool_decide_eq_true_2 _ Hin). cbn [negb].
        symmetry. apply bool_decide_eq_false_2. by intros [_ ?].
      * rewrite (bool_decide_eq_false_2 _ Hout). cbn [negb].
        symmetry. by apply bool_decide_eq_true_2.
    + rewrite (bool_decide_eq_false_2 _ Hs). cbn [andb].
      symmetry. apply bool_decide_eq_false_2. intros [[= ?] _]. done.
  - rewrite (bool_decide_eq_false_2 (lit "ALL" = category))
      by (intros H; apply Hall; symmetry; exact H).
    cbn [andb]. symmetry. apply bool_decide_eq_false_2. by intros [? _].
Qed.

(** A check that computes whether an age text is plain. *)
Lemma plain_age_checked (s : pystr) :
  forallb (λ p, negb (Str.isdigit p)
                || (forallb UCD.is_decimal p
                    && bool_decide (length p ≤ Py.int_max_str_digits)%nat))
    (Str.split s) = true →
  plain_age (Some s).
Proof.
  intros Hcheck. apply Forall_forall. intros p Hp Hdigit.
  rewrite forallb_forall in Hcheck. apply list_elem_of_In in Hp.
  specialize (Hcheck p Hp). rewrite Hdigit in Hcheck. cbn [negb orb] in Hcheck.
  apply andb_true_iff in Hcheck as [Hdecimal Hlength]. split.
  - apply Forall_forall. intros c Hc. rewrite forallb_forall in Hdecimal.
    apply list_elem_of_In in Hc. specialize (Hdecimal c Hc).
    unfold UCD.is_decimal in Hdecimal. by apply bool_decide_eq_true in Hdecimal.
  - by apply bool_decide_eq_true in Hlength.
Qed.

(** On a rule whose age texts are plain the code computes the criteria of
    the specification. *)
Lemma meets_structured_criteria_plain (age : Z) (gender : pystr) (r : EligibilityRule) :
  plain_age (minimumAge r) → plain_age (maximumAge r) →
  meets_structured_criteria age gender (eligibility_json r)
  = Ok (meetsStructuredCriteria age gender r).
Proof.
  intros Hmin Hmax. destruct (eligibility_fields r) as (items & -> & Hmn & Hmx & Hsx).
  unfold meets_structured_criteria. cbn [Py.get]. rewrite !bind_Ok.
  fold (minimum_age_text items) (maximum_age_text items) (rule_sex items).
  rewrite Hmn, Hmx, Hsx, (parse_age_plain _ Hmin), (parse_age_plain _ Hmax), !bind_Ok.
  rewrite minimum_test, maximum_test, !sex_test by (vm_compute; discriminate).
  unfold meetsStructuredCriteria. cbv zeta.
  by repeat destruct (bool_decide _).
Qed.

(** On a study published as the specification describes it, one iteration of
    the loop does what steps 4 of [matchPatient] says. *)
Lemma match_trial_study (age : Z) (gender : pystr) (patient_conditions : list pystr)
    (t : TrialRecord) (verdict : bool) :
  meets_structured_criteria age gender (eligibility_json (eligibility t)) = Ok verdict →
  match_trial age gender (PStr <$> patient_conditions) (study_json t)
  = Ok (let matchedConditions := intersectConditions patient_conditions (conditions t) in
        if verdict && negb (bool_decide (matchedConditions = []))
        then Some {| trialId := PStr (nctId t); trialName := PStr (briefTitle t);
                     eligibilityCriteriaMet := PStr <$> matchedConditions |}
        else None).
Proof.
  intros Hmeets. unfold match_trial.
  rewrite study_eligibility, bind_Ok, Hmeets, bind_Ok.
  destruct verdict; cbn [negb andb]; [|reflexivity].
  rewrite study_conditions, bind_Ok.
  change (Py.get (PDict [(lit "conditions", PList (PStr <$> conditions t))])
            (lit "conditions") (PList []))
    with (Ok (PList (PStr <$> conditions t))).
  rewrite bind_Ok, iterate_listed, bind_Ok.
  rewrite !lower_set_strings, !bind_Ok, intersect_loop_strings, bind_Ok.
  cbn [app]. fold (intersectConditions patient_conditions (conditions t)).
  destruct (intersectConditions patient_conditions (conditions t)) as [|c kept] eqn:Hkept;
    [reflexivity|].
  rewrite bool_decide_eq_false_2 by discriminate.
  rewrite study_identification, bind_Ok. reflexivity.
Qed.

Lemma match_loop_studies (age : Z) (gender : pystr) (patient_conditions : list pystr)
    (trials : list TrialRecord) (matched : list match_entry) :
  Forall plain_ages trials →
  match_loop age gender (PStr <$> patient_conditions) (study_json <$> trials) matched
  = Ok (matched ++ matchPatient age gender patient_conditions trials).
Proof.
  intros Hall. revert matched.
  induction Hall as [|t trials [Hmin Hmax] _ IH]; intros matched.
  - cbn. by rewrite app_nil_r.
  - cbn [fmap list_fmap match_loop].
    rewrite (match_trial_study _ _ _ _ _ (meets_structured_criteria_plain _ _ _ Hmin Hmax)),
      bind_Ok, IH.
    unfold matchPatient at 2. cbn [omap list_omap]. fold (matchPatient age gender).
    cbv zeta. destruct (meetsStructuredCriteria _ _ _ && _); [|reflexivity].
    by rewrite <- app_assoc.
Qed.

(** C1. The registry returns, on one page, a trial whose minimum age is the
    text made of the superscript two, and trial NCT1.  [matchPatient] reads
    no bound off that text and gives patient P1 a match with each of the two
    trials; the code raises [ValueError] on the first and returns no match
    at all.  The fetch itself succeeds. *)
Theorem match_patient_raises_on_digit_age :
  fetch_ctg_studies 1 superscript_registry (PStr (lit "Diabetes")) 45 default_statuses 20 []
  = (Some (Ok (study_json <$> [trial_superscript; trial_NCT1])),
     [first_params (lit "Diabetes") 45 default_statuses 20])
  ∧ matchPatient 45 (lit "F") [lit "Diabetes"] [trial_superscript; trial_NCT1]
    = [{| trialId := PStr (lit "NCT3"); trialName := PStr (lit "T3");
          eligibilityCriteriaMet := [PStr (lit "Diabetes")] |};
       match_NCT1]
  ∧ match_patient_to_trials 1 superscript_registry patient_P1 None []
    = (Some (Raise ValueError), [first_params (lit "Diabetes") 45 default_statuses 20]).
Proof. vm_compute. auto. Qed.

(** X19. Where the age texts of the fetched trials are plain, the code keeps
    the contract of [matchPatient]: a patient whose condition list is empty gets
    the empty list, and no request goes out; for a patient with conditions,
    once the studies are fetched for the first condition, the result is, in
    the order of the response, one match for each trial that passes the
    structured criteria of the specification and overlaps the patient's
    whole condition list, with the trial's id, its title and the overlap. *)
Theorem match_patient_on_plain_ages (fuel : nat) (reg : registry) (row : patient_row)
    (statuses : option (list pystr)) (sent : list params) :
  (CONDITION_LIST row = Some (PList []) →
   match_patient_to_trials fuel reg row statuses sent = (Some (Ok []), sent))
  ∧ (∀ primary others trials sent',
       CONDITION_LIST row = Some (PList (PStr <$> primary :: others)) →
       fetch_ctg_studies fuel reg (PStr primary) (AGE row)
         (default default_statuses statuses) 20 sent
       = (Some (Ok (study_json <$> trials)), sent') →
       Forall plain_ages trials →
       match_patient_to_trials fuel reg row statuses sent
       = (Some (Ok (matchPatient (AGE row) (GENDER row) (primary :: others) trials)),
          sent')).
Proof.
  split.
  - intros Hcl. apply match_patient_without_conditions. rewrite Hcl. discriminate.
  - intros primary others trials sent' Hcl Hfetch Hall.
    rewrite fmap_cons in Hcl.
    rewrite (match_patient_with_conditions _ _ _ _ _ _ _ Hcl), Hfetch.
    rewrite <- fmap_cons, match_loop_studies by done. reflexivity.
Qed.

Lemma match_patient_on_plain_ages_witness :
  Forall plain_ages [trial_NCT1; trial_NCT2]
  ∧ match_patient_to_trials 2 two_page_registry patient_P1_lowercase None []
    = (Some (Ok (matchPatient 45 (lit "f") [lit "Diabetes"] [trial_NCT1; trial_NCT2])),
       [first_params (lit "Diabetes") 45 default_statuses 20;
        page_request (first_params (lit "Diabetes") 45 default_statuses 20)
          (PStr (lit "T2"))])
  ∧ matchPatient 45 (lit "f") [lit "Diabetes"] [trial_NCT1; trial_NCT2]
    = [match_NCT1;
       {| trialId := PStr (lit "NCT2"); trialName := PStr (lit "T2");
          eligibilityCriteriaMet := [PStr (lit "diabetes")] |}].
Proof.
  assert (Forall plain_ages [trial_NCT1; trial_NCT2]) as Hplain.
  { constructor; [|constructor; [|constructor]].
    - split; apply plain_age_checked; vm_compute; reflexivity.
    - split; exact I. }
  split; [exact Hplain|]. split; [|vm_compute; reflexivity].
  apply (match_patient_on_plain_ages 2 two_page_registry patient_P1_lowercase None []).
  - reflexivity.
  - vm_compute. reflexivity.
  - exact Hplain.
Defined.

(** ** Pagination *)

Lemma quote_for_essie_string (condition : pystr) :
  quote_for_essie (PStr condition) = Ok (quoted condition).
Proof. unfold quoted. cbn. by destruct (existsb essie_special condition). Qed.

Lemma format_age_essie_formattable (age : Z) :
  formattable age → format_age_essie age = Ok (Str.of_int age ++ lit " Years").
Proof.
  unfold formattable, format_age_essie, Py.str_int, Py.int_writable. intros H.
  by rewrite bool_decide_eq_true_2.
Qed.

Lemma format_age_essie_unformattable (age : Z) :
  ¬ formattable age → format_age_essie age = Raise ValueError.
Proof.
  unfold formattable, format_age_essie, Py.str_int, Py.int_writable. intros H.
  by rewrite bool_decide_eq_false_2.
Qed.


Lemma fetch_ctg_studies_unformattable (fuel : nat) (reg : registry) (condition : pyval)
    (age : Z) (status_list : list pystr) (page_size : Z) (sent : list params) :
  ¬ formattable age →
  fetch_ctg_studies fuel reg condition age status_list page_size sent
  = (Some (Raise ValueError), sent).
Proof.
  intros Hage. unfold fetch_ctg_studies.
  by rewrite (format_age_essie_unformattable _ Hage).
Qed.



Lemma same_query_refl (p : params) : same_query p p.
Proof. by repeat split. Qed.

Lemma same_query_next (p q : params) (token : pyval) :
  same_query p q → same_query p (next_request q token).
Proof. unfold next_request. by destruct (Py.truthy token). Qed.







(** ** Failed requests *)

Lemma singleton_split {A} (x request : A) (earlier later : list A) :
  [x] = earlier ++ request :: later → earlier = [] ∧ request = x ∧ later = [].
Proof.
  destruct earlier as [|y earlier]; cbn.
  - by intros [= -> <-].
  - intros [= _ H]. by destruct earlier.
Qed.

Lemma fetch_loop_failed_replies (reg : registry) (fuel : nat) :
  ∀ p studies token sent outcome sent',
    fetch_loop fuel reg p studies token sent = (outcome, sent') →
    failed_replies_raise reg sent outcome sent'.
Proof.
  induction fuel as [|fuel IH]; intros p studies token sent outcome sent' Hrun.
  - injection Hrun as <- <-. exists []. split; [by rewrite app_nil_r|].
    intros earlier request later ? ? Hsplit. by destruct earlier.
  - cbn [fetch_loop] in Hrun. cbv zeta in Hrun.
    set (p' := next_request p token) in *.
    assert (∀ o, (∀ status_code json, reg sent p' = Reply status_code json →
                   (is_error_status status_code = true → o = Some (Raise HTTPError))
                   ∧ (is_error_status status_code = false → json = None →
                      o = Some (Raise JSONDecodeError))) →
                 failed_replies_raise reg sent o (sent ++ [p'])) as Hlast.
    { intros o Ho. exists [p']. split; [done|].
      intros earlier request later status_code json Hsplit Hreply.
      apply singleton_split in Hsplit as (-> & -> & ->).
      rewrite app_nil_r in Hreply. by apply Ho. }
    destruct (Requests.prepare p') as [[]|e].
    2: { injection Hrun as <- <-. exists []. split; [by rewrite app_nil_r|].
         intros earlier request later ? ? Hsplit. by destruct earlier. }
    destruct (reg sent p') as [name|status_code json] eqn:Hreply.
    { injection Hrun as <- <-. apply Hlast. discriminate. }
    destruct (is_error_status status_code) eqn:Hstatus.
    { injection Hrun as <- <-. apply Hlast. intros ? ? [= <- <-].
      split; [done|]. by rewrite Hstatus. }
    destruct json as [data|].
    2: { injection Hrun as <- <-. apply Hlast. intros ? ? [= <- <-].
         split; [by rewrite Hstatus|done]. }
    destruct (read_page data) as [[chunk next_token]|e].
    2: { injection Hrun as <- <-. apply Hlast. intros ? ? [= <- <-].
         split; [by rewrite Hstatus|discriminate]. }
    destruct (Py.truthy next_token).
    2: { injection Hrun as <- <-. apply Hlast. intros ? ? [= <- <-].
         split; [by rewrite Hstatus|discriminate]. }
    apply IH in Hrun as (issued & -> & Hissued).
    exists (p' :: issued). split; [by rewrite <- app_assoc|].
    intros earlier request later sc js Hsplit Hanswer.
    destruct earlier as [|first earlier]; cbn in Hsplit; injection Hsplit as <- Hsplit.
    + rewrite app_nil_r, Hreply in Hanswer. injection Hanswer as <- <-.
      split; [by rewrite Hstatus|discriminate].
    + apply (Hissued earlier request later sc js Hsplit).
      by rewrite <- app_assoc.
Qed.

(** C4, amended. When the registry answers any request of a fetch with an
    error status, that is a code from 400 to 599, the fetch raises
    [HTTPError], and when it answers one with a body that is not JSON, under
    a status that is no error, the fetch raises [JSONDecodeError]; either way
    the caller gets the exception and none of the studies read before. *)
Theorem fetch_fails_on_failed_reply (fuel : nat) (reg : registry) (condition : pyval)
    (age : Z) (status_list : list pystr) (page_size : Z) (sent sent' : list params)
    (outcome : option (result (list pyval))) :
  fetch_ctg_studies fuel reg condition age status_list page_size sent = (outcome, sent') →
  failed_replies_raise reg sent outcome sent'.
Proof.
  unfold fetch_ctg_studies.
  destruct (format_age_essie age) as [age_str|e];
    [destruct (quote_for_essie condition) as [safe_condition|e]|].
  - apply fetch_loop_failed_replies.
  - intros [= <- <-]. exists []. split; [by rewrite app_nil_r|].
    intros earlier request later ? ? Hsplit. by destruct earlier.
  - intros [= <- <-]. exists []. split; [by rewrite app_nil_r|].
    intros earlier request later ? ? Hsplit. by destruct earlier.
Qed.

Lemma fetch_fails_on_failed_reply_witness :
  fetch_ctg_studies 5 failing_registry (PStr (lit "Diabetes")) 45 default_statuses 20 []
  = (Some (Raise HTTPError),
     [first_params (lit "Diabetes") 45 default_statuses 20;
      with_pageToken (first_params (lit "Diabetes") 45 default_statuses 20)
        (PStr (lit "T2"))])
  ∧ failed_replies_raise failing_registry [] (Some (Raise HTTPError))
      [first_params (lit "Diabetes") 45 default_statuses 20;
       with_pageToken (first_params (lit "Diabetes") 45 default_statuses 20)
         (PStr (lit "T2"))].
Proof.
  assert (fetch_ctg_studies 5 failing_registry (PStr (lit "Diabetes")) 45
            default_statuses 20 []
          = (Some (Raise HTTPError),
             [first_params (lit "Diabetes") 45 default_statuses 20;
              with_pageToken (first_params (lit "Diabetes") 45 default_statuses 20)
                (PStr (lit "T2"))])) as Hrun by (vm_compute; reflexivity).
  split; [exact Hrun|].
  exact (fetch_fails_on_failed_reply _ _ _ _ _ _ _ _ _ Hrun).
Defined.

(** C4 as stated fails on a status that is neither a success nor an error:
    [raise_for_status] lets 300 pass, and the body is read as a page. *)
Lemma fetch_accepts_status_300 :
  is_success_status 300 = false
  ∧ multiple_choices_registry [] (first_params (lit "Diabetes") 45 default_statuses 20)
    = Reply 300 (Some second_page)
  ∧ fetch_ctg_studies 1 multiple_choices_registry (PStr (lit "Diabetes")) 45
      default_statuses 20 []
    = (Some (Ok [study_json trial_NCT2]),
       [first_params (lit "Diabetes") 45 default_statuses 20]).
Proof. vm_compute. auto. Qed.

(** * Further properties of the code *)

(** ** Formatting and parsing ages *)

Lemma lit_String (a : Ascii.ascii) (s : string) :
  lit (String a s) = Ascii.N_of_ascii a :: lit s.
Proof. reflexivity. Qed.

Lemma numeral_value_fold (p : pystr) : numeral_value p = fold_left digit_step p 0.
Proof. reflexivity. Qed.

Lemma fold_digits_acc (u : Decimal.uint) (acc : positive) :
  fold_left digit_step (lit (NilEmpty.string_of_uint u)) (Npos acc)
  = Npos (Pos.of_uint_acc u acc).
Proof.
  revert acc.
  induction u as [|u IH|u IH|u IH|u IH|u IH|u IH|u IH|u IH|u IH|u IH]; intros acc;
    [reflexivity|..];
    cbn [NilEmpty.string_of_uint Pos.of_uint_acc]; rewrite lit_String;
    cbn [fold_left]; rewrite <- IH; f_equal;
    unfold digit_step;
    match goal with
    | |- context [UCD.decimal_value ?c] =>
        let v := eval vm_compute in (UCD.decimal_value c) in
        change (UCD.decimal_value c) with v
    end; cbn [default from_option id]; lia.
Qed.

Lemma fold_digits (u : Decimal.uint) :
  fold_left digit_step (lit (NilEmpty.string_of_uint u)) 0 = Pos.of_uint u.
Proof.
  induction u as [|u IH|u IH|u IH|u IH|u IH|u IH|u IH|u IH|u IH|u IH];
    [reflexivity|exact IH|..];
    cbn [NilEmpty.string_of_uint Pos.of_uint]; rewrite lit_String;
    cbn [fold_left]; rewrite <- fold_digits_acc; f_equal.
Qed.

Lemma string_of_uint_digits (u : Decimal.uint) :
  Forall (λ c, ascii_digit c = true) (lit (NilEmpty.string_of_uint u)).
Proof.
  induction u; cbn [NilEmpty.string_of_uint]; [constructor|..];
    rewrite lit_String; by constructor.
Qed.

Lemma ascii_digit_cases (c : N) :
  ascii_digit c = true →
  c = 0x30 ∨ c = 0x31 ∨ c = 0x32 ∨ c = 0x33 ∨ c = 0x34
  ∨ c = 0x35 ∨ c = 0x36 ∨ c = 0x37 ∨ c = 0x38 ∨ c = 0x39.
Proof. unfold ascii_digit. rewrite andb_true_iff, N.leb_le, N.leb_le. lia. Qed.

Ltac by_digit H :=
  apply ascii_digit_cases in H;
  repeat (destruct H as [H|H]); subst; vm_compute; repeat split; eauto.

Lemma ascii_digit_facts (c : N) :
  ascii_digit c = true →
  is_Some (UCD.decimal_value c)
  ∧ UCD.is_digit c = true
  ∧ UCD.is_whitespace c = false
  ∧ (c =? 0x3A3) = false
  ∧ UCD.to_lower c = [c]
  ∧ (c =? 0x6E) = false.
Proof. intros H. by_digit H. Qed.

Lemma split_cons (c : N) (s : pystr) :
  Str.split (c :: s)
  = if UCD.is_whitespace c then Str.split s
    else match s with
         | [] => [[c]]
         | d :: _ =>
             if UCD.is_whitespace d then [c] :: Str.split s
             else match Str.split s with
                  | w :: ws => (c :: w) :: ws
                  | [] => [[c]]
                  end
         end.
Proof. reflexivity. Qed.

Lemma split_token (w rest : pystr) (sp : N) :
  w ≠ [] → Forall (λ c, UCD.is_whitespace c = false) w → UCD.is_whitespace sp = true →
  Str.split (w ++ sp :: rest) = w :: Str.split rest.
Proof.
  intros Hne Hw Hsp. induction Hw as [|c w Hc Hw IH]; [done|].
  rewrite <- app_comm_cons, split_cons, Hc.
  destruct w as [|c' w].
  - cbn [app]. by rewrite Hsp, (split_cons sp), Hsp.
  - rewrite IH by done. inversion Hw as [|? ? Hc' _]; subst.
    rewrite <- app_comm_cons. by rewrite Hc'.
Qed.

Lemma lower_starts_with_digit (c : N) (rest : pystr) :
  ascii_digit c = true → Str.startswith (Str.lower (c :: rest)) (lit "n/a") = false.
Proof.
  intros H. destruct (ascii_digit_facts c H) as (_ & _ & _ & Hsigma & Hlower & Hn).
  unfold Str.lower. cbn [Str.lower_from]. rewrite Hsigma, Hlower.
  change (lit "n/a") with [0x6E; 0x2F; 0x61]. cbn [app Str.startswith].
  by rewrite Hn.
Qed.

(** The numeral that [str] writes for a positive integer, read back. *)
Lemma numeral_of_positive (p : positive) :
  let digits := lit (NilEmpty.string_of_uint (Pos.to_uint p)) in
  Str.of_int (Zpos p) = digits
  ∧ digits ≠ []
  ∧ Forall (λ c, ascii_digit c = true) digits
  ∧ numeral_value digits = Npos p.
Proof.
  cbv zeta. split; [|split; [|split]].
  - unfold Str.of_int. cbn [Z.to_int NilZero.string_of_int NilZero.string_of_uint].
    pose proof (DecimalPos.Unsigned.to_uint_nonnil p) as Hnil.
    by destruct (Pos.to_uint p).
  - pose proof (DecimalPos.Unsigned.to_uint_nonnil p) as Hnil.
    by destruct (Pos.to_uint p).
  - apply string_of_uint_digits.
  - rewrite numeral_value_fold, fold_digits. apply DecimalPos.Unsigned.of_to.
Qed.

Lemma of_int_negative (p : positive) :
  Str.of_int (Zneg p) = 0x2D :: Str.of_int (Zpos p).
Proof.
  unfold Str.of_int. cbn [Z.to_int NilZero.string_of_int]. by rewrite lit_String.
Qed.

Lemma formattable_by_length (age : Z) :
  (length (Str.of_int age) ≤ Py.int_max_str_digits)%nat → formattable age.
Proof.
  unfold formattable. destruct age as [|p|p]; [done..|].
  rewrite of_int_negative. change (Z.abs (Z.neg p)) with (Z.pos p). cbn [length]. lia.
Qed.

(** X1. Formatting an age that is not negative and parsing the text back
    gives the age again, as long as the numeral stays within what [int]
    converts; a negative age, whose text begins with a minus sign, parses
    to 0. *)
Theorem parse_formatted_age (age : Z) :
  (length (Str.of_int age) ≤ Py.int_max_str_digits)%nat →
  ∃ text,
    format_age_essie age = Ok text
    ∧ parse_age_string (PStr text) = Ok (Z.max 0 age).
Proof.
  intros Hlen. exists (Str.of_int age ++ lit " Years").
  split; [by apply format_age_essie_formattable, formattable_by_length|].
  destruct age as [|p|p].
  - vm_compute. reflexivity.
  - destruct (numeral_of_positive p) as (Hof & Hne & Hdigits & Hvalue).
    cbv zeta in *. rewrite Hof in *.
    set (digits := lit (NilEmpty.string_of_uint (Pos.to_uint p))) in *.
    destruct digits as [|c digits'] eqn:Hd; [done|]. rewrite <- Hd in *.
    unfold parse_age_string.
    assert (Py.truthy (PStr (digits ++ lit " Years")) = true) as ->
      by (rewrite Hd; reflexivity).
    assert (ascii_digit c = true) as Hc
      by (rewrite Hd in Hdigits; by inversion Hdigits).
    cbn [negb]. rewrite Hd at 1. cbn [app].
    rewrite (lower_starts_with_digit c _ Hc).
    change (lit " Years") with (0x20 :: lit "Years").
    rewrite split_token; [|done| |reflexivity].
    2: { eapply Forall_impl; [exact Hdigits|]. intros x Hx.
         by destruct (ascii_digit_facts x Hx) as (_ & _ & ? & _). }
    cbn [first_digit_token].
    assert (Str.isdigit digits = true) as ->.
    { rewrite Hd. cbn [Str.isdigit]. rewrite <- Hd. apply forallb_forall.
      intros x Hx. rewrite Forall_forall in Hdigits.
      apply list_elem_of_In in Hx.
      by destruct (ascii_digit_facts x (Hdigits x Hx)) as (_ & ? & _). }
    rewrite int_decimal, Hvalue; [reflexivity|done|]. split; [|done].
    eapply Forall_impl; [exact Hdigits|]. intros x Hx.
    by destruct (ascii_digit_facts x Hx) as (? & _).
  - unfold Str.of_int. cbn [Z.to_int NilZero.string_of_int]. rewrite lit_String.
    change (Ascii.N_of_ascii (Ascii.ascii_of_N 0x2D)) with 0x2D.
    pose proof (DecimalPos.Unsigned.to_uint_nonnil p) as Hnil.
    assert (NilZero.string_of_uint (Pos.to_uint p)
            = NilEmpty.string_of_uint (Pos.to_uint p)) as ->
      by by destruct (Pos.to_uint p).
    set (digits := lit (NilEmpty.string_of_uint (Pos.to_uint p))).
    assert (Forall (λ c, UCD.is_whitespace c = false) (0x2D :: digits)) as Hws.
    { constructor; [reflexivity|].
      eapply Forall_impl; [apply string_of_uint_digits|]. intros x Hx.
      by destruct (ascii_digit_facts x Hx) as (_ & _ & ? & _). }
    unfold parse_age_string. cbn [Py.truthy app]. rewrite bool_decide_eq_false_2 by done.
    cbn [negb]. unfold Str.lower. cbn [Str.lower_from].
    change (UCD.to_lower 0x2D) with [0x2D]. change (0x2D =? 0x3A3) with false.
    change (lit "n/a") with [0x6E; 0x2F; 0x61]. cbn [app Str.startswith].
    change (0x2D =? 0x6E) with false. cbn [andb].
    change (lit " Years") with (0x20 :: lit "Years").
    rewrite (app_comm_cons digits), split_token; [|done|done|reflexivity].
    reflexivity.
Qed.

Lemma parse_formatted_age_witness :
  format_age_essie 45 = Ok (lit "45 Years")
  ∧ parse_age_string (PStr (lit "45 Years")) = Ok 45%Z.
Proof.
  destruct (parse_formatted_age 45) as (text & Hformat & Hparse); [vm_compute; lia|].
  assert (text = lit "45 Years") as -> by (vm_compute in Hformat; by injection Hformat).
  split; [reflexivity|exact Hparse].
Defined.

(** ** Outcomes of the age parser *)

Lemma in_ranges_forall (P : N → bool) (tbl : list (N * N)) :
  forallb (λ r, forallb P (range_members r)) tbl = true →
  ∀ c, UCD.in_ranges tbl c = true → P c = true.
Proof.
  intros Hall c Hc. unfold UCD.in_ranges in Hc.
  apply existsb_exists in Hc as ([lo hi] & Hin & Hrange).
  cbn [fst snd] in Hrange. apply andb_true_iff in Hrange as [Hlo Hhi].
  apply N.leb_le in Hlo. apply N.leb_le in Hhi.
  rewrite forallb_forall in Hall. specialize (Hall _ Hin).
  rewrite forallb_forall in Hall. apply Hall.
  unfold range_members. cbn [fst snd].
  rewrite <- (N2Nat.id c). apply in_map, in_seq. lia.
Qed.

Lemma digit_is_plain (c : N) : UCD.is_digit c = true → plain c = true.
Proof.
  unfold UCD.is_digit, UCD.is_decimal. intros H.
  apply orb_true_iff in H as [H|H].
  - apply decimal_is_plain. by apply bool_decide_eq_true in H.
  - revert c H. apply in_ranges_forall. vm_compute. reflexivity.
Qed.

Lemma strip_plain (p : pystr) :
  Forall (λ c, plain c = true) p → reverse (Py.lstrip (reverse (Py.lstrip p))) = p.
Proof.
  intros Hplain. destruct p as [|c p]; [done|].
  rewrite lstrip_plain by by inversion Hplain.
  destruct (reverse (c :: p)) as [|l r] eqn:Hrev.
  - apply (f_equal length) in Hrev. by rewrite length_reverse in Hrev.
  - rewrite lstrip_plain, <- Hrev, reverse_involutive; [done|].
    rewrite Forall_forall in Hplain. apply Hplain.
    apply elem_of_reverse. rewrite Hrev. left.
Qed.

(** On a token that passes the digit test [int] gives a number that is not
    negative or raises [ValueError]. *)
Lemma int_digit_token (p : pystr) :
  Str.isdigit p = true →
  (∃ n, Py.int p = Ok (Z.of_N n)) ∨ Py.int p = Raise ValueError.
Proof.
  intros Hdigit.
  assert (Forall (λ c, plain c = true) p) as Hplain.
  { destruct p as [|c p]; [done|]. cbn [Str.isdigit] in Hdigit.
    rewrite forallb_forall in Hdigit. apply Forall_forall. intros x Hx.
    apply digit_is_plain, Hdigit. by apply list_elem_of_In. }
  unfold Py.int. rewrite (strip_plain p Hplain).
  destruct p as [|c p]; [done|].
  assert (plain c = true) as Hc by by inversion Hplain.
  unfold plain in Hc. rewrite !andb_true_iff, !negb_true_iff in Hc.
  destruct Hc as (((_ & -> ) & ->) & _).
  destruct (Py.digits _ _ _ _) as [[count n]|]; [|by right].
  destruct (bool_decide _); [left; by exists n|by right].
Qed.

Lemma first_digit_token_outcomes (parts : list pystr) :
  (∃ n, first_digit_token parts = Ok n ∧ (0 ≤ n)%Z)
  ∨ (first_digit_token parts = Raise ValueError
     ∧ Exists (λ p, Str.isdigit p = true ∧ ¬ decimal_numeral p) parts).
Proof.
  induction parts as [|p parts IH]; [left; by exists 0%Z|].
  cbn [first_digit_token]. destruct (Str.isdigit p) eqn:Hdigit.
  - destruct (int_digit_token p Hdigit) as [[n Hn]|Hraise].
    + left. exists (Z.of_N n). split; [done|lia].
    + right. split; [done|]. left. split; [done|]. intros Hnumeral.
      rewrite int_decimal in Hraise; [done| |done]. by destruct p.
  - destruct IH as [IH|[IH Hex]]; [by left|right]. split; [done|by right].
Qed.

(** X2. Whatever value it is given, [parse_age_string] returns an integer
    that is not negative, or raises [ValueError], which it does only on a
    string with a token that passes the digit test without being a numeral
    [int] converts, or raises [AttributeError], which it does only on a value
    that counts as true and is not a string. *)
Theorem parse_age_string_outcomes (age_str : pyval) :
  (∃ n, parse_age_string age_str = Ok n ∧ (0 ≤ n)%Z)
  ∨ (parse_age_string age_str = Raise ValueError
     ∧ ∃ s, age_str = PStr s
            ∧ Exists (λ p, Str.isdigit p = true ∧ ¬ decimal_numeral p) (Str.split s))
  ∨ (parse_age_string age_str = Raise AttributeError
     ∧ Py.truthy age_str = true ∧ ∀ s, age_str ≠ PStr s).
Proof.
  unfold parse_age_string. destruct (Py.truthy age_str) eqn:Htrue; cbn [negb].
  2: { left. by exists 0%Z. }
  destruct age_str as [| | | |s| |]; try (right; right; by repeat split).
  destruct (Str.startswith _ _); [left; by exists 0%Z|].
  destruct (first_digit_token_outcomes (Str.split s)) as [Hok|[Hraise Hex]];
    [by left|right; left]. split; [done|]. by exists s.
Qed.

(** ** Structured criteria as a function of the patient *)

Lemma meets_by_bounds (patient_age : Z) (patient_gender : pystr) (eligibility : pyval) :
  meets_structured_criteria patient_age patient_gender eligibility
  = (bounds ← rule_bounds eligibility;
     Ok (criteria_verdict patient_age (Str.upper patient_gender) bounds)).
Proof.
  unfold meets_structured_criteria, rule_bounds.
  destruct (Py.get eligibility (lit "minimumAge") _) as [min_age_str|]; [|done].
  destruct (Py.get eligibility (lit "maximumAge") _) as [max_age_str|]; [|done].
  destruct (Py.get eligibility (lit "sex") _) as [sex_str|]; [|done].
  rewrite !bind_Ok.
  destruct (parse_age_string min_age_str) as [min_age|]; [|done].
  destruct (parse_age_string max_age_str) as [max_age|]; [|done].
  rewrite !bind_Ok. unfold criteria_verdict.
  repeat (match goal with |- context [if ?b then _ else _] => destruct b end;
          try reflexivity).
Qed.

(** X3. The ages a trial accepts form an interval: a patient whose age lies
    between the ages of two patients of the same sex who both pass the
    structured criteria passes them too. *)
Theorem accepted_ages_form_interval (younger age older : Z) (patient_gender : pystr)
    (eligibility : pyval) :
  (younger ≤ age ≤ older)%Z →
  meets_structured_criteria younger patient_gender eligibility = Ok true →
  meets_structured_criteria older patient_gender eligibility = Ok true →
  meets_structured_criteria age patient_gender eligibility = Ok true.
Proof.
  intros Hbetween. rewrite !meets_by_bounds.
  destruct (rule_bounds eligibility) as [[[sex_str min_age] max_age]|]; [|done].
  rewrite !bind_Ok. unfold criteria_verdict. intros Hyounger Holder.
  destruct (Py.eq_str sex_str (lit "FEMALE") && _);
    [by repeat (destruct (_ && _) in Hyounger)|].
  destruct (Py.eq_str sex_str (lit "MALE") && _);
    [by repeat (destruct (_ && _) in Hyounger)|].
  destruct (min_age =? 0)%Z; cbn [negb andb] in *;
    destruct (max_age =? 0)%Z; cbn [negb andb] in *;
    repeat match goal with
           | H : context [(?a <? ?b)%Z] |- _ => destruct (Z.ltb_spec a b); try done
           | H : context [(?a >? ?b)%Z] |- _ =>
               pose proof (Zgt_cases a b); destruct (a >? b)%Z; try done
           end;
    repeat match goal with
           | |- context [(?a <? ?b)%Z] => destruct (Z.ltb_spec a b); try lia
           | |- context [(?a >? ?b)%Z] =>
               pose proof (Zgt_cases a b); destruct (a >? b)%Z; try lia
           end; done.
Qed.

Lemma accepted_ages_form_interval_witness :
  meets_structured_criteria 18 (lit "F") (PDict sample_rule) = Ok true
  ∧ meets_structured_criteria 65 (lit "F") (PDict sample_rule) = Ok true
  ∧ meets_structured_criteria 30 (lit "F") (PDict sample_rule) = Ok true.
Proof.
  assert (meets_structured_criteria 18 (lit "F") (PDict sample_rule) = Ok true) as H18
    by (vm_compute; reflexivity).
  assert (meets_structured_criteria 65 (lit "F") (PDict sample_rule) = Ok true) as H65
    by (vm_compute; reflexivity).
  split; [exact H18|]. split; [exact H65|].
  apply (accepted_ages_form_interval 18 30 65 _ _ ltac:(lia) H18 H65).
Defined.

(** X4. The verdict depends on the patient's gender only through its
    uppercase form, and on an eligibility module whose sex is neither FEMALE
    nor MALE, spelled so, it does not depend on the gender at all. *)
Theorem gender_matters_through_uppercase (patient_age : Z) (gender gender' : pystr)
    (eligibility : pyval) :
  (Str.upper gender = Str.upper gender' →
   meets_structured_criteria patient_age gender eligibility
   = meets_structured_criteria patient_age gender' eligibility)
  ∧ (∀ items,
       eligibility = PDict items →
       rule_sex items ≠ PStr (lit "FEMALE") →
       rule_sex items ≠ PStr (lit "MALE") →
       meets_structured_criteria patient_age gender eligibility
       = meets_structured_criteria patient_age gender' eligibility).
Proof.
  split.
  - intros Hupper. by rewrite !meets_by_bounds, Hupper.
  - intros items -> Hfemale Hmale. unfold meets_structured_criteria.
    cbn [Py.get]. rewrite !bind_Ok. fold (rule_sex items).
    assert (Py.eq_str (rule_sex items) (lit "FEMALE") = false) as ->.
    { destruct (Py.eq_str _ _) eqn:H; [|done]. by apply eq_str_spec in H. }
    assert (Py.eq_str (rule_sex items) (lit "MALE") = false) as ->.
    { destruct (Py.eq_str _ _) eqn:H; [|done]. by apply eq_str_spec in H. }
    reflexivity.
Qed.

(** ** Quoting is injective *)

Lemma escape_head (s : pystr) :
  match Str.replace quote [backslash; quote] s with
  | c :: _ => c ≠ quote
  | [] => s = []
  end.
Proof.
  destruct s as [|c s]; [done|]. unfold Str.replace. cbn [mbind list_bind].
  destruct (c =? quote) eqn:Hc; cbn [app]; [done|]. by apply N.eqb_neq.
Qed.

Lemma escape_injective (s t : pystr) :
  Str.replace quote [backslash; quote] s = Str.replace quote [backslash; quote] t →
  s = t.
Proof.
  revert t. induction s as [|c s IH]; intros t H.
  - pose proof (escape_head t) as Ht. rewrite <- H in Ht. done.
  - destruct t as [|d t].
    + pose proof (escape_head (c :: s)) as Hs. rewrite H in Hs. done.
    + unfold Str.replace in H. cbn [mbind list_bind] in H.
      fold (Str.replace quote [backslash; quote] s) in H.
      fold (Str.replace quote [backslash; quote] t) in H.
      destruct (c =? quote) eqn:Hc, (d =? quote) eqn:Hd; cbn [app] in H.
      * apply N.eqb_eq in Hc, Hd. injection H as H. f_equal; [congruence|by apply IH].
      * injection H as Hd' H. pose proof (escape_head t) as Ht.
        rewrite <- H in Ht. done.
      * injection H as Hc' H. pose proof (escape_head s) as Hs.
        rewrite H in Hs. done.
      * injection H as -> H. f_equal. by apply IH.
Qed.

Lemma escape_keeps_special (s : pystr) :
  existsb essie_special (Str.replace quote [backslash; quote] s)
  = existsb essie_special s.
Proof.
  induction s as [|c s IH]; [done|]. unfold Str.replace. cbn [mbind list_bind].
  fold (Str.replace quote [backslash; quote] s).
  rewrite existsb_app, IH. destruct (c =? quote) eqn:Hc; [|by cbn; rewrite orb_false_r].
  apply N.eqb_eq in Hc as ->. reflexivity.
Qed.

Lemma quote_for_essie_same_term (s t : pystr) :
  quote_for_essie (PStr s) = quote_for_essie (PStr t) → s = t.
Proof.
  cbn [quote_for_essie].
  destruct (existsb essie_special s) eqn:Hs, (existsb essie_special t) eqn:Ht;
    intros [= H].
  - apply app_inv_tail in H. by apply escape_injective.
  - exfalso. rewrite <- H in Ht. cbn [app existsb] in Ht.
    rewrite existsb_app, escape_keeps_special, Hs in Ht.
    by rewrite orb_true_r in Ht.
  - exfalso. rewrite H in Hs. cbn [app existsb] in Hs.
    rewrite existsb_app, escape_keeps_special, Ht in Hs.
    by rewrite orb_true_r in Hs.
  - done.
Qed.

(** X5. Distinct condition texts give distinct search terms. *)
Theorem quote_for_essie_injective (s t : pystr) :
  s ≠ t → quote_for_essie (PStr s) ≠ quote_for_essie (PStr t).
Proof. intros Hne Heq. by apply Hne, quote_for_essie_same_term. Qed.

Lemma quote_for_essie_injective_witness :
  lit "heart attack" ≠ [quote] ++ lit "heart attack" ++ [quote]
  ∧ quote_for_essie (PStr (lit "heart attack"))
    ≠ quote_for_essie (PStr ([quote] ++ lit "heart attack" ++ [quote])).
Proof.
  assert (lit "heart attack" ≠ [quote] ++ lit "heart attack" ++ [quote]) as Hne
    by (vm_compute; discriminate).
  split; [exact Hne|]. exact (quote_for_essie_injective _ _ Hne).
Defined.

(** ** The requests of a fetch *)

Lemma fetch_loop_chained (reg : registry) (fuel : nat) :
  ∀ p studies token sent outcome sent',
    fetch_loop fuel reg p studies token sent = (outcome, sent') →
    ∃ issued, sent' = sent ++ issued ∧ chained reg sent p token issued.
Proof.
  induction fuel as [|fuel IH]; intros p studies token sent outcome sent' Hrun.
  - injection Hrun as <- <-. exists []. by rewrite app_nil_r.
  - cbn [fetch_loop] in Hrun. cbv zeta in Hrun.
    set (r := next_request p token) in *.
    assert (∃ issued, sent ++ [r] = sent ++ issued ∧ chained reg sent p token issued)
      as Hone by (exists [r]; split; [reflexivity|split; [reflexivity|exact I]]).
    destruct (Requests.prepare r) as [[]|e].
    2: { injection Hrun as <- <-. exists []. by rewrite app_nil_r. }
    destruct (reg sent r) as [name|status_code json] eqn:Hreply;
      [by injection Hrun as <- <-|].
    destruct (is_error_status status_code) eqn:Hstatus; [by injection Hrun as <- <-|].
    destruct json as [data|]; [|by injection Hrun as <- <-].
    destruct (read_page data) as [[chunk next_token]|e] eqn:Hpage;
      [|by injection Hrun as <- <-].
    destruct (Py.truthy next_token) eqn:Htoken; [|by injection Hrun as <- <-].
    apply IH in Hrun as (issued & -> & Hchain).
    exists (r :: issued). split; [by rewrite <- app_assoc|].
    split; [done|]. destruct issued as [|r' later]; [done|].
    exists status_code, data, chunk, next_token.
    split; [done|]. split; [done|]. split; [done|]. split; [done|]. exact Hchain.
Qed.

Lemma chained_same_query (reg : registry) (issued : list params) :
  ∀ sent p token first,
    same_query first p →
    chained reg sent p token issued →
    Forall (same_query first) issued.
Proof.
  induction issued as [|r later IH]; intros sent p token first Hsame Hchain;
    [constructor|].
  destruct Hchain as [-> Hlater]. constructor; [by apply same_query_next|].
  destruct later as [|r' later]; [constructor|].
  destruct Hlater as (? & ? & ? & next_token & _ & _ & _ & _ & Hchain).
  eapply IH; [|exact Hchain]. by apply same_query_next.
Qed.

Lemma fetch_ctg_studies_chained (fuel : nat) (reg : registry) (condition : pyval)
    (age : Z) (status_list : list pystr) (page_size : Z) (sent sent' : list params)
    (outcome : option (result (list pyval))) :
  fetch_ctg_studies fuel reg condition age status_list page_size sent = (outcome, sent') →
  ∃ issued,
    sent' = sent ++ issued
    ∧ (issued = []
       ∨ ∃ s, condition = PStr s
              ∧ chained reg sent (first_params s age status_list page_size) PNone issued).
Proof.
  unfold fetch_ctg_studies, format_age_essie, Py.str_int.
  destruct (Py.int_writable age); cbn [mbind result_bind].
  2: { intros [= <- <-]. exists []. split; [by rewrite app_nil_r|by left]. }
  destruct condition as [| | | |s| |];
    try (intros [= <- <-]; exists []; split; [by rewrite app_nil_r|by left]).
  rewrite quote_for_essie_string. intros Hrun.
  apply fetch_loop_chained in Hrun as (issued & -> & Hchain).
  exists issued. split; [done|]. right. by exists s.
Qed.

(** X6. The requests of one fetch all carry the format, the condition term,
    the status filter, the age filter, the field list, the page size and the
    count flag of the first request of the query; the first of them, if any
    is sent, is that request, which carries no page token; the fetch adds
    its requests to the log and leaves what was logged before in place. *)
Theorem fetch_keeps_query (fuel : nat) (reg : registry) (condition : pystr) (age : Z)
    (status_list : list pystr) (page_size : Z) (sent sent' : list params)
    (outcome : option (result (list pyval))) :
  fetch_ctg_studies fuel reg (PStr condition) age status_list page_size sent
  = (outcome, sent') →
  ∃ issued,
    sent' = sent ++ issued
    ∧ Forall (same_query (first_params condition age status_list page_size)) issued
    ∧ (∀ r, head issued = Some r →
            r = first_params condition age status_list page_size
            ∧ pageToken r = None).
Proof.
  intros Hrun.
  apply fetch_ctg_studies_chained in Hrun as (issued & -> & [->|(s & [= <-] & Hchain)]).
  - exists []. split; [done|]. split; [constructor|]. intros r [=].
  - exists issued. split; [done|]. split.
    + eapply chained_same_query; [apply same_query_refl|exact Hchain].
    + intros r Hhead. destruct issued as [|r' later]; [discriminate Hhead|].
      injection Hhead as ->. destruct Hchain as [-> _]. done.
Qed.

Lemma fetch_keeps_query_witness :
  fetch_ctg_studies 2 two_page_registry (PStr (lit "Diabetes")) 45 default_statuses 20 []
  = (Some (Ok [study_json trial_NCT1; study_json trial_NCT2]),
     [diabetes_params; page_request diabetes_params (PStr (lit "T2"))])
  ∧ ∃ issued,
      [diabetes_params; page_request diabetes_params (PStr (lit "T2"))] = [] ++ issued
      ∧ Forall (same_query diabetes_params) issued
      ∧ (∀ r, head issued = Some r → r = diabetes_params ∧ pageToken r = None).
Proof.
  assert (fetch_ctg_studies 2 two_page_registry (PStr (lit "Diabetes")) 45
            default_statuses 20 []
          = (Some (Ok [study_json trial_NCT1; study_json trial_NCT2]),
             [diabetes_params; page_request diabetes_params (PStr (lit "T2"))]))
    as Hrun by (vm_compute; reflexivity).
  split; [exact Hrun|].
  exact (fetch_keeps_query _ _ _ _ _ _ _ _ _ Hrun).
Defined.

Lemma chained_consecutive (reg : registry) (earlier : list params) :
  ∀ sent p token r1 r2 later,
    chained reg sent p token (earlier ++ r1 :: r2 :: later) →
    ∃ status_code data chunk next_token,
      reg (sent ++ earlier) r1 = Reply status_code (Some data)
      ∧ is_error_status status_code = false
      ∧ read_page data = Ok (chunk, next_token)
      ∧ Py.truthy next_token = true
      ∧ r2 = with_pageToken r1 next_token.
Proof.
  induction earlier as [|r earlier IH]; intros sent p token r1 r2 later Hchain.
  - cbn [app chained] in Hchain.
    destruct Hchain as (_ & code & data & chunk & t & Hreply & Hstatus & Hpage & Ht
                        & Hr2 & _).
    exists code, data, chunk, t. rewrite app_nil_r.
    split; [done|]. split; [done|]. split; [done|]. split; [done|].
    rewrite Hr2. unfold next_request. by rewrite Ht.
  - cbn [app chained] in Hchain.
    destruct Hchain as (_ & Hlater).
    destruct (earlier ++ r1 :: r2 :: later) as [|x rest] eqn:Hrest;
      [by destruct earlier|].
    destruct Hlater as (? & ? & ? & t & _ & _ & _ & _ & Hchain).
    rewrite <- Hrest in Hchain. apply IH in Hchain.
    by rewrite <- app_assoc in Hchain.
Qed.

(** X7. Of two requests that one fetch sends one after the other, the first
    was answered with a page, under a status that is no error, whose
    [nextPageToken] counts as true, and the second carries that value as its
    page token and the other parameters of the first. *)
Theorem fetch_chains_tokens (fuel : nat) (reg : registry) (condition : pyval) (age : Z)
    (status_list : list pystr) (page_size : Z) (sent sent' : list params)
    (outcome : option (result (list pyval))) :
  fetch_ctg_studies fuel reg condition age status_list page_size sent = (outcome, sent') →
  ∀ earlier r1 r2 later,
    sent' = sent ++ earlier ++ r1 :: r2 :: later →
    ∃ status_code data chunk next_token,
      reg (sent ++ earlier) r1 = Reply status_code (Some data)
      ∧ is_error_status status_code = false
      ∧ read_page data = Ok (chunk, next_token)
      ∧ Py.truthy next_token = true
      ∧ pageToken r2 = Some next_token
      ∧ same_query r1 r2.
Proof.
  intros Hrun earlier r1 r2 later Hsent.
  apply fetch_ctg_studies_chained in Hrun as (issued & -> & [->|(s & _ & Hchain)]);
    apply app_inv_head in Hsent; [by destruct earlier|]. subst issued.
  destruct (chained_consecutive _ _ _ _ _ _ _ _ Hchain)
    as (status_code & data & chunk & next_token & Hreply & Hstatus & Hpage & Htoken & ->).
  exists status_code, data, chunk, next_token.
  split; [done|]. split; [done|]. split; [done|]. split; [done|].
  split; [reflexivity|by repeat split].
Qed.

Lemma fetch_chains_tokens_witness :
  fetch_ctg_studies 2 two_page_registry (PStr (lit "Diabetes")) 45 default_statuses 20 []
  = (Some (Ok [study_json trial_NCT1; study_json trial_NCT2]),
     [diabetes_params; page_request diabetes_params (PStr (lit "T2"))])
  ∧ ∃ status_code data chunk next_token,
      two_page_registry ([] ++ []) diabetes_params = Reply status_code (Some data)
      ∧ is_error_status status_code = false
      ∧ read_page data = Ok (chunk, next_token)
      ∧ Py.truthy next_token = true
      ∧ pageToken (page_request diabetes_params (PStr (lit "T2"))) = Some next_token
      ∧ same_query diabetes_params (page_request diabetes_params (PStr (lit "T2"))).
Proof.
  assert (fetch_ctg_studies 2 two_page_registry (PStr (lit "Diabetes")) 45
            default_statuses 20 []
          = (Some (Ok [study_json trial_NCT1; study_json trial_NCT2]),
             [diabetes_params; page_request diabetes_params (PStr (lit "T2"))]))
    as Hrun by (vm_compute; reflexivity).
  split; [exact Hrun|].
  exact (fetch_chains_tokens _ _ _ _ _ _ _ _ _ Hrun [] _ _ [] eq_refl).
Defined.

(** ** Matching on any registry data *)

(** X8. A patient whose first condition is not a string makes the function
    raise before anything is sent to the registry: [TypeError], from the
    pattern search of [quote_for_essie], when the age is one [str] can write,
    and [ValueError], from [format_age_essie], which runs first, when the age
    has more than 4300 digits. *)
Theorem match_rejects_non_string_condition (fuel : nat) (reg : registry)
    (row : patient_row) (statuses : option (list pystr)) (sent : list params)
    (primary : pyval) (others : list pyval) :
  CONDITION_LIST row = Some (PList (primary :: others)) →
  (∀ s, primary ≠ PStr s) →
  (formattable (AGE row) →
   match_patient_to_trials fuel reg row statuses sent = (Some (Raise TypeError), sent))
  ∧ (¬ formattable (AGE row) →
     match_patient_to_trials fuel reg row statuses sent = (Some (Raise ValueError), sent)).
Proof.
  intros Hcl Hprimary.
  rewrite (match_patient_with_conditions _ _ _ _ _ _ _ Hcl). split; intros Hage.
  - unfold fetch_ctg_studies. rewrite (format_age_essie_formattable _ Hage).
    destruct primary; try reflexivity. by destruct (Hprimary s).
  - by rewrite fetch_ctg_studies_unformattable.
Qed.

Lemma match_rejects_non_string_condition_witness :
  formattable 30
  ∧ match_patient_to_trials 3 one_page_registry row_with_numeric_condition None []
    = (Some (Raise TypeError), [])
  ∧ ¬ formattable (10 ^ 4300)
  ∧ match_patient_to_trials 3 one_page_registry row_with_long_age None []
    = (Some (Raise ValueError), []).
Proof.
  assert (formattable 30) as Hshort by (apply Nat.leb_le; vm_compute; reflexivity).
  assert (¬ formattable (10 ^ 4300)) as Hlong
    by (apply Nat.leb_nle; vm_compute; reflexivity).
  split; [exact Hshort|]. split; [|split; [exact Hlong|]].
  - apply (match_rejects_non_string_condition 3 one_page_registry
             row_with_numeric_condition None [] (PInt 44054006) [PStr (lit "Diabetes")]).
    + reflexivity.
    + intros s H. discriminate H.
    + exact Hshort.
  - apply (match_rejects_non_string_condition 3 one_page_registry
             row_with_long_age None [] (PInt 44054006) []).
    + reflexivity.
    + intros s H. discriminate H.
    + exact Hlong.
Defined.

Lemma match_trial_by_lower_set (age : Z) (gender : pystr)
    (patient_conditions patient_conditions' : list pyval) (st : pyval) :
  lower_set patient_conditions = lower_set patient_conditions' →
  match_trial age gender patient_conditions st
  = match_trial age gender patient_conditions' st.
Proof.
  intros Hset. unfold match_trial.
  repeat first
    [ rewrite Hset; reflexivity
    | match goal with
      | |- (?m ≫= _) = (?m ≫= _) => destruct m; [rewrite !bind_Ok|reflexivity]
      | |- (if ?b then _ else _) = (if ?b then _ else _) => destruct b; [reflexivity|]
      end ].
Qed.

Lemma match_loop_by_lower_set (age : Z) (gender : pystr)
    (patient_conditions patient_conditions' : list pyval) (trials_data : list pyval) :
  lower_set patient_conditions = lower_set patient_conditions' →
  ∀ matched,
    match_loop age gender patient_conditions trials_data matched
    = match_loop age gender patient_conditions' trials_data matched.
Proof.
  intros Hset. induction trials_data as [|st rest IH]; intros matched; [reflexivity|].
  cbn [match_loop]. rewrite (match_trial_by_lower_set _ _ _ _ _ Hset).
  destruct (match_trial _ _ _ _) as [entry|]; [|reflexivity].
  rewrite !bind_Ok. apply IH.
Qed.

(** X9. Given the first condition, which makes the query, the outcome depends
    on the patient's conditions only through the set of their lowercase
    forms: their order, their spelling in upper or lower case and their
    repetitions change neither the matches nor the requests. *)
Theorem match_depends_on_lowercase_set (fuel : nat) (reg : registry)
    (row row' : patient_row) (statuses : option (list pystr)) (sent : list params)
    (primary : pystr) (others others' : list pystr) :
  AGE row = AGE row' →
  GENDER row = GENDER row' →
  CONDITION_LIST row = Some (PList (PStr <$> primary :: others)) →
  CONDITION_LIST row' = Some (PList (PStr <$> primary :: others')) →
  (∀ l, l ∈ Str.lower <$> primary :: others ↔ l ∈ Str.lower <$> primary :: others') →
  match_patient_to_trials fuel reg row statuses sent
  = match_patient_to_trials fuel reg row' statuses sent.
Proof.
  intros Hage Hgender Hcl Hcl' Hsame.
  rewrite fmap_cons in Hcl, Hcl'.
  rewrite (match_patient_with_conditions _ _ _ _ _ _ _ Hcl),
    (match_patient_with_conditions _ _ _ _ _ _ _ Hcl'), <- Hage, <- Hgender.
  destruct (fetch_ctg_studies _ _ _ _ _ _ _) as [[[trials_data|e]|] sent'];
    [|reflexivity..].
  do 2 f_equal. rewrite <- !fmap_cons. apply match_loop_by_lower_set.
  rewrite !lower_set_strings. f_equal. apply leibniz_equiv. intros l.
  by rewrite !elem_of_list_to_set.
Qed.

Lemma match_depends_on_lowercase_set_witness :
  match_patient_to_trials 2 two_page_registry patient_P1_asthma None []
  = match_patient_to_trials 2 two_page_registry patient_P1_respelled None [].
Proof.
  apply (match_depends_on_lowercase_set 2 two_page_registry patient_P1_asthma
           patient_P1_respelled None [] (lit "Diabetes") [lit "Asthma"]
           [lit "ASTHMA"; lit "diabetes"]); try reflexivity.
  intros l. rewrite !list_elem_of_In. vm_compute. tauto.
Defined.

Lemma match_loop_kept (age : Z) (gender : pystr) (patient_conditions : list pyval)
    (trials_data : list pyval) :
  ∀ matched matches,
    match_loop age gender patient_conditions trials_data matched = Ok matches →
    ∃ kept new,
      matches = matched ++ new
      ∧ kept `sublist_of` trials_data
      ∧ Forall2 (λ st entry,
          match_trial age gender patient_conditions st = Ok (Some entry)) kept new.
Proof.
  induction trials_data as [|st rest IH]; intros matched matches H.
  - injection H as <-. exists [], []. by rewrite app_nil_r.
  - cbn [match_loop] in H. apply bind_Ok_inv in H as (entry & Hst & H).
    apply IH in H as (kept & new & -> & Hsub & Hall).
    destruct entry as [e|].
    + exists (st :: kept), (e :: new). rewrite <- app_assoc.
      split; [done|]. split; [by constructor|by constructor].
    + exists kept, new. split; [done|]. split; [by constructor|done].
Qed.

(** X10. Every match comes from one of the fetched studies; the matches keep
    the order of the studies, and no study gives more than one. *)
Theorem matches_follow_studies (fuel : nat) (reg : registry) (row : patient_row)
    (statuses : option (list pystr)) (sent sent' : list params)
    (primary : pyval) (others : list pyval) (matches : list match_entry) :
  CONDITION_LIST row = Some (PList (primary :: others)) →
  match_patient_to_trials fuel reg row statuses sent = (Some (Ok matches), sent') →
  ∃ trials_data kept,
    fetch_ctg_studies fuel reg primary (AGE row) (default default_statuses statuses)
      20 sent = (Some (Ok trials_data), sent')
    ∧ kept `sublist_of` trials_data
    ∧ Forall2 (λ st entry,
        match_trial (AGE row) (GENDER row) (primary :: others) st = Ok (Some entry))
        kept matches.
Proof.
  intros Hcl. rewrite (match_patient_with_conditions _ _ _ _ _ _ _ Hcl).
  destruct (fetch_ctg_studies _ _ _ _ _ _ _) as [[[trials_data|e]|] sent1];
    [|discriminate..].
  intros [= H <-]. apply match_loop_kept in H as (kept & new & -> & Hsub & Hall).
  by exists trials_data, kept.
Qed.

Lemma matches_follow_studies_witness :
  match_patient_to_trials 2 two_page_registry patient_P1_asthma None []
  = (Some (Ok [match_NCT1;
               {| trialId := PStr (lit "NCT2"); trialName := PStr (lit "T2");
                  eligibilityCriteriaMet := [PStr (lit "diabetes")] |}]),
     [diabetes_params; page_request diabetes_params (PStr (lit "T2"))])
  ∧ ∃ trials_data kept,
      fetch_ctg_studies 2 two_page_registry (PStr (lit "Diabetes")) 45
        default_statuses 20 []
      = (Some (Ok trials_data),
         [diabetes_params; page_request diabetes_params (PStr (lit "T2"))])
      ∧ kept `sublist_of` trials_data
      ∧ Forall2 (λ st entry,
          match_trial 45 (lit "F") [PStr (lit "Diabetes"); PStr (lit "Asthma")] st
          = Ok (Some entry))
          kept
          [match_NCT1;
           {| trialId := PStr (lit "NCT2"); trialName := PStr (lit "T2");
              eligibilityCriteriaMet := [PStr (lit "diabetes")] |}].
Proof.
  assert (match_patient_to_trials 2 two_page_registry patient_P1_asthma None []
          = (Some (Ok [match_NCT1;
                       {| trialId := PStr (lit "NCT2"); trialName := PStr (lit "T2");
                          eligibilityCriteriaMet := [PStr (lit "diabetes")] |}]),
             [diabetes_params; page_request diabetes_params (PStr (lit "T2"))]))
    as Hrun by (vm_compute; reflexivity).
  split; [exact Hrun|].
  exact (matches_follow_studies 2 two_page_registry patient_P1_asthma None [] _
           (PStr (lit "Diabetes")) [PStr (lit "Asthma")] _ eq_refl Hrun).
Defined.

Lemma intersect_loop_sublist (lowered : gset pystr) (trial_conditions : list pyval) :
  ∀ acc kept,
    intersect_loop lowered trial_conditions acc = Ok kept →
    ∃ new, kept = acc ++ new
           ∧ new `sublist_of` trial_conditions
           ∧ Forall (λ c, ∃ s, c = PStr s) new.
Proof.
  induction trial_conditions as [|c tcs IH]; intros acc kept H.
  - injection H as <-. exists []. by rewrite app_nil_r.
  - cbn [intersect_loop] in H. apply bind_Ok_inv in H as (l & Hl & H).
    apply IH in H as (new & -> & Hsub & Hstr).
    destruct (bool_decide (l ∈ lowered)).
    + exists (c :: new). rewrite <- app_assoc. split; [done|].
      split; [by constructor|]. constructor; [|done].
      destruct c; try discriminate. by eexists.
    + exists new. split; [done|]. split; [by constructor|done].
Qed.

(** X11. The conditions that a match lists are strings taken from the list
    the study publishes under [conditions], in the order in which the study
    lists them. *)
Theorem match_lists_study_conditions (age : Z) (gender : pystr)
    (patient_conditions : list pyval) (st : pyval) (entry : match_entry) :
  match_trial age gender patient_conditions st = Ok (Some entry) →
  ∃ cond_mod listed trial_conditions,
    protocol_module st (lit "conditionsModule") = Ok cond_mod
    ∧ Py.get cond_mod (lit "conditions") (PList []) = Ok listed
    ∧ Py.iterate listed = Ok trial_conditions
    ∧ eligibilityCriteriaMet entry `sublist_of` trial_conditions
    ∧ Forall (λ c, ∃ s, c = PStr s) (eligibilityCriteriaMet entry).
Proof.
  unfold match_trial. intros H.
  apply bind_Ok_inv in H as (elig_mod & _ & H).
  apply bind_Ok_inv in H as (ok & _ & H).
  destruct ok; cbn [negb] in H; [|discriminate].
  apply bind_Ok_inv in H as (cond_mod & Hmod & H).
  apply bind_Ok_inv in H as (listed & Hlisted & H).
  apply bind_Ok_inv in H as (tcs & Htcs & H).
  apply bind_Ok_inv in H as (tcl & _ & H).
  apply bind_Ok_inv in H as (pcl & _ & H).
  apply bind_Ok_inv in H as (kept & Hkept & H).
  destruct (bool_decide (kept = [])) eqn:Hempty; [discriminate|].
  apply bool_decide_eq_false in Hempty.
  apply bind_Ok_inv in H as (ident_mod & _ & H).
  apply bind_Ok_inv in H as (nct_id & _ & H).
  apply bind_Ok_inv in H as (brief_title & _ & H).
  injection H as <-. cbn [eligibilityCriteriaMet].
  apply intersect_loop_sublist in Hkept as (new & -> & Hsub & Hstr). cbn [app] in *.
  exists cond_mod, listed, tcs. split; [done|]. split; [done|].
  destruct (Py.truthy listed).
  - done.
  - injection Htcs as <-. apply sublist_nil_r in Hsub. done.
Qed.

Lemma match_lists_study_conditions_witness :
  match_trial 45 (lit "F") [PStr (lit "Diabetes")] (study_json trial_NCT1)
  = Ok (Some match_NCT1)
  ∧ ∃ cond_mod listed trial_conditions,
      protocol_module (study_json trial_NCT1) (lit "conditionsModule") = Ok cond_mod
      ∧ Py.get cond_mod (lit "conditions") (PList []) = Ok listed
      ∧ Py.iterate listed = Ok trial_conditions
      ∧ eligibilityCriteriaMet match_NCT1 `sublist_of` trial_conditions
      ∧ Forall (λ c, ∃ s, c = PStr s) (eligibilityCriteriaMet match_NCT1).
Proof.
  assert (match_trial 45 (lit "F") [PStr (lit "Diabetes")] (study_json trial_NCT1)
          = Ok (Some match_NCT1)) as Hrun by (vm_compute; reflexivity).
  split; [exact Hrun|].
  exact (match_lists_study_conditions _ _ _ _ _ Hrun).
Defined.

(** ** The run over all patients *)

Lemma join_items_strings (xs : list pyval) :
  Forall (λ c, ∃ s, c = PStr s) xs → join_items xs = Ok (condition_texts xs).
Proof.
  induction 1 as [|c xs [s ->] _ IH]; [reflexivity|].
  cbn [join_items]. rewrite IH. reflexivity.
Qed.

Lemma csv_loop_strings (patient_id : pystr) (matches : list match_entry) :
  lists_strings matches →
  ∀ csv_rows,
    csv_loop patient_id matches csv_rows
    = Ok (csv_rows ++ (csv_row_of patient_id <$> matches)).
Proof.
  induction 1 as [|mt matches Hmt _ IH]; intros csv_rows.
  - cbn. by rewrite app_nil_r.
  - cbn [csv_loop]. unfold join_values. rewrite (join_items_strings _ Hmt), !bind_Ok.
    rewrite IH, fmap_cons, <- app_assoc. reflexivity.
Qed.

Lemma matches_list_strings (fuel : nat) (reg : registry) (row : patient_row)
    (statuses : option (list pystr)) (sent sent' : list params)
    (matches : list match_entry) :
  match_patient_to_trials fuel reg row statuses sent = (Some (Ok matches), sent') →
  lists_strings matches.
Proof.
  intros H.
  destruct (CONDITION_LIST row) as [[| | | | |[|primary others]|]|] eqn:Hcl.
  all: try (rewrite match_patient_without_conditions in H
              by (rewrite Hcl; discriminate);
            injection H as <- _; constructor).
  rewrite (match_patient_with_conditions _ _ _ _ _ primary others Hcl) in H.
  destruct (fetch_ctg_studies _ _ _ _ _ _ _) as [[[trials_data|e]|] sent1];
    [|discriminate..].
  injection H as H _. revert H.
  apply match_loop_entries; [|constructor].
  intros st entry Hst. apply match_trial_entry in Hst as [_ Hall].
  apply Forall_forall. intros c Hc.
  destruct (Hall c Hc) as (_ & l & _ & Hl & _).
  destruct c; try discriminate. by eexists.
Qed.

Lemma main_loop_outcomes (fuel : nat) (reg : registry) (rows : list (pystr * patient_row)) :
  ∀ all_results csv_rows sent outcome sent',
    main_loop fuel reg rows all_results csv_rows sent = (Some outcome, sent') →
    match outcome with
    | Ok (all_results', csv_rows') =>
        ∃ entries,
          all_results' = all_results ++ entries
          ∧ patientId <$> entries = rows.*1
          ∧ csv_rows' = csv_rows ++ (entries ≫= entry_rows)
    | Raise e =>
        ∃ before patient_id row after sent0,
          rows = before ++ (patient_id, row) :: after
          ∧ match_patient_to_trials fuel reg row None sent0 = (Some (Raise e), sent')
    end.
Proof.
  induction rows as [|[patient_id row] rows IH];
    intros all_results csv_rows sent outcome sent' Hrun.
  - injection Hrun as <- <-. exists []. by rewrite !app_nil_r.
  - cbn [main_loop] in Hrun.
    destruct (match_patient_to_trials fuel reg row None sent)
      as [[[matches|e]|] sent1] eqn:Hmatch; [| |discriminate].
    + cbv zeta in Hrun.
      rewrite (csv_loop_strings _ _ (matches_list_strings _ _ _ _ _ _ _ Hmatch)) in Hrun.
      apply IH in Hrun. destruct outcome as [[all_results' csv_rows']|e].
      * destruct Hrun as (entries & -> & Hids & ->).
        exists ({| patientId := patient_id; eligibleTrials := matches |} :: entries).
        rewrite <- !app_assoc. split; [done|]. split; [by cbn; rewrite Hids|].
        reflexivity.
      * destruct Hrun as (before & pid & r & after & sent0 & -> & Hfail).
        by exists ((patient_id, row) :: before), pid, r, after, sent0.
    + injection Hrun as <- <-.
      by exists [], patient_id, row, rows, sent.
Qed.

(** X12. When the run over the patient table succeeds, [all_results] holds
    one entry for each row, in the order of the rows and under its patient
    id, and [csv_rows] holds, in the same order, one row for each match of
    each entry, whose last field joins the matched conditions with a
    semicolon and a space. *)
Theorem main_loop_results (fuel : nat) (reg : registry) (rows : list (pystr * patient_row))
    (sent sent' : list params) (all_results : list result_entry)
    (csv_rows : list csv_row) :
  main_loop fuel reg rows [] [] sent = (Some (Ok (all_results, csv_rows)), sent') →
  patientId <$> all_results = rows.*1
  ∧ csv_rows = all_results ≫= entry_rows.
Proof.
  intros Hrun. apply main_loop_outcomes in Hrun as (entries & -> & Hids & ->). done.
Qed.

(** X13. The run over the patient table raises only what
    [match_patient_to_trials] raises for one of the patients, and the log of
    requests ends with that call: joining the matched conditions never
    fails, and no patient after the failing one is processed. *)
Theorem main_loop_fails_with_a_patient (fuel : nat) (reg : registry)
    (rows : list (pystr * patient_row)) (sent sent' : list params) (e : exn) :
  main_loop fuel reg rows [] [] sent = (Some (Raise e), sent') →
  ∃ before patient_id row after sent0,
    rows = before ++ (patient_id, row) :: after
    ∧ match_patient_to_trials fuel reg row None sent0 = (Some (Raise e), sent').
Proof. intros Hrun. by apply main_loop_outcomes in Hrun. Qed.

(** X14. For a table in which no patient has a non-empty condition list, the
    run sends no request and gives every patient an entry without trials,
    and no row. *)
Theorem main_loop_without_conditions (fuel : nat) (reg : registry)
    (rows : list (pystr * patient_row)) (sent : list params) :
  Forall (λ r, ∀ primary others,
    CONDITION_LIST r.2 ≠ Some (PList (primary :: others))) rows →
  main_loop fuel reg rows [] [] sent
  = (Some (Ok ((λ r, {| patientId := r.1; eligibleTrials := [] |}) <$> rows, [])), sent).
Proof.
  intros Hrows.
  assert (∀ all_results,
            main_loop fuel reg rows all_results [] sent
            = (Some (Ok (all_results
                         ++ ((λ r, {| patientId := r.1; eligibleTrials := [] |}) <$> rows),
                         [])), sent)) as Hgen; [|apply (Hgen [])].
  induction Hrows as [|[patient_id row] rows Hrow _ IH]; intros all_results.
  - cbn. by rewrite app_nil_r.
  - cbn [main_loop]. rewrite match_patient_without_conditions by exact Hrow.
    cbn [csv_loop]. cbv zeta. rewrite IH, fmap_cons, <- app_assoc. reflexivity.
Qed.

Lemma main_loop_results_witness :
  main_loop 1 one_page_registry sample_table [] [] []
  = (Some (Ok (sample_results, sample_csv_rows)), [diabetes_params])
  ∧ patientId <$> sample_results = sample_table.*1
  ∧ sample_csv_rows = sample_results ≫= entry_rows.
Proof.
  assert (main_loop 1 one_page_registry sample_table [] [] []
          = (Some (Ok (sample_results, sample_csv_rows)), [diabetes_params])) as Hrun
    by (vm_compute; reflexivity).
  split; [exact Hrun|]. exact (main_loop_results _ _ _ _ _ _ _ Hrun).
Defined.

Lemma main_loop_fails_with_a_patient_witness :
  main_loop 1 one_page_registry failing_table [] [] []
  = (Some (Raise TypeError), [diabetes_params])
  ∧ ∃ before patient_id row after sent0,
      failing_table = before ++ (patient_id, row) :: after
      ∧ match_patient_to_trials 1 one_page_registry row None sent0
        = (Some (Raise TypeError), [diabetes_params]).
Proof.
  assert (main_loop 1 one_page_registry failing_table [] [] []
          = (Some (Raise TypeError), [diabetes_params])) as Hrun
    by (vm_compute; reflexivity).
  split; [exact Hrun|]. exact (main_loop_fails_with_a_patient _ _ _ _ _ _ Hrun).
Defined.

Lemma main_loop_without_conditions_witness :
  main_loop 0 one_page_registry idle_table [] [] []
  = (Some (Ok ([{| patientId := lit "P2"; eligibleTrials := [] |};
                {| patientId := lit "P4"; eligibleTrials := [] |}], [])), []).
Proof.
  apply (main_loop_without_conditions 0 one_page_registry idle_table []).
  repeat constructor; intros primary others H; discriminate H.
Defined.

(** ** Ages from birthdates *)

Lemma int_raises_value_error (s : pystr) (e : exn) : Py.int s = Raise e → e = ValueError.
Proof.
  unfold Py.int.
  destruct (reverse _) as [|c r]; [|destruct (c =? 0x2D), (c =? 0x2B)];
    (destruct (Py.digits _ _ _ _) as [[count n]|];
     [destruct (bool_decide _)|]); congruence.
Qed.

Lemma strptime_raises (v : pyval) (e : exn) :
  Datetime.strptime_ymd v = Raise e → e = ValueError ∨ e = TypeError.
Proof.
  unfold Datetime.strptime_ymd. destruct v; try (intros [= <-]; by right).
  destruct (Datetime.match_ymd s) as [[[[Y m] d] [|]]|]; try (intros [= <-]; by left).
  destruct (Py.int Y) as [year|e1] eqn:HY;
    [|intros [= <-]; left; by eapply int_raises_value_error].
  destruct (Py.int m) as [month|e2] eqn:Hm;
    [|intros [= <-]; left; by eapply int_raises_value_error].
  destruct (Py.int d) as [day|e3] eqn:Hd;
    [|intros [= <-]; left; by eapply int_raises_value_error].
  rewrite !bind_Ok. unfold Datetime.ymd2ord.
  destruct (_ && _); [discriminate|intros [= <-]; by left].
Qed.

(** X15. [compute_age] never raises: for a text that [strptime] reads as a
    date it returns the days since that date divided by 365, rounded down,
    which is negative exactly when the date lies after today; for anything
    else, a value that is no string included, it returns 0. *)
Theorem compute_age_outcomes (today : Z) (birthdate_str : pyval) :
  ∃ age,
    compute_age today birthdate_str = Ok age
    ∧ match Datetime.strptime_ymd birthdate_str with
      | Ok birthdate =>
          age = ((today - birthdate) / 365)%Z ∧ ((age < 0)%Z ↔ (today < birthdate)%Z)
      | Raise _ => age = 0%Z
      end.
Proof.
  unfold compute_age.
  destruct (Datetime.strptime_ymd birthdate_str) as [birthdate|e] eqn:Hparse.
  - eexists. split; [reflexivity|]. split; [reflexivity|].
    Z.div_mod_to_equations. lia.
  - exists 0%Z. split; [|done].
    by destruct (strptime_raises _ _ Hparse) as [-> | ->].
Qed.

Lemma ymd2ord_inv (year month day ordinal : Z) :
  Datetime.ymd2ord year month day = Ok ordinal →
  (1 ≤ year ≤ 9999 ∧ 1 ≤ month ≤ 12 ∧ 1 ≤ day)%Z
  ∧ ordinal = (Datetime.days_before_year year
               + Datetime.days_before_month year month + day)%Z.
Proof.
  unfold Datetime.ymd2ord. destruct (_ && _) eqn:Hvalid; [|discriminate].
  intros [= <-]. rewrite !andb_true_iff, !Z.leb_le in Hvalid. split; [lia|done].
Qed.

Lemma leap_count_step (year : Z) :
  (if Datetime.is_leap year then 1 else 0)%Z = (leap_count year - leap_count (year - 1))%Z.
Proof.
  unfold Datetime.is_leap, leap_count.
  destruct (Z.eqb_spec (year mod 4) 0), (Z.eqb_spec (year mod 100) 0),
    (Z.eqb_spec (year mod 400) 0); cbn [negb andb orb];
    Z.div_mod_to_equations; lia.
Qed.

Lemma leap_count_span (year k : Z) :
  (0 ≤ k ≤ 120)%Z → (0 ≤ leap_count (year + k) - leap_count year < 365)%Z.
Proof. unfold leap_count. intros Hk. Z.div_mod_to_equations. lia. Qed.

Lemma days_before_year_leaps (year : Z) :
  Datetime.days_before_year year = ((year - 1) * 365 + leap_count (year - 1))%Z.
Proof. unfold Datetime.days_before_year, leap_count. lia. Qed.

Lemma days_before_month_leaps (year month : Z) :
  (1 ≤ month ≤ 12)%Z →
  ∃ days, ∀ y,
    Datetime.days_before_month y month
    = (days + if (2 <? month)%Z then leap_count y - leap_count (y - 1) else 0)%Z.
Proof.
  intros Hm. unfold Datetime.days_before_month. eexists. intros y.
  rewrite <- leap_count_step. f_equal.
  by destruct (2 <? month)%Z, (Datetime.is_leap y).
Qed.

Lemma days_between_anniversaries (year month day k birthdate anniversary : Z) :
  Datetime.ymd2ord year month day = Ok birthdate →
  Datetime.ymd2ord (year + k) month day = Ok anniversary →
  (0 ≤ k ≤ 120)%Z →
  (365 * k ≤ anniversary - birthdate < 365 * k + 365)%Z.
Proof.
  intros Hb Ha Hk.
  apply ymd2ord_inv in Hb as [(Hy & Hm & Hd) ->].
  apply ymd2ord_inv in Ha as [_ ->].
  rewrite !days_before_year_leaps.
  destruct (days_before_month_leaps year month Hm) as [days Hdays].
  rewrite !Hdays.
  pose proof (leap_count_span year k Hk).
  pose proof (leap_count_span (year - 1) k Hk).
  replace (year + k - 1)%Z with (year - 1 + k)%Z by lia.
  destruct (2 <? month)%Z; lia.
Qed.

(** X16. On the same day of the same month [k] years after a birthdate, for
    [k] up to 120, [compute_age] returns [k], and on no later day does it
    return less. *)
Theorem compute_age_on_anniversary (today year month day k birthdate anniversary : Z)
    (birthdate_str : pyval) :
  Datetime.strptime_ymd birthdate_str = Ok birthdate →
  Datetime.ymd2ord year month day = Ok birthdate →
  Datetime.ymd2ord (year + k) month day = Ok anniversary →
  (0 ≤ k ≤ 120)%Z →
  compute_age anniversary birthdate_str = Ok k
  ∧ ((anniversary ≤ today)%Z →
     ∃ age, compute_age today birthdate_str = Ok age ∧ (k ≤ age)%Z).
Proof.
  intros Hparse Hb Ha Hk. unfold compute_age. rewrite Hparse.
  pose proof (days_between_anniversaries _ _ _ _ _ _ Hb Ha Hk) as Hdays.
  split.
  - f_equal. Z.div_mod_to_equations. lia.
  - intros Hlater. eexists. split; [reflexivity|]. Z.div_mod_to_equations. lia.
Qed.

Lemma compute_age_on_anniversary_witness :
  Datetime.strptime_ymd born_1980_06_15 = Ok day_1980_06_15
  ∧ Datetime.ymd2ord (1980 + 45) 6 15 = Ok day_2025_06_15
  ∧ compute_age day_2025_06_15 born_1980_06_15 = Ok 45%Z
  ∧ ((day_2025_06_15 ≤ day_2026_11_04)%Z →
     ∃ age, compute_age day_2026_11_04 born_1980_06_15 = Ok age ∧ (45 ≤ age)%Z).
Proof.
  assert (Datetime.strptime_ymd born_1980_06_15 = Ok day_1980_06_15) as Hparse
    by (vm_compute; reflexivity).
  assert (Datetime.ymd2ord 1980 6 15 = Ok day_1980_06_15) as Hbirth
    by (vm_compute; reflexivity).
  assert (Datetime.ymd2ord (1980 + 45) 6 15 = Ok day_2025_06_15) as Hlater
    by (vm_compute; reflexivity).
  split; [exact Hparse|]. split; [exact Hlater|].
  apply (compute_age_on_anniversary day_2026_11_04 1980 6 15 45 _ _ _
           Hparse Hbirth Hlater).
  lia.
Defined.

(** ** What reaches the registry *)

(** X17. Whatever the registry answers, every request that
    [match_patient_to_trials] sends for a patient asks for the patient's
    first condition, with the patient's age, the given statuses (the two
    default ones when none are given) and a page size of 20: the other
    conditions of the patient reach no request. *)
Theorem match_queries_first_condition (fuel : nat) (reg : registry) (row : patient_row)
    (statuses : option (list pystr)) (sent sent' : list params)
    (primary : pystr) (others : list pyval)
    (outcome : option (result (list match_entry))) :
  CONDITION_LIST row = Some (PList (PStr primary :: others)) →
  match_patient_to_trials fuel reg row statuses sent = (outcome, sent') →
  ∃ issued,
    sent' = sent ++ issued
    ∧ Forall (same_query
                (first_params primary (AGE row) (default default_statuses statuses) 20))
        issued.
Proof.
  intros Hcl. rewrite (match_patient_with_conditions _ _ _ _ _ _ _ Hcl).
  destruct (fetch_ctg_studies _ _ _ _ _ _ _) as [fetched sent1] eqn:Hfetch.
  intros Hrun.
  assert (sent' = sent1) as -> by (by destruct fetched as [[|]|]; injection Hrun).
  apply fetch_ctg_studies_chained in Hfetch
    as (issued & -> & [->|(s & [= <-] & Hchain)]).
  - exists []. split; [done|constructor].
  - exists issued. split; [done|].
    eapply chained_same_query; [apply same_query_refl|exact Hchain].
Qed.

Lemma match_queries_first_condition_witness :
  match_patient_to_trials 2 two_page_registry patient_P1_asthma None []
  = (Some (Ok [match_NCT1;
               {| trialId := PStr (lit "NCT2"); trialName := PStr (lit "T2");
                  eligibilityCriteriaMet := [PStr (lit "diabetes")] |}]),
     [diabetes_params; page_request diabetes_params (PStr (lit "T2"))])
  ∧ ∃ issued,
      [diabetes_params; page_request diabetes_params (PStr (lit "T2"))] = [] ++ issued
      ∧ Forall (same_query (first_params (lit "Diabetes") 45 default_statuses 20)) issued.
Proof.
  assert (match_patient_to_trials 2 two_page_registry patient_P1_asthma None []
          = (Some (Ok [match_NCT1;
                       {| trialId := PStr (lit "NCT2"); trialName := PStr (lit "T2");
                          eligibilityCriteriaMet := [PStr (lit "diabetes")] |}]),
             [diabetes_params; page_request diabetes_params (PStr (lit "T2"))]))
    as Hrun by (vm_compute; reflexivity).
  split; [exact Hrun|].
  exact (match_queries_first_condition 2 two_page_registry patient_P1_asthma None [] _
           (lit "Diabetes") [PStr (lit "Asthma")] _ eq_refl Hrun).
Defined.

Lemma main_loop_app (fuel : nat) (reg : registry)
    (rows rows' : list (pystr * patient_row)) :
  ∀ all_results csv_rows sent,
    main_loop fuel reg (rows ++ rows') all_results csv_rows sent
    = match main_loop fuel reg rows all_results csv_rows sent with
      | (Some (Ok (all_results', csv_rows')), sent') =>
          main_loop fuel reg rows' all_results' csv_rows' sent'
      | stopped => stopped
      end.
Proof.
  induction rows as [|[patient_id row] rows IH]; intros all_results csv_rows sent;
    [reflexivity|].
  cbn [app main_loop].
  destruct (match_patient_to_trials fuel reg row None sent) as [[[matches|e]|] sent1];
    [|reflexivity..].
  cbv zeta. destruct (csv_loop patient_id matches csv_rows); [apply IH|reflexivity].
Qed.

(** X18. A failure for one patient ends the whole run: when the run over the
    rows before a patient succeeds and [match_patient_to_trials] raises for
    that patient, the run over the table raises the same exception with the
    log as that call left it, whatever rows follow. *)
Theorem main_loop_aborts (fuel : nat) (reg : registry)
    (before after : list (pystr * patient_row)) (patient_id : pystr) (row : patient_row)
    (sent sent0 sent1 : list params) (all_results : list result_entry)
    (csv_rows : list csv_row) (e : exn) :
  main_loop fuel reg before [] [] sent = (Some (Ok (all_results, csv_rows)), sent0) →
  match_patient_to_trials fuel reg row None sent0 = (Some (Raise e), sent1) →
  main_loop fuel reg (before ++ (patient_id, row) :: after) [] [] sent
  = (Some (Raise e), sent1).
Proof.
  intros Hbefore Hfail. rewrite main_loop_app, Hbefore.
  cbn [main_loop]. by rewrite Hfail.
Qed.

Lemma main_loop_aborts_witness :
  main_loop 1 one_page_registry
    ([(lit "P1", patient_P1)] ++ (lit "P3", row_with_numeric_condition)
       :: [(lit "P2", row_without_conditions)]) [] [] []
  = (Some (Raise TypeError), [diabetes_params]).
Proof.
  apply (main_loop_aborts 1 one_page_registry [(lit "P1", patient_P1)]
           [(lit "P2", row_without_conditions)] (lit "P3") row_with_numeric_condition
           [] [diabetes_params] [diabetes_params]
           [{| patientId := lit "P1"; eligibleTrials := [match_NCT1] |}]
           sample_csv_rows TypeError).
  - vm_compute. reflexivity.
  - vm_compute. reflexivity.
Defined.
